(** * SkyDB (skynet-js, [src/skydb.ts]): revision cache, read and write paths

    A shallow embedding of the SkyDB orchestrator of skynet-js and of the
    size padding of its encrypted-file codec.

    - JavaScript values are modelled by the data the code inspects: a
      [Uint8Array] is a [list byte], a [bigint] is a [Z], an options object
      is a finite map from property names to values (object spreading is a
      right-biased union), a [Promise] that rejects or a [throw] is a
      [Throw] result.
    - The revision cache [client.revisionNumberCache] is a [gmap string Z]
      threaded through a state-and-exception monad, next to the log of the
      requests made to the collaborators (registry, upload, download).
    - What [skydb.ts] imports from files that are not available is gathered
      in the class [Imports]; the collaborators reached through the client
      are gathered in the class [SkynetClient]. *)

From Stdlib Require Import ZArith Lia.
From Stdlib.Strings Require Import Byte.
From stdpp Require Import base option list strings gmap pretty.

Local Open Scope string_scope.
Local Open Scope Z_scope.

(** ** JavaScript data *)

(** A [Uint8Array]. *)
Abbreviation Uint8Array := (list byte).

#[global] Instance byte_eq_dec : EqDecision byte := Byte.byte_eq_dec.

(** [new Uint8Array(n)]: [n] zero bytes. *)
Definition new_Uint8Array (n : nat) : Uint8Array := replicate n x00.

(** What a [throw] carries: [new Error(msg)], the error built by
    [throwValidationError(name, value, valueKind, expected)] of
    [utils/validation], or the [TypeError] of the runtime. *)
Inductive exn : Type :=
  | Error (msg : string)
  | ValidationError (name : string) (value : Uint8Array) (valueKind expected : string)
  | TypeError (msg : string).

(** The outcome of a call: it returns or it throws. *)
Inductive Result (A : Type) : Type :=
  | Return (a : A)
  | Throw (e : exn).
Arguments Return {A} a.
Arguments Throw {A} e.

(** The values an option property holds. *)
Inductive OptionValue : Type :=
  | OptUndefined
  | OptBool (b : bool)
  | OptString (s : string)
  | OptNumber (n : Z).

(** An options object: property name to value. *)
Abbreviation Options := (gmap string OptionValue).

(** [opts.name]: a missing property reads as [undefined]. *)
Definition getProp (opts : Options) (name : string) : OptionValue :=
  default OptUndefined (opts !! name).

(** JavaScript truthiness of an option value. *)
Definition truthy (v : OptionValue) : bool :=
  match v with
  | OptUndefined => false
  | OptBool b => b
  | OptString s => negb (String.eqb s "")
  | OptNumber n => negb (n =? 0)
  end.

(** [{ ...a, ...b }]: the properties of [b] win. *)
Definition spread (a b : Options) : Options := b ∪ a.

(** [...customOptions] for an optional argument: [undefined] spreads nothing. *)
Definition optional (customOptions : option Options) : Options :=
  default ∅ customOptions.

(** JSON data as [JSON.parse] gives it. The code reads a number only
    through its truthiness, so integers stand for the numbers; the fields of
    an object are looked up by name, the first match counting. *)
#[local] Set Warnings "-register-all".
Inductive JsonData : Type :=
  | JNull
  | JBool (b : bool)
  | JNumber (n : Z)
  | JString (s : string)
  | JArray (items : list JsonData)
  | JObject (fields : list (string * JsonData)).

(** [typeof data === "object"] (true of [null], of arrays and of objects). *)
Definition typeof_object (data : JsonData) : bool :=
  match data with
  | JNull | JArray _ | JObject _ => true
  | _ => false
  end.

(** [data === null]. *)
Definition is_null (data : JsonData) : bool :=
  match data with JNull => true | _ => false end.

Fixpoint assoc (name : string) (fields : list (string * JsonData)) : option JsonData :=
  match fields with
  | [] => None
  | (k, v) :: rest => if String.eqb k name then Some v else assoc name rest
  end.

(** [data[name]] on a non-null object: [None] is [undefined]. An array has
    no property of these names. *)
Definition getField (data : JsonData) (name : string) : option JsonData :=
  match data with
  | JObject fields => assoc name fields
  | _ => None
  end.

(** Truthiness of [data[name]]. *)
Definition json_truthy (v : option JsonData) : bool :=
  match v with
  | None => false
  | Some JNull => false
  | Some (JBool b) => b
  | Some (JNumber n) => negb (n =? 0)
  | Some (JString s) => negb (String.eqb s "")
  | Some (JArray _) | Some (JObject _) => true
  end.

(** ** Types of the module *)

(** [RegistryEntry] of [./registry]. [revision] is read with
    [entry?.revision ?? ...], so its absence is part of the model. *)
Module RegistryEntry.
Record t : Type := mk {
  dataKey : string;
  data : Uint8Array;
  revision : option Z;
}.
End RegistryEntry.
Abbreviation RegistryEntry := RegistryEntry.t.

(** What is handed to [new File([fullData], name, { type })]. *)
Record File : Type := mkFile {
  fileBits : string + Uint8Array;
  fileName : string;
  fileType : string;
}.

Record JSONResponse : Type := mkJSONResponse {
  json_data : option JsonData;
  json_dataLink : option string;
}.

Record RawBytesResponse : Type := mkRawBytesResponse {
  raw_data : option Uint8Array;
  raw_dataLink : option string;
}.

(** [EntryData] of [./mysky]: [{ data: Uint8Array | null }]. *)
Record EntryData : Type := mkEntryData {
  entry_data : option Uint8Array;
}.

(** The requests the module makes to its collaborators. *)
Inductive Request : Type :=
  | GetEntry (publicKey dataKey : string) (opts : Options)
  | SetEntry (privateKey : string) (entry : RegistryEntry) (opts : Options)
  | UploadFile (file : File) (opts : Options)
  | GetFileContent (dataLink : string) (opts : Options).

(** ** State and monad *)

(** The mutable part of a run: the client's revision cache and the requests
    made so far. *)
Record State : Type := mkState {
  revisionNumberCache : gmap string Z;
  requests : list Request;
}.

(** A computation reads and writes the state and returns or throws; a
    throw keeps the state reached. *)
Definition M (A : Type) : Type := State → Result A * State.

Definition ret {A} (a : A) : M A := λ s, (Return a, s).

Definition throw {A} (e : exn) : M A := λ s, (Throw e, s).

Definition bind {A B} (m : M A) (k : A → M B) : M B :=
  λ s, match m s with
       | (Return a, s') => k a s'
       | (Throw e, s') => (Throw e, s')
       end.

(** [try { body } catch (e) { handler(e) }]. *)
Definition try_catch {A} (body : M A) (handler : exn → M A) : M A :=
  λ s, match body s with
       | (Return a, s') => (Return a, s')
       | (Throw e, s') => handler e s'
       end.

(** A call that does not touch the state. *)
Definition lift {A} (r : Result A) : M A := λ s, (r, s).

Definition getCache : M (gmap string Z) := λ s, (Return (revisionNumberCache s), s).

Definition putCache (cache : gmap string Z) : M unit :=
  λ s, (Return tt, mkState cache (requests s)).

(** A request: the collaborator answers from the history of requests, and
    the request is logged. *)
Definition request {A} (answer : list Request → Result A) (req : Request) : M A :=
  λ s, (answer (requests s), mkState (revisionNumberCache s) (requests s ++ [req])).

Notation "'let*' x := m 'in' k" := (bind m (λ x, k))
  (at level 10, x name, m at level 100, k at level 200, only parsing).
Notation "'let*' ' pat := m 'in' k" := (bind m (λ x, match x with pat => k end))
  (at level 10, pat pattern, m at level 100, k at level 200, only parsing).
Notation "m ;; k" := (bind m (λ _, k))
  (at level 100, k at level 200, right associativity, only parsing).

(** ** What the module imports *)

(** Modelled from the spec: [MAX_ENTRY_LENGTH] of [./mysky] is not under
    src/. Section 6 gives the "maximum raw registry-entry payload length
    (70 bytes)", and the documentation of [setEntryData] says it throws
    "if the length of the data is > 70 bytes". *)
Definition MAX_ENTRY_LENGTH : nat := 70.

(** Modelled from the spec: [areEqualUint8Arrays] of [./utils/array] is not
    under src/. Section 4.4: "equality is checked byte-for-byte, not by
    encoding". *)
Fixpoint areEqualUint8Arrays (array1 array2 : Uint8Array) : bool :=
  match array1, array2 with
  | [], [] => true
  | b1 :: rest1, b2 :: rest2 => Byte.eqb b1 b2 && areEqualUint8Arrays rest1 rest2
  | _, _ => false
  end.

(** The other imports of [skydb.ts], none of them under src/: the sizes of
    the two skylink forms, the maximum revision, the default options of the
    collaborators, and the helpers of [utils] and [skylink]. A validator
    returns or throws; the string helpers are total, as their signatures
    say. [publicKeyOf] stands for
    [toHexString(sign.keyPair.fromSecretKey(hexToUint8Array(privateKey)).publicKey)]. *)
Class Imports : Type := {
  RAW_SKYLINK_SIZE : nat;
  BASE64_ENCODED_SKYLINK_SIZE : nat;
  MAX_REVISION : Z;
  URI_SKYNET_PREFIX : string;
  DEFAULT_BASE_OPTIONS : Options;
  DEFAULT_GET_ENTRY_OPTIONS : Options;
  DEFAULT_SET_ENTRY_OPTIONS : Options;
  DEFAULT_DOWNLOAD_OPTIONS : Options;
  DEFAULT_UPLOAD_OPTIONS : Options;
  extractOptions : Options → Options → Options;
  validatePublicKey : string → string → string → Result unit;
  validateHexString : string → string → string → Result unit;
  validateString : string → string → string → Result unit;
  validateObject : string → JsonData → string → Result unit;
  validateUint8Array : string → Uint8Array → string → Result unit;
  validateOptionalObject : string → option Options → string → Options → Result unit;
  validateSkylinkString : string → OptionValue → string → Result string;
  validateUint8ArrayLen : string → Uint8Array → string → nat → Result unit;
  publicKeyOf : string → Result string;
  toHexString : Uint8Array → string;
  stringToUint8ArrayUtf8 : string → Uint8Array;
  uint8ArrayToStringUtf8 : Uint8Array → string;
  trimUriPrefix : string → string → string;
  formatSkylink : string → string;
  encodeSkylinkBase64 : Uint8Array → string;
  decodeSkylinkBase64 : string → Result Uint8Array;
  JSON_stringify : JsonData → string;
}.

(** The client the methods are bound to ([this]): its [customOptions] and the
    collaborators [registry.getEntry], [registry.setEntry], [uploadFile]
    (which returns the skylink of the upload) and [getFileContent] (which
    returns the parsed body, or the bytes for the response type
    ["arraybuffer"]). A collaborator answers from the requests made so far
    and from its arguments. *)
Class SkynetClient : Type := {
  this_customOptions : Options;
  registry_getEntry :
    list Request → string → string → Options → Result (option RegistryEntry);
  registry_setEntry :
    list Request → string → RegistryEntry → Options → Result unit;
  client_uploadFile : list Request → File → Options → Result string;
  getFileContent_json : list Request → string → Options → Result JsonData;
  getFileContent_arraybuffer : list Request → string → Options → Result Uint8Array;
}.

(** ** The module [skydb.ts] *)

Section skydb.
Context `{!Imports} `{!SkynetClient}.

Definition DELETION_ENTRY_DATA : Uint8Array := new_Uint8Array RAW_SKYLINK_SIZE.

(** Modelled from the spec: [EMPTY_SKYLINK] of [./skylink/sia] is not under
    src/. Section 4.4: "The deletion sentinel is the all-zero byte string of
    the binary form's length". *)
Definition EMPTY_SKYLINK : Uint8Array := new_Uint8Array RAW_SKYLINK_SIZE.

Definition JSON_RESPONSE_VERSION : Z := 2.

Definition UNCACHED_REVISION_NUMBER : Z := -1.

Definition DEFAULT_GET_JSON_OPTIONS : Options :=
  <["cachedDataLink" := OptUndefined]>
    (spread (spread DEFAULT_BASE_OPTIONS DEFAULT_GET_ENTRY_OPTIONS)
       DEFAULT_DOWNLOAD_OPTIONS).

Definition DEFAULT_SET_JSON_OPTIONS : Options :=
  spread (spread (spread DEFAULT_BASE_OPTIONS DEFAULT_UPLOAD_OPTIONS)
            DEFAULT_GET_JSON_OPTIONS)
    DEFAULT_SET_ENTRY_OPTIONS.

Definition DEFAULT_SET_ENTRY_DATA_OPTIONS : Options :=
  <["allowDeletionEntryData" := OptBool false]>
    (spread (spread DEFAULT_BASE_OPTIONS DEFAULT_GET_ENTRY_OPTIONS)
       DEFAULT_SET_ENTRY_OPTIONS).

(** *** Helpers *)

Definition getCacheKey (publicKey dataKey : string) : string :=
  publicKey +:+ "/" +:+ dataKey.

(** [client.revisionNumberCache[cacheKey] -= BigInt(1)]. On a key that is
    not cached, [undefined - 1n] is a [TypeError]. *)
Definition decrementCachedRevision (publicKey dataKey : string) : M unit :=
  let cacheKey := getCacheKey publicKey dataKey in
  let* cache := getCache in
  match cache !! cacheKey with
  | Some cached => putCache (<[cacheKey := cached - 1]> cache)
  | None => throw (TypeError "Cannot mix BigInt and other types, use explicit conversions")
  end.

Definition incrementRevision (revision : Z) : Result Z :=
  let revision := revision + 1 in
  if MAX_REVISION <? revision
  then Throw (Error "Current entry already has maximum allowed revision, could not update the entry")
  else Return revision.

Definition incrementCachedRevision (publicKey dataKey : string) : M Z :=
  let cacheKey := getCacheKey publicKey dataKey in
  let* cache := getCache in
  let cachedRevision := cache !! cacheKey in
  let revision := default UNCACHED_REVISION_NUMBER cachedRevision in
  let* newRevision := lift (incrementRevision revision) in
  putCache (<[cacheKey := newRevision]> cache) ;;
  ret newRevision.

Definition checkCachedDataLink (rawDataLink : string) (cachedDataLink : OptionValue)
  : Result bool :=
  if truthy cachedDataLink then
    match validateSkylinkString "cachedDataLink" cachedDataLink "optional parameter" with
    | Return cachedDataLink => Return (String.eqb rawDataLink cachedDataLink)
    | Throw e => Throw e
    end
  else Return false.

Definition validateEntryData (data : Uint8Array) (allowDeletionEntryData : OptionValue)
  : Result unit :=
  if (MAX_ENTRY_LENGTH <? length data)%nat then
    Throw (ValidationError "data" data "parameter"
             ("'Uint8Array' of length <= " +:+ pretty MAX_ENTRY_LENGTH
              +:+ ", was length " +:+ pretty (length data)))
  else if negb (truthy allowDeletionEntryData)
          && areEqualUint8Arrays data DELETION_ENTRY_DATA then
    Throw (Error "Tried to set 'Uint8Array' entry data that is the deletion sentinel ('Uint8Array(RAW_SKYLINK_SIZE)'), please use the 'deleteEntryData' method instead`")
  else Return tt.

Definition wasRegistryEntryDeleted (entry : RegistryEntry) : bool :=
  areEqualUint8Arrays (RegistryEntry.data entry) EMPTY_SKYLINK.

(** [cachedRevision && cachedRevision > newRevision]: [undefined] and [0n]
    are falsy. *)
Definition higherRevisionCached (cachedRevision : option Z) (newRevision : Z) : bool :=
  match cachedRevision with
  | None => false
  | Some cached => negb (cached =? 0) && (newRevision <? cached)
  end.

Definition getSkyDBRegistryEntryAndUpdateCache
    (publicKey dataKey : string) (opts : Options) : M (option RegistryEntry) :=
  let* entry := request (λ h, registry_getEntry h publicKey dataKey opts)
                  (GetEntry publicKey dataKey opts) in
  match entry with
  | None => ret None
  | Some entry =>
      let cacheKey := getCacheKey publicKey dataKey in
      let* cache := getCache in
      let cachedRevision := cache !! cacheKey in
      let newRevision := default (UNCACHED_REVISION_NUMBER + 1) (RegistryEntry.revision entry) in
      if higherRevisionCached cachedRevision newRevision then
        throw (Error "A higher revision number for this userID and path is already cached")
      else
        putCache (<[cacheKey := newRevision]> cache) ;;
        if wasRegistryEntryDeleted entry then ret None else ret (Some entry)
  end.

Definition parseDataLink (data : Uint8Array) (legacy : bool) : Result (string * string) :=
  if legacy && (length data =? BASE64_ENCODED_SKYLINK_SIZE)%nat then
    let rawDataLink := uint8ArrayToStringUtf8 data in
    Return (rawDataLink, formatSkylink rawDataLink)
  else if (length data =? RAW_SKYLINK_SIZE)%nat then
    let rawDataLink := encodeSkylinkBase64 data in
    Return (rawDataLink, formatSkylink rawDataLink)
  else
    Throw (ValidationError "entry.data" data "returned entry data"
             ("length " +:+ pretty RAW_SKYLINK_SIZE +:+ " bytes")).

Definition getOrCreateRegistryEntry
    (dataKey : string) (data : JsonData + Uint8Array) (revision : Z)
    (customOptions : option Options) : M (RegistryEntry * string) :=
  let opts := spread (spread DEFAULT_SET_JSON_OPTIONS this_customOptions)
                (optional customOptions) in
  let fullData : string + Uint8Array :=
    match data with
    | inl json =>
        let jsonFullData :=
          JObject [("_data", json); ("_v", JNumber JSON_RESPONSE_VERSION)] in
        inl (JSON_stringify jsonFullData)
    | inr bytes => inr bytes
    end in
  let dataKeyHex :=
    if negb (truthy (getProp opts "hashedDataKeyHex"))
    then toHexString (stringToUint8ArrayUtf8 dataKey)
    else dataKey in
  let file := mkFile fullData ("dk:" +:+ dataKeyHex) "application/json" in
  let uploadOpts := extractOptions opts DEFAULT_UPLOAD_OPTIONS in
  let* skylink := request (λ h, client_uploadFile h file uploadOpts)
                    (UploadFile file uploadOpts) in
  let dataLink := trimUriPrefix skylink URI_SKYNET_PREFIX in
  let* rawDataLink := lift (decodeSkylinkBase64 dataLink) in
  lift (validateUint8ArrayLen "rawDataLink" rawDataLink "skylink byte array"
          RAW_SKYLINK_SIZE) ;;
  let entry := RegistryEntry.mk dataKey rawDataLink (Some revision) in
  ret (entry, formatSkylink dataLink).

(** *** JSON *)

(** The end of [getJSON], from the check of [typeof data] to the last
    [return]: what is made of the downloaded [data]. *)
Definition getJSON_unwrap (dataKey : string) (data : JsonData) (dataLink : string)
  : Result JSONResponse :=
  if negb (typeof_object data) || is_null data then
    Throw (Error ("File data for the entry at data key '" +:+ dataKey
                  +:+ "' is not JSON."))
  else if negb (json_truthy (getField data "_data")
                && json_truthy (getField data "_v")) then
    Return (mkJSONResponse (Some data) (Some dataLink))
  else
    let actualData := getField data "_data" in
    if negb (from_option typeof_object false actualData) || is_null data then
      Throw (Error ("File data '_data' for the entry at data key '"
                    +:+ dataKey +:+ "' is not JSON."))
    else Return (mkJSONResponse actualData (Some dataLink)).

Definition getJSON (publicKey dataKey : string) (customOptions : option Options)
  : M JSONResponse :=
  lift (validatePublicKey "publicKey" publicKey "parameter") ;;
  lift (validateString "dataKey" dataKey "parameter") ;;
  lift (validateOptionalObject "customOptions" customOptions "parameter"
          DEFAULT_GET_JSON_OPTIONS) ;;
  let opts := spread (spread DEFAULT_GET_JSON_OPTIONS this_customOptions)
                (optional customOptions) in
  let getEntryOpts := extractOptions opts DEFAULT_GET_ENTRY_OPTIONS in
  let* entry := getSkyDBRegistryEntryAndUpdateCache publicKey dataKey getEntryOpts in
  match entry with
  | None => ret (mkJSONResponse None None)
  | Some entry =>
      let* '(rawDataLink, dataLink) := lift (parseDataLink (RegistryEntry.data entry) true) in
      let* cached := lift (checkCachedDataLink rawDataLink (getProp opts "cachedDataLink")) in
      if cached then ret (mkJSONResponse None (Some dataLink))
      else
        let downloadOpts := extractOptions opts DEFAULT_DOWNLOAD_OPTIONS in
        let* data := request (λ h, getFileContent_json h dataLink downloadOpts)
                       (GetFileContent dataLink downloadOpts) in
        lift (getJSON_unwrap dataKey data dataLink)
  end.

(** The body of the [try] block of [setJSON]. *)
Definition setJSON_try (privateKey dataKey : string) (json : JsonData)
    (newRevision : Z) (opts : Options) : M (RegistryEntry * string) :=
  let* '(entry, dataLink) :=
    getOrCreateRegistryEntry dataKey (inl json) newRevision (Some opts) in
  let setEntryOpts := extractOptions opts DEFAULT_SET_ENTRY_OPTIONS in
  request (λ h, registry_setEntry h privateKey entry setEntryOpts)
    (SetEntry privateKey entry setEntryOpts) ;;
  ret (entry, dataLink).

Definition setJSON (privateKey dataKey : string) (json : JsonData)
    (customOptions : option Options) : M JSONResponse :=
  lift (validateHexString "privateKey" privateKey "parameter") ;;
  lift (validateString "dataKey" dataKey "parameter") ;;
  lift (validateObject "json" json "parameter") ;;
  lift (validateOptionalObject "customOptions" customOptions "parameter"
          DEFAULT_SET_JSON_OPTIONS) ;;
  let opts := spread (spread DEFAULT_SET_JSON_OPTIONS this_customOptions)
                (optional customOptions) in
  let* publicKey := lift (publicKeyOf privateKey) in
  let* newRevision := incrementCachedRevision publicKey dataKey in
  let* '(entry, dataLink) :=
    try_catch (setJSON_try privateKey dataKey json newRevision opts)
      (λ e, decrementCachedRevision publicKey dataKey ;; throw e) in
  ret (mkJSONResponse (Some json) (Some (formatSkylink dataLink))).

(** *** Entry data *)

Definition getEntryData (publicKey dataKey : string) (customOptions : option Options)
  : M EntryData :=
  lift (validatePublicKey "publicKey" publicKey "parameter") ;;
  lift (validateString "dataKey" dataKey "parameter") ;;
  lift (validateOptionalObject "customOptions" customOptions "parameter"
          DEFAULT_GET_ENTRY_OPTIONS) ;;
  let opts := spread (spread DEFAULT_GET_ENTRY_OPTIONS this_customOptions)
                (optional customOptions) in
  let* entry := getSkyDBRegistryEntryAndUpdateCache publicKey dataKey opts in
  match entry with
  | None => ret (mkEntryData None)
  | Some entry => ret (mkEntryData (Some (RegistryEntry.data entry)))
  end.

(** The body of the [try] block of [setEntryData]. *)
Definition setEntryData_try (privateKey : string) (entry : RegistryEntry)
    (opts : Options) : M unit :=
  let setEntryOpts := extractOptions opts DEFAULT_SET_ENTRY_OPTIONS in
  request (λ h, registry_setEntry h privateKey entry setEntryOpts)
    (SetEntry privateKey entry setEntryOpts).

Definition setEntryData (privateKey dataKey : string) (data : Uint8Array)
    (customOptions : option Options) : M EntryData :=
  lift (validateHexString "privateKey" privateKey "parameter") ;;
  lift (validateString "dataKey" dataKey "parameter") ;;
  lift (validateUint8Array "data" data "parameter") ;;
  lift (validateOptionalObject "customOptions" customOptions "parameter"
          DEFAULT_SET_ENTRY_DATA_OPTIONS) ;;
  let opts := spread (spread DEFAULT_SET_ENTRY_DATA_OPTIONS this_customOptions)
                (optional customOptions) in
  lift (validateEntryData data (getProp opts "allowDeletionEntryData")) ;;
  let* publicKey := lift (publicKeyOf privateKey) in
  let* newRevision := incrementCachedRevision publicKey dataKey in
  let entry := RegistryEntry.mk dataKey data (Some newRevision) in
  try_catch (setEntryData_try privateKey entry opts)
    (λ e, decrementCachedRevision publicKey dataKey ;; throw e) ;;
  ret (mkEntryData (Some (RegistryEntry.data entry))).

(** The options [deleteJSON] hands to [this.db.setEntryData]. *)
Definition deleteJSON_options (customOptions : option Options) : Options :=
  let opts := spread (spread DEFAULT_SET_ENTRY_DATA_OPTIONS this_customOptions)
                (optional customOptions) in
  <["allowDeletionEntryData" := OptBool true]> opts.

(** [this.db.setEntryData] is [setEntryData] bound to the same client. *)
Definition deleteJSON (privateKey dataKey : string) (customOptions : option Options)
  : M unit :=
  setEntryData privateKey dataKey DELETION_ENTRY_DATA
    (Some (deleteJSON_options customOptions)) ;;
  ret tt.

(** The options [deleteEntryData] hands to [this.db.setEntryData]. *)
Definition deleteEntryData_options (customOptions : option Options) : Options :=
  <["allowDeletionEntryData" := OptBool true]> (optional customOptions).

Definition deleteEntryData (privateKey dataKey : string) (customOptions : option Options)
  : M unit :=
  setEntryData privateKey dataKey DELETION_ENTRY_DATA
    (Some (deleteEntryData_options customOptions)) ;;
  ret tt.

(** *** Raw bytes *)

Definition getRawBytes (publicKey dataKey : string) (customOptions : option Options)
  : M RawBytesResponse :=
  lift (validatePublicKey "publicKey" publicKey "parameter") ;;
  lift (validateString "dataKey" dataKey "parameter") ;;
  lift (validateOptionalObject "customOptions" customOptions "parameter"
          DEFAULT_GET_JSON_OPTIONS) ;;
  let opts := spread (spread DEFAULT_GET_JSON_OPTIONS this_customOptions)
                (optional customOptions) in
  let getEntryOpts := extractOptions opts DEFAULT_GET_ENTRY_OPTIONS in
  let* entry := getSkyDBRegistryEntryAndUpdateCache publicKey dataKey getEntryOpts in
  match entry with
  | None => ret (mkRawBytesResponse None None)
  | Some entry =>
      let* '(rawDataLink, dataLink) := lift (parseDataLink (RegistryEntry.data entry) false) in
      let* cached := lift (checkCachedDataLink rawDataLink (getProp opts "cachedDataLink")) in
      if cached then ret (mkRawBytesResponse None (Some dataLink))
      else
        let downloadOpts :=
          <["responseType" := OptString "arraybuffer"]>
            (extractOptions opts DEFAULT_DOWNLOAD_OPTIONS) in
        let* buffer := request (λ h, getFileContent_arraybuffer h dataLink downloadOpts)
                         (GetFileContent dataLink downloadOpts) in
        ret (mkRawBytesResponse (Some buffer) (Some dataLink))
  end.

(** *** The operations, by kind *)

(** The two writes, [setJSON] and [setEntryData]. *)
Inductive WriteOp : Type :=
  | SetJSON (json : JsonData)
  | SetEntryData (data : Uint8Array).

Definition write (op : WriteOp) (privateKey dataKey : string)
    (customOptions : option Options) : M unit :=
  match op with
  | SetJSON json => setJSON privateKey dataKey json customOptions ;; ret tt
  | SetEntryData data => setEntryData privateKey dataKey data customOptions ;; ret tt
  end.

(** The three reads, [getJSON], [getEntryData] and [getRawBytes]. *)
Inductive ReadOp : Type := GetJSON | GetEntryData | GetRawBytes.

Inductive ReadResult : Type :=
  | JSONResult (response : JSONResponse)
  | EntryResult (response : EntryData)
  | RawBytesResult (response : RawBytesResponse).

Definition read (op : ReadOp) (publicKey dataKey : string)
    (customOptions : option Options) : M ReadResult :=
  match op with
  | GetJSON =>
      let* response := getJSON publicKey dataKey customOptions in
      ret (JSONResult response)
  | GetEntryData =>
      let* response := getEntryData publicKey dataKey customOptions in
      ret (EntryResult response)
  | GetRawBytes =>
      let* response := getRawBytes publicKey dataKey customOptions in
      ret (RawBytesResult response)
  end.

(** What a read returns for "no data": every field [null]. *)
Definition noData (op : ReadOp) : ReadResult :=
  match op with
  | GetJSON => JSONResult (mkJSONResponse None None)
  | GetEntryData => EntryResult (mkEntryData None)
  | GetRawBytes => RawBytesResult (mkRawBytesResponse None None)
  end.

(** The two deletions, [deleteJSON] and [deleteEntryData], and the options
    each hands to [setEntryData]. *)
Inductive DeleteOp : Type := DeleteJSON | DeleteEntryData.

Definition delete (op : DeleteOp) (privateKey dataKey : string)
    (customOptions : option Options) : M unit :=
  match op with
  | DeleteJSON => deleteJSON privateKey dataKey customOptions
  | DeleteEntryData => deleteEntryData privateKey dataKey customOptions
  end.

Definition delete_options (op : DeleteOp) (customOptions : option Options) : Options :=
  match op with
  | DeleteJSON => deleteJSON_options customOptions
  | DeleteEntryData => deleteEntryData_options customOptions
  end.

(** *** Observations on a run *)

(** The argument checks at the head of [setEntryData], all passing. *)
Definition setEntryData_validates (privateKey dataKey : string) (data : Uint8Array)
    (customOptions : option Options) : Prop :=
  validateHexString "privateKey" privateKey "parameter" = Return tt
  ∧ validateString "dataKey" dataKey "parameter" = Return tt
  ∧ validateUint8Array "data" data "parameter" = Return tt
  ∧ validateOptionalObject "customOptions" customOptions "parameter"
      DEFAULT_SET_ENTRY_DATA_OPTIONS = Return tt.

(** The argument checks at the head of [setJSON], all passing. *)
Definition setJSON_validates (privateKey dataKey : string) (json : JsonData)
    (customOptions : option Options) : Prop :=
  validateHexString "privateKey" privateKey "parameter" = Return tt
  ∧ validateString "dataKey" dataKey "parameter" = Return tt
  ∧ validateObject "json" json "parameter" = Return tt
  ∧ validateOptionalObject "customOptions" customOptions "parameter"
      DEFAULT_SET_JSON_OPTIONS = Return tt.

(** The options [setEntryData] works with. *)
Definition setEntryData_opts (customOptions : option Options) : Options :=
  spread (spread DEFAULT_SET_ENTRY_DATA_OPTIONS this_customOptions)
    (optional customOptions).

(** The checks of a write that come before the revision is reserved. *)
Definition write_validates (op : WriteOp) (privateKey dataKey : string)
    (customOptions : option Options) : Prop :=
  match op with
  | SetJSON json => setJSON_validates privateKey dataKey json customOptions
  | SetEntryData data =>
      setEntryData_validates privateKey dataKey data customOptions
      ∧ validateEntryData data
          (getProp (setEntryData_opts customOptions) "allowDeletionEntryData")
        = Return tt
  end.

(** The cached revision as [incrementCachedRevision] reads it:
    [cachedRevision ?? UNCACHED_REVISION_NUMBER]. *)
Definition cachedRevision (s : State) (publicKey dataKey : string) : Z :=
  default UNCACHED_REVISION_NUMBER
    (revisionNumberCache s !! getCacheKey publicKey dataKey).

(** The last request, when it is a [registry.setEntry]: the key and the
    entry it carries. *)
Definition lastSetEntry (s : State) : option (string * RegistryEntry) :=
  match last (requests s) with
  | Some (SetEntry privateKey entry _) => Some (privateKey, entry)
  | _ => None
  end.

(** The revision of the entry last handed to [registry.setEntry]. *)
Definition writtenRevision (s : State) : option Z :=
  match lastSetEntry s with
  | Some (_, entry) => RegistryEntry.revision entry
  | None => None
  end.

End skydb.


(** ** Size padding of the encrypted-file codec *)

(** [1 << 10], [1 << 20] and [1 << 30]. *)
Definition kib : Z := 1024.
Definition mib : Z := 1048576.
Definition gib : Z := 1073741824.

(** [1 << n] on JavaScript numbers: the shift count is taken modulo 32 and
    the result is a signed 32-bit integer. *)
Definition shl1 (n : Z) : Z :=
  let bits := Z.shiftl 1 (Z.land n 31) in
  if bits <? 2 ^ 31 then bits else bits - 2 ^ 32.

(** [a % b] on integral JavaScript numbers: the sign of the dividend. *)
Definition js_rem (a b : Z) : Z := Z.rem a b.

(** Modelled from the spec: [padFileSize] of [mysky/encrypted_files] is not
    under src/, only its test table is. Section 4.5: the size is mapped "to
    the next size in a monotonically increasing, deterministic bucket
    sequence (small sizes round up to a minimum block; sizes grow by
    doubling or by fixed large-increment steps at higher ranges)", failing
    "with an explicit overflow error rather than wrapping when the input
    exceeds the representable range". The test table fixes the constants:
    the minimum block is 4 KiB (1 KiB pads to 4 KiB), a block of
    [2^n * 4 KiB] serves the sizes up to [2^n * 80 KiB] (105 KiB pads to
    112 KiB, 305 KiB to 320 KiB, 351 KiB to 352 KiB, 100 MiB to 104 MiB,
    100 GiB to 104 GiB), and [Number.MAX_SAFE_INTEGER] (2^53 - 1) overflows.
    The loop tries [n = 0 .. 52], the powers of two a number holds, and
    computes [2^n] as [1 << n]: a 32-bit shift, so the last bucket ends at
    [2^30 * 80 KiB] and larger sizes overflow, as the test table has it. *)
Fixpoint padFileSize_from (steps : nat) (n : Z) (initialSize : Z) : Result Z :=
  match steps with
  | O => Throw (Error "Could not pad file size, overflow detected.")
  | S steps' =>
      if initialSize <=? shl1 n * 80 * kib then
        let paddingBlock := shl1 n * 4 * kib in
        let finalSize := initialSize in
        if negb (js_rem finalSize paddingBlock =? 0)
        then Return (initialSize - js_rem initialSize paddingBlock + paddingBlock)
        else Return finalSize
      else padFileSize_from steps' (n + 1) initialSize
  end.

(** Modelled from the spec: see [padFileSize_from]. *)
Definition padFileSize (initialSize : Z) : Result Z :=
  padFileSize_from 53 0 initialSize.

(** Modelled from the spec: [checkPaddedBlock] of [mysky/encrypted_files] is
    not under src/, only its test table is. Section 4.5: "[checkPaddedBlock]
    is the membership predicate for the bucket sequence", with the same
    overflow error ("Could not check padded file size, overflow detected."
    in the tests). *)
Fixpoint checkPaddedBlock_from (steps : nat) (n : Z) (size : Z) : Result bool :=
  match steps with
  | O => Throw (Error "Could not check padded file size, overflow detected.")
  | S steps' =>
      if size <=? shl1 n * 80 * kib then
        let paddingBlock := shl1 n * 4 * kib in
        Return (js_rem size paddingBlock =? 0)
      else checkPaddedBlock_from steps' (n + 1) size
  end.

(** Modelled from the spec: see [checkPaddedBlock_from]. *)
Definition checkPaddedBlock (size : Z) : Result bool :=
  checkPaddedBlock_from 53 0 size.


(** ** A concrete setting *)

(** An instance of the imports to run the operations on: the sizes of the
    two skylink forms (34 bytes raw, 46 characters in base64) and the
    largest 64-bit revision, validators that accept every argument but a
    cached data link that is not a string, and plain stand-ins for the
    string helpers. *)
Definition sample_imports : Imports := {|
  RAW_SKYLINK_SIZE := 34;
  BASE64_ENCODED_SKYLINK_SIZE := 46;
  MAX_REVISION := 2 ^ 64 - 1;
  URI_SKYNET_PREFIX := "sia://";
  DEFAULT_BASE_OPTIONS := ∅;
  DEFAULT_GET_ENTRY_OPTIONS := ∅;
  DEFAULT_SET_ENTRY_OPTIONS := {[ "hashedDataKeyHex" := OptBool false ]};
  DEFAULT_DOWNLOAD_OPTIONS := ∅;
  DEFAULT_UPLOAD_OPTIONS := ∅;
  extractOptions := λ opts model, filter (λ kv, is_Some (model !! kv.1)) opts;
  validatePublicKey := λ _ _ _, Return tt;
  validateHexString := λ _ _ _, Return tt;
  validateString := λ _ _ _, Return tt;
  validateObject := λ _ _ _, Return tt;
  validateUint8Array := λ _ _ _, Return tt;
  validateOptionalObject := λ _ _ _ _, Return tt;
  validateSkylinkString := λ name value _,
    match value with
    | OptString s => Return s
    | _ => Throw (Error ("Expected '" +:+ name +:+ "' to be a skylink"))
    end;
  validateUint8ArrayLen := λ name value _ len,
    if (length value =? len)%nat then Return tt
    else Throw (Error ("Expected '" +:+ name +:+ "' to be of length " +:+ pretty len));
  publicKeyOf := λ privateKey, Return ("pub" +:+ privateKey);
  toHexString := λ _, "6b";
  stringToUint8ArrayUtf8 := λ _, [x6b];
  uint8ArrayToStringUtf8 := λ bytes, String.string_of_list_byte bytes;
  trimUriPrefix := λ link _, link;
  formatSkylink := λ link, "sia://" +:+ link;
  encodeSkylinkBase64 := λ bytes, String.string_of_list_byte bytes;
  decodeSkylinkBase64 := λ link, Return (String.list_byte_of_string link);
  JSON_stringify := λ _, "{}";
|}.

(** A client whose collaborators give the same answers whatever they are
    asked. *)
Definition sample_client (getEntry : Result (option RegistryEntry))
    (setEntry : Result unit) (upload : Result string)
    (content : Result JsonData) : SkynetClient := {|
  this_customOptions := ∅;
  registry_getEntry := λ _ _ _ _, getEntry;
  registry_setEntry := λ _ _ _ _, setEntry;
  client_uploadFile := λ _ _ _, upload;
  getFileContent_json := λ _ _ _, content;
  getFileContent_arraybuffer := λ _ _ _, Return [];
|}.

(** A state with nothing cached and no request made, and one where a
    revision is cached for the pair ("pub", "k"). *)
Definition initial : State := mkState ∅ [].

Definition cached (revision : Z) : State := mkState {[ "pub/k" := revision ]} [].

(** Entries of the data key "k": a raw skylink of 34 bytes, the deletion
    sentinel, and a legacy skylink of 46 characters. *)
Definition live_entry (revision : Z) : RegistryEntry :=
  RegistryEntry.mk "k" (replicate 34 x41) (Some revision).

Definition deleted_entry (revision : Z) : RegistryEntry :=
  RegistryEntry.mk "k" (replicate 34 x00) (Some revision).

Definition legacy_entry (revision : Z) : RegistryEntry :=
  RegistryEntry.mk "k" (replicate 46 x41) (Some revision).

(** A client whose registry holds [entry] and accepts every write, and whose
    downloads give [content]. *)
Definition client_with (entry : option RegistryEntry) (content : JsonData)
  : SkynetClient :=
  sample_client (Return entry) (Return tt)
    (Return "AAAAAAAAAAAAAAAAAAAAAAAAAAAAAAAAAA") (Return content).

(** A client whose registry fails with [e]. *)
Definition failing_client (e : exn) : SkynetClient :=
  sample_client (Throw e) (Throw e) (Return "AAAAAAAAAAAAAAAAAAAAAAAAAAAAAAAAAA")
    (Return JNull).

(** ** More of [skydb.ts]: [setDataLink] *)

(** [decodeSkylink] of [./skylink/sia], which is not under src/: it returns
    the bytes of an encoded skylink or throws. *)
Class SkylinkImports : Type := {
  decodeSkylink : string → Result Uint8Array;
}.

Section skydb_data_link.
Context `{!Imports} `{!SkynetClient} `{!SkylinkImports}.

(** [this.db.setEntryData] is [setEntryData] bound to the same client. *)
Definition setDataLink (privateKey dataKey dataLink : string)
    (customOptions : option Options) : M unit :=
  let* parsedSkylink :=
    lift (validateSkylinkString "dataLink" (OptString dataLink) "parameter") in
  let* data := lift (decodeSkylink parsedSkylink) in
  setEntryData privateKey dataKey data customOptions ;;
  ret tt.

(** Every cached revision lies between the uncached revision and the
    maximum one. *)
Definition revisions_bounded (s : State) : Prop :=
  map_Forall (λ _ cached, UNCACHED_REVISION_NUMBER ≤ cached ≤ MAX_REVISION)
    (revisionNumberCache s).

(** The registry only returns entries whose revision is an unsigned integer
    up to the maximum. *)
Definition registry_bounded : Prop :=
  ∀ history publicKey dataKey opts entry,
    registry_getEntry history publicKey dataKey opts = Return (Some entry) →
    ∃ v, RegistryEntry.revision entry = Some v ∧ 0 ≤ v ≤ MAX_REVISION.

End skydb_data_link.

(** The requests of the reads, a lookup in the registry and a download,
    and those of the writes, an upload and a [registry.setEntry]. *)
Definition is_read_request (r : Request) : bool :=
  match r with
  | GetEntry _ _ _ | GetFileContent _ _ => true
  | SetEntry _ _ _ | UploadFile _ _ => false
  end.

Definition is_write_request (r : Request) : bool :=
  match r with
  | SetEntry _ _ _ | UploadFile _ _ => true
  | GetEntry _ _ _ | GetFileContent _ _ => false
  end.

(** A string without the separator of [getCacheKey], as every string of
    hexadecimal digits is. *)
Fixpoint slash_free (s : string) : bool :=
  match s with
  | EmptyString => true
  | String c rest => negb (String.eqb (String c EmptyString) "/") && slash_free rest
  end.

(** ** The upload module *)

Module Upload.

(** An entry of a [FormData]: the field name, the file, and the file name
    given to [append] as third argument, if any. *)
Record FormEntry : Type := mkFormEntry {
  entryName : OptionValue;
  entryFile : File;
  entryFilename : option OptionValue;
}.

(** The argument of [executeRequest]: the options with [method] set, the
    form data (the property [data]) and the [filename] of the query, if
    there is a query. *)
Record RequestConfig : Type := mkRequestConfig {
  config : Options;
  formData : list FormEntry;
  queryFilename : option string;
}.

Record UploadRequestResponse : Type := mkUploadRequestResponse {
  skylink : string;
  merkleroot : string;
  bitfield : Z;
}.

(** What the upload module imports and is bound to, none of it under src/:
    the default options, the client's [customOptions], [getFileMimeType]
    and [formatSkylink] of [../utils], and the client's [executeRequest],
    of whose response only [data] is read. *)
Class Env : Type := {
  defaultUploadOptions : Options;
  this_customOptions : Options;
  getFileMimeType : File → string;
  formatSkylink : string → string;
  executeRequest : RequestConfig → Result JsonData;
}.

(** [typeof v === "string"] and [typeof v === "number"] of a property. *)
Definition typeof_string (v : option JsonData) : bool :=
  match v with Some (JString _) => true | _ => false end.

Definition typeof_number (v : option JsonData) : bool :=
  match v with Some (JNumber _) => true | _ => false end.

(** The string and the number a property holds, once its type is checked. *)
Definition string_of (v : option JsonData) : string :=
  match v with Some (JString s) => s | _ => "" end.

Definition number_of (v : option JsonData) : Z :=
  match v with Some (JNumber n) => n | _ => 0 end.

Section upload.
Context `{!Env}.

(** [new File([file], file.name, { type: getFileMimeType(file) })]. *)
Definition ensureFileObjectConsistency (file : File) : File :=
  mkFile (fileBits file) (fileName file) (getFileMimeType file).

Definition uploadFileRequest (file : File) (customOptions : option Options)
  : Result JsonData :=
  let opts := spread (spread defaultUploadOptions this_customOptions)
                (optional customOptions) in
  let file := ensureFileObjectConsistency file in
  let formData :=
    if truthy (getProp opts "customFilename")
    then [mkFormEntry (getProp opts "portalFileFieldname") file
            (Some (getProp opts "customFilename"))]
    else [mkFormEntry (getProp opts "portalFileFieldname") file None] in
  executeRequest
    (mkRequestConfig (base.delete "data" (<["method" := OptString "post"]> opts))
       formData None).

(** Reading a property of [response.data] throws when it is [null]. *)
Definition uploadFile (file : File) (customOptions : option Options)
  : Result UploadRequestResponse :=
  match uploadFileRequest file customOptions with
  | Throw e => Throw e
  | Return data =>
      if is_null data then
        Throw (TypeError "Cannot read properties of null (reading 'skylink')")
      else if negb (typeof_string (getField data "skylink"))
              || negb (typeof_string (getField data "merkleroot"))
              || negb (typeof_number (getField data "bitfield")) then
        Throw (Error "Did not get a complete upload response despite a successful request. Please try again and report this issue to the devs if it persists.")
      else
        Return (mkUploadRequestResponse
                  (formatSkylink (string_of (getField data "skylink")))
                  (string_of (getField data "merkleroot"))
                  (number_of (getField data "bitfield")))
  end.

(** [directory] is the list [Object.entries(directory)] gives. The check of
    [typeof filename] cannot fail on a string. *)
Definition uploadDirectoryRequest (directory : list (string * File))
    (filename : string) (customOptions : option Options) : Result JsonData :=
  let opts := spread (spread defaultUploadOptions this_customOptions)
                (optional customOptions) in
  let formData :=
    map (λ '(path, file),
           mkFormEntry (getProp opts "portalDirectoryFileFieldname")
             (ensureFileObjectConsistency file) (Some (OptString path)))
      directory in
  executeRequest
    (mkRequestConfig
       (base.delete "query" (base.delete "data" (<["method" := OptString "post"]> opts)))
       formData (Some filename)).

Definition uploadDirectory (directory : list (string * File)) (filename : string)
    (customOptions : option Options) : Result UploadRequestResponse :=
  match uploadDirectoryRequest directory filename customOptions with
  | Throw e => Throw e
  | Return data =>
      if is_null data then
        Throw (TypeError "Cannot read properties of null (reading 'skylink')")
      else if negb (typeof_string (getField data "skylink"))
              || negb (typeof_string (getField data "merkleroot"))
              || negb (typeof_number (getField data "bitfield")) then
        Throw (Error "Did not get a complete upload response despite a successful request. Please try again and report this issue to the devs if it persists.")
      else
        Return (mkUploadRequestResponse
                  (formatSkylink (string_of (getField data "skylink")))
                  (string_of (getField data "merkleroot"))
                  (number_of (getField data "bitfield")))
  end.

End upload.

End Upload.

(** ** A concrete setting for the rest *)

(** A skylink decoder that reads the characters as bytes. *)
Definition sample_skylink_imports : SkylinkImports := {|
  decodeSkylink := λ link, Return (String.list_byte_of_string link);
|}.

(** An upload environment whose request answers [response]. *)
Definition sample_upload (response : Result JsonData) : Upload.Env := {|
  Upload.defaultUploadOptions :=
    {[ "portalFileFieldname" := OptString "file";
       "portalDirectoryFileFieldname" := OptString "files[]";
       "customFilename" := OptString "" ]};
  Upload.this_customOptions := ∅;
  Upload.getFileMimeType := λ _, "text/plain";
  Upload.formatSkylink := λ link, "sia:" +:+ link;
  Upload.executeRequest := λ _, response;
|}.

(** * Properties *)

(** ** Size padding *)

(** The model agrees with every row of the reference test table of
    [padFileSize] and [checkPaddedBlock]. *)
Example padFileSize_test_table :
  padFileSize (1 * kib) = Return (4 * kib) ∧
  padFileSize (4 * kib) = Return (4 * kib) ∧
  padFileSize (5 * kib) = Return (8 * kib) ∧
  padFileSize (105 * kib) = Return (112 * kib) ∧
  padFileSize (305 * kib) = Return (320 * kib) ∧
  padFileSize (351 * kib) = Return (352 * kib) ∧
  padFileSize (352 * kib) = Return (352 * kib) ∧
  padFileSize mib = Return mib ∧
  padFileSize (100 * mib) = Return (104 * mib) ∧
  padFileSize gib = Return gib ∧
  padFileSize (100 * gib) = Return (104 * gib) ∧
  padFileSize (2 ^ 53 - 1) = Throw (Error "Could not pad file size, overflow detected.").
Proof. repeat split; vm_compute; reflexivity. Qed.

Example checkPaddedBlock_test_table :
  checkPaddedBlock (1 * kib) = Return false ∧
  checkPaddedBlock (4 * kib) = Return true ∧
  checkPaddedBlock (5 * kib) = Return false ∧
  checkPaddedBlock (105 * kib) = Return false ∧
  checkPaddedBlock (305 * kib) = Return false ∧
  checkPaddedBlock (351 * kib) = Return false ∧
  checkPaddedBlock (352 * kib) = Return true ∧
  checkPaddedBlock mib = Return true ∧
  checkPaddedBlock (100 * mib) = Return false ∧
  checkPaddedBlock gib = Return true ∧
  checkPaddedBlock (100 * gib) = Return false ∧
  checkPaddedBlock (2 ^ 53 - 1)
  = Throw (Error "Could not check padded file size, overflow detected.").
Proof. repeat split; vm_compute; reflexivity. Qed.

(** [1 << n] is never zero: it is a power of two or [-2^31]. *)
Lemma shl1_sign (n : Z) : 0 < shl1 n ∨ shl1 n < 0.
Proof.
  unfold shl1. cbv zeta.
  replace (Z.land n 31) with (n `mod` 32)
    by (symmetry; apply (Z.land_ones n 5); lia).
  assert (Hk : 0 ≤ n `mod` 32 < 32) by (apply Z.mod_pos_bound; lia).
  rewrite Z.shiftl_1_l.
  destruct (Z.ltb_spec (2 ^ (n `mod` 32)) (2 ^ 31)) as [Hlt|Hge].
  - left. apply Z.pow_pos_nonneg; lia.
  - right. assert (2 ^ (n `mod` 32) < 2 ^ 32) by (apply Z.pow_lt_mono_r; lia). lia.
Qed.

(** Rounding [s] up to a multiple of the block [b], as [padFileSize] does
    it, stays within 20 blocks when [s] does. *)
Lemma pad_round (b s : Z) :
  0 < b → s ≤ 20 * b →
  let r := if negb (js_rem s b =? 0) then s - js_rem s b + b else s in
  s ≤ r ∧ r ≤ 20 * b ∧ js_rem r b = 0.
Proof.
  intros Hb Hs. unfold js_rem. cbv zeta.
  pose proof (Z.quot_rem' s b) as Hqr.
  destruct (Z.eqb_spec (Z.rem s b) 0) as [Hz|Hnz]; cbn [negb].
  - repeat split; [lia | lia | exact Hz].
  - assert (Habs : Z.abs (Z.rem s b) < Z.abs b) by (apply Z.rem_bound_abs; lia).
    assert (Hsgn : 0 ≤ s → 0 ≤ Z.rem s b) by (intros; apply Z.rem_nonneg; lia).
    replace (s - Z.rem s b + b) with ((s ÷ b + 1) * b) by lia.
    repeat split.
    + lia.
    + assert (Hq : s ÷ b ≤ 19).
      { destruct (Z_le_gt_dec (s ÷ b) 19) as [|Hbig]; [assumption | exfalso].
        assert (20 * b ≤ b * (s ÷ b)) by nia.
        assert (0 ≤ Z.rem s b) by (apply Hsgn; lia).
        lia. }
      nia.
    + apply Z.rem_mul. lia.
Qed.

Lemma padFileSize_from_S (steps : nat) (n s : Z) :
  padFileSize_from (S steps) n s =
  if s <=? shl1 n * 80 * kib then
    if negb (js_rem s (shl1 n * 4 * kib) =? 0)
    then Return (s - js_rem s (shl1 n * 4 * kib) + shl1 n * 4 * kib)
    else Return s
  else padFileSize_from steps (n + 1) s.
Proof. reflexivity. Qed.

Lemma checkPaddedBlock_from_S (steps : nat) (n s : Z) :
  checkPaddedBlock_from (S steps) n s =
  if s <=? shl1 n * 80 * kib then Return (js_rem s (shl1 n * 4 * kib) =? 0)
  else checkPaddedBlock_from steps (n + 1) s.
Proof. reflexivity. Qed.

(** One bucket: a size under the bound of a positive block is padded to a
    multiple of the block that is still under the bound. *)
Lemma pad_in_bucket (steps : nat) (n s r : Z) :
  0 < shl1 n → s ≤ shl1 n * 80 * kib →
  padFileSize_from (S steps) n s = Return r →
  s ≤ r ∧ padFileSize_from (S steps) n r = Return r
  ∧ checkPaddedBlock_from (S steps) n r = Return true.
Proof.
  intros Hpos Hle Hpad.
  rewrite padFileSize_from_S in Hpad.
  destruct (Z.leb_spec s (shl1 n * 80 * kib)) as [_|Hgt]; [|lia].
  assert (Hb : 0 < shl1 n * 4 * kib) by (unfold kib; lia).
  assert (Hs : s ≤ 20 * (shl1 n * 4 * kib)) by (unfold kib in *; lia).
  pose proof (pad_round _ _ Hb Hs) as Hround. cbv zeta in Hround.
  assert (Hr : r = if negb (js_rem s (shl1 n * 4 * kib) =? 0)
                   then s - js_rem s (shl1 n * 4 * kib) + shl1 n * 4 * kib else s)
    by (destruct (negb _); congruence).
  rewrite <- Hr in Hround. destruct Hround as (Hsr & Hrb & Hrem).
  rewrite padFileSize_from_S, checkPaddedBlock_from_S.
  destruct (Z.leb_spec r (shl1 n * 80 * kib)) as [_|Hgt]; [|unfold kib in *; lia].
  rewrite Hrem. auto.
Qed.

(** The loop from any bucket on, for a size that is not negative: the
    padded size is found again in the same bucket. *)
Lemma pad_from_nonneg (steps : nat) : ∀ n s r : Z,
  0 ≤ s →
  padFileSize_from steps n s = Return r →
  s ≤ r ∧ padFileSize_from steps n r = Return r
  ∧ checkPaddedBlock_from steps n r = Return true.
Proof.
  induction steps as [|steps IH]; intros n s r Hs Hpad; [discriminate|].
  destruct (Z.leb_spec s (shl1 n * 80 * kib)) as [Hle|Hgt].
  - destruct (shl1_sign n) as [Hpos|Hneg].
    + by apply pad_in_bucket.
    + unfold kib in Hle. lia.
  - rewrite padFileSize_from_S in Hpad.
    destruct (Z.leb_spec s (shl1 n * 80 * kib)) as [|_]; [lia|].
    destruct (IH _ _ _ Hs Hpad) as (Hsr & Hpad' & Hchk).
    rewrite padFileSize_from_S, checkPaddedBlock_from_S.
    destruct (Z.leb_spec r (shl1 n * 80 * kib)) as [|_]; [lia|]. auto.
Qed.

(** The last bucket: [1 << n] is at most [2^30]. *)
Lemma shl1_upper (n : Z) : shl1 n ≤ 2 ^ 30.
Proof.
  unfold shl1. cbv zeta.
  replace (Z.land n 31) with (n `mod` 32)
    by (symmetry; apply (Z.land_ones n 5); lia).
  assert (Hk : 0 ≤ n `mod` 32 < 32) by (apply Z.mod_pos_bound; lia).
  rewrite Z.shiftl_1_l.
  destruct (Z.ltb_spec (2 ^ (n `mod` 32)) (2 ^ 31)) as [Hlt|Hge].
  - assert (n `mod` 32 < 31) by (apply (Z.pow_lt_mono_r_iff 2); lia).
    apply Z.pow_le_mono_r; lia.
  - assert (2 ^ (n `mod` 32) < 2 ^ 32) by (apply Z.pow_lt_mono_r; lia). lia.
Qed.

(** The loop returns only for sizes within the last bucket, and returns
    for every size within a bucket it reaches. *)
Lemma pad_from_bound (steps : nat) : ∀ n s r : Z,
  padFileSize_from steps n s = Return r → s ≤ 2 ^ 30 * 80 * kib.
Proof.
  induction steps as [|steps IH]; intros n s r Hpad; [discriminate|].
  rewrite padFileSize_from_S in Hpad.
  destruct (Z.leb_spec s (shl1 n * 80 * kib)) as [Hle|Hgt]; [|by eapply IH].
  pose proof (shl1_upper n). unfold kib in *. lia.
Qed.

Lemma pad_from_returns (steps : nat) : ∀ (k : nat) (n s : Z),
  (k < steps)%nat → s ≤ shl1 (n + Z.of_nat k) * 80 * kib →
  ∃ r, padFileSize_from steps n s = Return r.
Proof.
  induction steps as [|steps IH]; intros k n s Hk Hle; [lia|].
  rewrite padFileSize_from_S.
  destruct (Z.leb_spec s (shl1 n * 80 * kib)) as [_|Hgt].
  - destruct (negb _); eauto.
  - destruct k as [|k].
    + replace (n + Z.of_nat 0) with n in Hle by lia. lia.
    + apply (IH k); [lia|]. by replace (n + 1 + Z.of_nat k) with (n + Z.of_nat (S k)) by lia.
Qed.

(** The sizes that do not overflow are those up to [2^30 * 80 KiB]. *)
Lemma padFileSize_returns_iff (s : Z) :
  (∃ r, padFileSize s = Return r) ↔ s ≤ 2 ^ 30 * 80 * kib.
Proof.
  unfold padFileSize. split.
  - intros [r Hr]. by eapply pad_from_bound.
  - intros Hle. apply (pad_from_returns 53 30); [lia|]. exact Hle.
Qed.

(** C8, as stated, fails: 100_000_000 bytes are not 100 MiB; they fall in
    the bucket of 8 MiB blocks and are padded to 96 MiB. *)
Lemma padFileSize_100_000_000 :
  padFileSize 100000000 = Return (96 * 2 ^ 20)
  ∧ padFileSize 100000000 ≠ Return (104 * 2 ^ 20).
Proof. split; [vm_compute; reflexivity | vm_compute; discriminate]. Qed.

(** C8 (amended): [padFileSize] applied to 100 MiB, that is 100 * 2^20
    bytes, returns exactly 104 * 2^20 bytes; [checkPaddedBlock (352 * 1024)]
    is true and [checkPaddedBlock (351 * 1024)] is false. *)
Theorem padding_reference_vectors :
  padFileSize (100 * 2 ^ 20) = Return (104 * 2 ^ 20)
  ∧ checkPaddedBlock (352 * 1024) = Return true
  ∧ checkPaddedBlock (351 * 1024) = Return false.
Proof. repeat split; vm_compute; reflexivity. Qed.

(** C9: for every size [s] that [padFileSize] accepts (it returns [r]
    instead of throwing the overflow error), padding [r] again returns [r],
    [r] is at least [s], and [checkPaddedBlock r] is true. *)
Theorem padFileSize_idempotent_ge_padded (s r : Z) :
  padFileSize s = Return r →
  padFileSize r = Return r ∧ s ≤ r ∧ checkPaddedBlock r = Return true.
Proof.
  unfold padFileSize, checkPaddedBlock. intros Hpad.
  destruct (Z_le_gt_dec 0 s) as [Hs|Hs].
  - destruct (pad_from_nonneg _ _ _ _ Hs Hpad) as (? & ? & ?). auto.
  - assert (Hpos : 0 < shl1 0) by (vm_compute; reflexivity).
    assert (Hle : s ≤ shl1 0 * 80 * kib) by (change (shl1 0) with 1; unfold kib; lia).
    destruct (pad_in_bucket _ _ _ _ Hpos Hle Hpad) as (? & ? & ?). auto.
Qed.

Lemma padFileSize_idempotent_ge_padded_witness :
  padFileSize (5 * kib) = Return (8 * kib)
  ∧ (padFileSize (8 * kib) = Return (8 * kib) ∧ 5 * kib ≤ 8 * kib
     ∧ checkPaddedBlock (8 * kib) = Return true).
Proof.
  split; [reflexivity|].
  apply (padFileSize_idempotent_ge_padded (5 * kib) (8 * kib)). reflexivity.
Defined.

(** ** The revision cache *)

Section skydb_properties.
Context `{!Imports} `{!SkynetClient}.

(** Unfolds the monad of an operation down to matches on the answers of the
    validators and collaborators. *)
Ltac unfold_monad :=
  unfold bind, try_catch, lift, ret, throw, request, getCache, putCache in *;
  cbn beta iota in *.

Lemma incrementCachedRevision_run (publicKey dataKey : string) (s : State) :
  incrementCachedRevision publicKey dataKey s =
  let previous := cachedRevision s publicKey dataKey in
  if MAX_REVISION <? previous + 1
  then (Throw (Error "Current entry already has maximum allowed revision, could not update the entry"), s)
  else (Return (previous + 1),
        mkState (<[getCacheKey publicKey dataKey := previous + 1]> (revisionNumberCache s))
          (requests s)).
Proof.
  unfold incrementCachedRevision, incrementRevision, cachedRevision. unfold_monad.
  by destruct (MAX_REVISION <? _).
Qed.

Lemma decrementCachedRevision_run (publicKey dataKey : string) (s : State) (cached : Z) :
  revisionNumberCache s !! getCacheKey publicKey dataKey = Some cached →
  decrementCachedRevision publicKey dataKey s =
  (Return tt,
   mkState (<[getCacheKey publicKey dataKey := cached - 1]> (revisionNumberCache s))
     (requests s)).
Proof. intros Hc. unfold decrementCachedRevision. unfold_monad. by rewrite Hc. Qed.

(** An increment followed by a decrement leaves, at the key, the revision
    the increment read. *)
Lemma rollback_cache (key : string) (previous : Z) (cache : gmap string Z) :
  <[key := previous + 1 - 1]> (<[key := previous + 1]> cache) = <[key := previous]> cache.
Proof. rewrite insert_insert_eq. f_equal. lia. Qed.

Lemma setEntryData_run (privateKey publicKey dataKey : string) (data : Uint8Array)
    (customOptions : option Options) (s : State) :
  write_validates (SetEntryData data) privateKey dataKey customOptions →
  publicKeyOf privateKey = Return publicKey →
  let key := getCacheKey publicKey dataKey in
  let previous := cachedRevision s publicKey dataKey in
  let entry := RegistryEntry.mk dataKey data (Some (previous + 1)) in
  let setEntryOpts := extractOptions (setEntryData_opts customOptions) DEFAULT_SET_ENTRY_OPTIONS in
  let sent := (requests s ++ [SetEntry privateKey entry setEntryOpts])%list in
  setEntryData privateKey dataKey data customOptions s =
  if MAX_REVISION <? previous + 1
  then (Throw (Error "Current entry already has maximum allowed revision, could not update the entry"), s)
  else match registry_setEntry (requests s) privateKey entry setEntryOpts with
       | Return _ =>
           (Return (mkEntryData (Some data)),
            mkState (<[key := previous + 1]> (revisionNumberCache s)) sent)
       | Throw e =>
           (Throw e, mkState (<[key := previous]> (revisionNumberCache s)) sent)
       end.
Proof.
  intros [(Hv1 & Hv2 & Hv3 & Hv4) Hv5] Hpk. cbv zeta.
  unfold setEntryData, setEntryData_try. fold (setEntryData_opts customOptions).
  unfold bind at 1 2 3 4 5 6. unfold lift at 1 2 3 4 5 6.
  rewrite Hv1, Hv2, Hv3, Hv4, Hv5, Hpk.
  unfold bind at 1. rewrite incrementCachedRevision_run. cbv zeta.
  destruct (MAX_REVISION <? _); [reflexivity|].
  unfold_monad. cbn [revisionNumberCache requests].
  destruct (registry_setEntry _ _ _ _) as [[]|e]; [reflexivity|].
  erewrite decrementCachedRevision_run by (cbn; apply lookup_insert_eq).
  cbn. by rewrite rollback_cache.
Qed.


(** The [try] block of [setJSON] leaves the cache alone; when it returns,
    its last request is the [registry.setEntry] of an entry at the reserved
    revision. *)
Lemma setJSON_try_run (privateKey dataKey : string) (json : JsonData)
    (newRevision : Z) (opts : Options) (s : State) :
  revisionNumberCache (setJSON_try privateKey dataKey json newRevision opts s).2
  = revisionNumberCache s
  ∧ (requests (setJSON_try privateKey dataKey json newRevision opts s).2 ≠ requests s)
  ∧ ∀ entry dataLink,
      (setJSON_try privateKey dataKey json newRevision opts s).1 = Return (entry, dataLink) →
      lastSetEntry (setJSON_try privateKey dataKey json newRevision opts s).2
      = Some (privateKey, entry)
      ∧ RegistryEntry.dataKey entry = dataKey
      ∧ RegistryEntry.revision entry = Some newRevision.
Proof.
  assert (Hne : ∀ (l m : list Request) x, (l ++ x :: m)%list ≠ l).
  { intros l m x Heq. apply (f_equal length) in Heq.
    rewrite length_app in Heq. cbn in Heq. lia. }
  unfold setJSON_try, getOrCreateRegistryEntry, lastSetEntry. unfold_monad.
  destruct (client_uploadFile _ _ _) as [skylink|e]; cbn;
    [|by split; [|split; [apply Hne|]]].
  destruct (decodeSkylinkBase64 _) as [rawDataLink|e]; cbn;
    [|by split; [|split; [apply Hne|]]].
  destruct (validateUint8ArrayLen _ _ _ _) as [[]|e]; cbn;
    [|by split; [|split; [apply Hne|]]].
  destruct (registry_setEntry _ _ _ _) as [[]|e]; cbn.
  - split; [done|split].
    + rewrite <- (assoc_L (++)). apply Hne.
    + intros entry dataLink [= <- <-]. by rewrite last_snoc.
  - split; [done|split; [|done]]. rewrite <- (assoc_L (++)). apply Hne.
Qed.

Lemma setJSON_run (privateKey publicKey dataKey : string) (json : JsonData)
    (customOptions : option Options) (s : State) :
  write_validates (SetJSON json) privateKey dataKey customOptions →
  publicKeyOf privateKey = Return publicKey →
  let key := getCacheKey publicKey dataKey in
  let previous := cachedRevision s publicKey dataKey in
  let opts := spread (spread DEFAULT_SET_JSON_OPTIONS this_customOptions)
                (optional customOptions) in
  let reserved := mkState (<[key := previous + 1]> (revisionNumberCache s)) (requests s) in
  let tried := setJSON_try privateKey dataKey json (previous + 1) opts reserved in
  setJSON privateKey dataKey json customOptions s =
  if MAX_REVISION <? previous + 1
  then (Throw (Error "Current entry already has maximum allowed revision, could not update the entry"), s)
  else match tried.1 with
       | Return (entry, dataLink) =>
           (Return (mkJSONResponse (Some json) (Some (formatSkylink dataLink))), tried.2)
       | Throw e =>
           (Throw e, mkState (<[key := previous]> (revisionNumberCache s)) (requests tried.2))
       end.
Proof.
  intros (Hv1 & Hv2 & Hv3 & Hv4) Hpk. cbv zeta.
  unfold setJSON.
  unfold bind at 1 2 3 4 5. unfold lift at 1 2 3 4 5.
  rewrite Hv1, Hv2, Hv3, Hv4, Hpk.
  unfold bind at 1. rewrite incrementCachedRevision_run. cbv zeta.
  destruct (MAX_REVISION <? _); [reflexivity|].
  unfold bind at 1. unfold try_catch.
  match goal with |- context [setJSON_try ?a ?b ?c ?d ?e ?f] =>
    pose proof (setJSON_try_run a b c d e f) as (Hcache & _ & _);
    destruct (setJSON_try a b c d e f) as [[[entry dataLink]|e'] tried]
  end; cbn in *; [reflexivity|].
  unfold bind at 1.
  erewrite decrementCachedRevision_run
    by (rewrite Hcache; apply lookup_insert_eq).
  cbn. unfold throw. by rewrite Hcache, rollback_cache.
Qed.

(** A write either passes its checks or throws without a trace. *)
Lemma write_validates_or_rejected (op : WriteOp) (privateKey dataKey : string)
    (customOptions : option Options) (s : State) :
  write_validates op privateKey dataKey customOptions
  ∨ ∃ e, write op privateKey dataKey customOptions s = (Throw e, s).
Proof.
  destruct op as [json|data]; cbn [write write_validates];
    unfold setJSON_validates, setEntryData_validates, setJSON, setEntryData;
    fold (setEntryData_opts customOptions).
  - unfold bind at 1 2 3 4 5. unfold lift at 1 2 3 4.
    destruct (validateHexString _ _ _) as [[]|e]; [|by eauto].
    destruct (validateString _ _ _) as [[]|e]; [|by eauto].
    destruct (validateObject _ _ _) as [[]|e]; [|by eauto].
    destruct (validateOptionalObject _ _ _ _) as [[]|e]; [|by eauto].
    by left.
  - unfold bind at 1 2 3 4 5 6. unfold lift at 1 2 3 4 5.
    destruct (validateHexString _ _ _) as [[]|e]; [|by eauto].
    destruct (validateString _ _ _) as [[]|e]; [|by eauto].
    destruct (validateUint8Array _ _ _) as [[]|e]; [|by eauto].
    destruct (validateOptionalObject _ _ _ _) as [[]|e]; [|by eauto].
    destruct (validateEntryData _ _) as [[]|e]; [|by eauto].
    by left.
Qed.


Lemma write_without_key (op : WriteOp) (privateKey dataKey : string)
    (customOptions : option Options) (s : State) (e : exn) :
  write_validates op privateKey dataKey customOptions →
  publicKeyOf privateKey = Throw e →
  write op privateKey dataKey customOptions s = (Throw e, s).
Proof.
  destruct op as [json|data]; cbn [write write_validates];
    unfold setJSON, setEntryData; fold (setEntryData_opts customOptions).
  - intros (Hv1 & Hv2 & Hv3 & Hv4) Hpk.
    unfold bind at 1 2 3 4 5 6. unfold lift at 1 2 3 4 5.
    by rewrite Hv1, Hv2, Hv3, Hv4, Hpk.
  - intros [(Hv1 & Hv2 & Hv3 & Hv4) Hv5] Hpk.
    unfold bind at 1 2 3 4 5 6 7. unfold lift at 1 2 3 4 5 6.
    by rewrite Hv1, Hv2, Hv3, Hv4, Hv5, Hpk.
Qed.

(** The run of a write whose checks pass, in one statement for both writes:
    an overflow leaves the state alone; otherwise the revision after the
    cached one is reserved, and the run either returns, the cache holding
    the reserved revision and the last request being the [registry.setEntry]
    of an entry of the data key at that revision, or throws after at least
    one request, the cache holding the revision read before. *)
Lemma write_run (op : WriteOp) (privateKey publicKey dataKey : string)
    (customOptions : option Options) (s : State) :
  write_validates op privateKey dataKey customOptions →
  publicKeyOf privateKey = Return publicKey →
  let key := getCacheKey publicKey dataKey in
  let previous := cachedRevision s publicKey dataKey in
  let run := write op privateKey dataKey customOptions s in
  (MAX_REVISION < previous + 1
   ∧ run = (Throw (Error "Current entry already has maximum allowed revision, could not update the entry"), s))
  ∨ (previous + 1 ≤ MAX_REVISION
     ∧ requests run.2 ≠ requests s
     ∧ match run.1 with
       | Return _ =>
           revisionNumberCache run.2 = <[key := previous + 1]> (revisionNumberCache s)
           ∧ ∃ entry, lastSetEntry run.2 = Some (privateKey, entry)
                      ∧ RegistryEntry.dataKey entry = dataKey
                      ∧ RegistryEntry.revision entry = Some (previous + 1)
                      ∧ ∀ data, op = SetEntryData data → RegistryEntry.data entry = data
       | Throw _ =>
           revisionNumberCache run.2 = <[key := previous]> (revisionNumberCache s)
       end).
Proof.
  assert (Hne : ∀ (l : list Request) x, (l ++ [x])%list ≠ l).
  { intros l x Heq. apply (f_equal length) in Heq.
    rewrite length_app in Heq. cbn in Heq. lia. }
  assert (Hthen : ∀ A (m : M A) s0,
             bind m (λ _, ret tt) s0
             = match m s0 with
               | (Return _, s1) => (Return tt, s1)
               | (Throw e, s1) => (Throw e, s1)
               end) by reflexivity.
  intros Hv Hpk. cbv zeta. destruct op as [json|data]; cbn [write]; rewrite Hthen.
  - rewrite (setJSON_run _ _ _ _ _ _ Hv Hpk). cbv zeta.
    destruct (Z.ltb_spec MAX_REVISION (cachedRevision s publicKey dataKey + 1));
      [by left | right; split; [done|]].
    match goal with |- context [setJSON_try ?a ?b ?c ?d ?e ?f] =>
      pose proof (setJSON_try_run a b c d e f) as (Hcache & Hreq & Hlast);
      destruct (setJSON_try a b c d e f) as [[[entry dataLink]|e'] tried]
    end; cbn in *; (split; [done|]); [|done].
    split; [done|]. exists entry.
    destruct (Hlast _ _ eq_refl) as (? & ? & ?). by repeat split.
  - rewrite (setEntryData_run _ _ _ _ _ _ Hv Hpk). cbv zeta.
    destruct (Z.ltb_spec MAX_REVISION (cachedRevision s publicKey dataKey + 1));
      [by left | right; split; [done|]].
    destruct (registry_setEntry _ _ _ _) as [[]|e']; cbn; (split; [apply Hne|]); [|done].
    split; [done|]. eexists. unfold lastSetEntry. cbn. rewrite last_snoc.
    repeat split. by intros ? [= <-].
Qed.


(** A write that returns has reserved the revision after the one it found
    cached: the entry it last handed to [registry.setEntry] carries it and
    the cache stores it. *)
Lemma write_returns (op : WriteOp) (privateKey publicKey dataKey : string)
    (customOptions : option Options) (s : State) :
  publicKeyOf privateKey = Return publicKey →
  let run := write op privateKey dataKey customOptions s in
  run.1 = Return tt →
  writtenRevision run.2 = Some (cachedRevision s publicKey dataKey + 1)
  ∧ revisionNumberCache run.2
    = <[getCacheKey publicKey dataKey := cachedRevision s publicKey dataKey + 1]>
        (revisionNumberCache s).
Proof.
  intros Hpk. cbv zeta. intros Hreturns.
  destruct (write_validates_or_rejected op privateKey dataKey customOptions s)
    as [Hv|[e He]]; [|by rewrite He in Hreturns].
  destruct (write_run op privateKey publicKey dataKey customOptions s Hv Hpk)
    as [[_ Hrun]|(_ & _ & Hcase)]; [by rewrite Hrun in Hreturns|].
  rewrite Hreturns in Hcase. destruct Hcase as (Hcache & entry & Hlast & _ & Hrev & _).
  split; [|done]. unfold writtenRevision. by rewrite Hlast.
Qed.

(** A write that throws leaves the cached revision as the write found it. *)
Lemma write_throws (op : WriteOp) (privateKey publicKey dataKey : string)
    (customOptions : option Options) (s : State) (e : exn) :
  publicKeyOf privateKey = Return publicKey →
  let key := getCacheKey publicKey dataKey in
  let run := write op privateKey dataKey customOptions s in
  run.1 = Throw e →
  cachedRevision run.2 publicKey dataKey = cachedRevision s publicKey dataKey
  ∧ (is_Some (revisionNumberCache s !! key) →
     revisionNumberCache run.2 = revisionNumberCache s)
  ∧ (requests run.2 ≠ requests s →
     revisionNumberCache run.2
     = <[key := cachedRevision s publicKey dataKey]> (revisionNumberCache s)).
Proof.
  intros Hpk. cbv zeta. intros Hthrows.
  assert (Hsame : write op privateKey dataKey customOptions s
                  = (Throw e, s) →
    cachedRevision (write op privateKey dataKey customOptions s).2 publicKey dataKey
    = cachedRevision s publicKey dataKey
    ∧ (is_Some (revisionNumberCache s !! getCacheKey publicKey dataKey) →
       revisionNumberCache (write op privateKey dataKey customOptions s).2
       = revisionNumberCache s)
    ∧ (requests (write op privateKey dataKey customOptions s).2 ≠ requests s →
       revisionNumberCache (write op privateKey dataKey customOptions s).2
       = <[getCacheKey publicKey dataKey := cachedRevision s publicKey dataKey]>
           (revisionNumberCache s))).
  { intros ->. by cbn. }
  destruct (write_validates_or_rejected op privateKey dataKey customOptions s)
    as [Hv|[e' He]].
  2: { apply Hsame. rewrite He in Hthrows |- *. by injection Hthrows as ->. }
  destruct (write_run op privateKey publicKey dataKey customOptions s Hv Hpk)
    as [[_ Hrun]|(_ & _ & Hcase)].
  { apply Hsame. rewrite Hrun in Hthrows |- *. by injection Hthrows as <-. }
  rewrite Hthrows in Hcase. unfold cachedRevision in *. rewrite Hcase.
  rewrite lookup_insert_eq. cbn [default]. split; [done|split; [|done]].
  intros [previous Hsome]. rewrite Hsome. cbn. by apply insert_id.
Qed.

(** C1: take a write ([setJSON] or [setEntryData]) for the pair
    (publicKey, dataKey). If nothing is cached for the pair and the write
    succeeds, it reserves revision 0: the entry handed to
    [registry.setEntry] carries 0 and the cache stores 0. If [previous] is
    cached and the write succeeds, it reserves and stores [previous + 1];
    so, of two successful writes in a row for the pair, the second reserves
    the revision of the first plus 1. If the write throws, the cached
    revision, read as [incrementCachedRevision] reads it, is the one before
    the write; the cache itself is unchanged when the pair was cached, and
    when the write failed after the reservation (a request was made) the
    cache holds, at the pair, exactly the revision the reservation read. *)
Theorem revision_monotonicity (op : WriteOp) (privateKey publicKey dataKey : string)
    (customOptions : option Options) (s : State) :
  publicKeyOf privateKey = Return publicKey →
  let key := getCacheKey publicKey dataKey in
  let run := write op privateKey dataKey customOptions s in
  (revisionNumberCache s !! key = None → run.1 = Return tt →
   writtenRevision run.2 = Some 0
   ∧ revisionNumberCache run.2 = <[key := 0]> (revisionNumberCache s))
  ∧ (∀ previous, revisionNumberCache s !! key = Some previous → run.1 = Return tt →
     writtenRevision run.2 = Some (previous + 1)
     ∧ revisionNumberCache run.2 = <[key := previous + 1]> (revisionNumberCache s))
  ∧ (∀ op' customOptions' reserved,
       let run' := write op' privateKey dataKey customOptions' run.2 in
       run.1 = Return tt → writtenRevision run.2 = Some reserved →
       run'.1 = Return tt →
       writtenRevision run'.2 = Some (reserved + 1))
  ∧ (∀ e, run.1 = Throw e →
     cachedRevision run.2 publicKey dataKey = cachedRevision s publicKey dataKey
     ∧ (is_Some (revisionNumberCache s !! key) →
        revisionNumberCache run.2 = revisionNumberCache s)
     ∧ (requests run.2 ≠ requests s →
        revisionNumberCache run.2
        = <[key := cachedRevision s publicKey dataKey]> (revisionNumberCache s))).
Proof.
  intros Hpk. cbv zeta. split; [|split; [|split]].
  - intros Hnone Hreturns.
    destruct (write_returns op _ _ dataKey customOptions s Hpk Hreturns) as [Hsent Hcache].
    unfold cachedRevision in *. by rewrite Hnone in *.
  - intros previous Hsome Hreturns.
    destruct (write_returns op _ _ dataKey customOptions s Hpk Hreturns) as [Hsent Hcache].
    unfold cachedRevision in *. by rewrite Hsome in *.
  - intros op' customOptions' reserved Hreturns Hreserved Hreturns'.
    destruct (write_returns op _ _ dataKey customOptions s Hpk Hreturns) as [Hsent Hcache].
    destruct (write_returns op' _ _ dataKey customOptions' _ Hpk Hreturns') as [Hsent' _].
    rewrite Hsent'. rewrite Hsent in Hreserved. injection Hreserved as <-.
    unfold cachedRevision at 1. by rewrite Hcache, lookup_insert_eq.
  - intros e Hthrows. by apply (write_throws op _ _ _ _ _ e).
Qed.

(** C5: when the revision cached for (publicKey, dataKey) is the maximum
    allowed one, [incrementCachedRevision] throws the overflow error and
    leaves the state alone, and so does any write for that pair: it throws
    without touching the cache or making a request, and the error is the
    overflow error once the arguments pass the checks made before. When the
    cached revision is below the maximum, the increment stores and returns
    that revision plus 1. *)
Theorem increment_at_maximum (publicKey dataKey : string) (s : State) (cached : Z) :
  revisionNumberCache s !! getCacheKey publicKey dataKey = Some cached →
  (cached = MAX_REVISION →
   incrementCachedRevision publicKey dataKey s
   = (Throw (Error "Current entry already has maximum allowed revision, could not update the entry"), s)
   ∧ ∀ op privateKey customOptions,
       publicKeyOf privateKey = Return publicKey →
       ∃ e, write op privateKey dataKey customOptions s = (Throw e, s)
            ∧ (write_validates op privateKey dataKey customOptions →
               e = Error "Current entry already has maximum allowed revision, could not update the entry"))
  ∧ (cached < MAX_REVISION →
     incrementCachedRevision publicKey dataKey s
     = (Return (cached + 1),
        mkState (<[getCacheKey publicKey dataKey := cached + 1]> (revisionNumberCache s))
          (requests s))).
Proof.
  intros Hcached.
  assert (Hprev : cachedRevision s publicKey dataKey = cached)
    by (unfold cachedRevision; by rewrite Hcached).
  split.
  - intros ->. split.
    + rewrite incrementCachedRevision_run. cbv zeta. rewrite Hprev.
      by destruct (Z.ltb_spec MAX_REVISION (MAX_REVISION + 1)); [|lia].
    + intros op privateKey customOptions Hpk.
      destruct (write_validates_or_rejected op privateKey dataKey customOptions s)
        as [Hv|[e He]].
      * destruct (write_run op privateKey publicKey dataKey customOptions s Hv Hpk)
          as [[_ Hrun]|(Hle & _)]; [by eauto|lia].
      * exists e. split; [done|]. intros Hv.
        destruct (write_run op privateKey publicKey dataKey customOptions s Hv Hpk)
          as [[_ Hrun]|(Hle & _)]; [congruence|lia].
  - intros Hlt. rewrite incrementCachedRevision_run. cbv zeta. rewrite Hprev.
    by destruct (Z.ltb_spec MAX_REVISION (cached + 1)); [lia|].
Qed.


(** ** Entry data and deletion *)

Lemma areEqualUint8Arrays_eq (array1 array2 : Uint8Array) :
  areEqualUint8Arrays array1 array2 = true ↔ array1 = array2.
Proof.
  revert array2. induction array1 as [|b1 rest1 IH]; intros [|b2 rest2]; cbn;
    try done.
  rewrite andb_true_iff, IH. split.
  - intros [Hb ->]. by rewrite (Byte.byte_dec_bl _ _ Hb).
  - intros [= -> ->]. split; [by apply Byte.byte_dec_lb|done].
Qed.

Lemma validateEntryData_run (data : Uint8Array) (allow : OptionValue) :
  validateEntryData data allow =
  if (MAX_ENTRY_LENGTH <? length data)%nat then
    Throw (ValidationError "data" data "parameter"
             ("'Uint8Array' of length <= 70, was length " +:+ pretty (length data)))
  else if negb (truthy allow) && bool_decide (data = DELETION_ENTRY_DATA) then
    Throw (Error "Tried to set 'Uint8Array' entry data that is the deletion sentinel ('Uint8Array(RAW_SKYLINK_SIZE)'), please use the 'deleteEntryData' method instead`")
  else Return tt.
Proof.
  unfold validateEntryData.
  destruct (MAX_ENTRY_LENGTH <? length data)%nat; [reflexivity|].
  replace (areEqualUint8Arrays data DELETION_ENTRY_DATA)
    with (bool_decide (data = DELETION_ENTRY_DATA)); [done|].
  apply eq_true_iff_eq. by rewrite bool_decide_eq_true, areEqualUint8Arrays_eq.
Qed.

(** A call of [setEntryData] that [validateEntryData] rejects throws without
    a trace, and throws that error when the checks before it pass. *)
Lemma setEntryData_rejected (privateKey dataKey : string) (data : Uint8Array)
    (customOptions : option Options) (s : State) (e : exn) :
  validateEntryData data
    (getProp (setEntryData_opts customOptions) "allowDeletionEntryData") = Throw e →
  ∃ e', setEntryData privateKey dataKey data customOptions s = (Throw e', s)
        ∧ (setEntryData_validates privateKey dataKey data customOptions → e' = e).
Proof.
  intros Hrejected. unfold setEntryData, setEntryData_validates.
  fold (setEntryData_opts customOptions).
  unfold bind at 1 2 3 4 5. unfold lift at 1 2 3 4 5. rewrite Hrejected.
  destruct (validateHexString _ _ _) as [[]|e1];
    [|eexists; split; [done|by intros ([=] & _)]].
  destruct (validateString _ _ _) as [[]|e2];
    [|eexists; split; [done|by intros (_ & [=] & _)]].
  destruct (validateUint8Array _ _ _) as [[]|e3];
    [|eexists; split; [done|by intros (_ & _ & [=] & _)]].
  destruct (validateOptionalObject _ _ _ _) as [[]|e4];
    [|eexists; split; [done|by intros (_ & _ & _ & [=])]].
  by eexists.
Qed.

(** C6: [setEntryData] with data longer than 70 bytes is rejected by
    [validateEntryData] with a validation error, and with data equal to the
    deletion sentinel it is rejected with an error unless the option
    [allowDeletionEntryData], as merged from the defaults, the client and
    the call, is true. A rejected call throws with the state as it was: the
    cache is unchanged and no request was made; the error is the one of
    [validateEntryData] when the argument checks before it pass. Data that
    is neither too long nor a sentinel without the option is accepted. *)
Theorem setEntryData_rejects_before_effects (privateKey dataKey : string)
    (data : Uint8Array) (customOptions : option Options) (s : State) :
  let allow := getProp (setEntryData_opts customOptions) "allowDeletionEntryData" in
  let rejected :=
    (MAX_ENTRY_LENGTH < length data)%nat
    ∨ (data = DELETION_ENTRY_DATA ∧ truthy allow = false) in
  (rejected →
   ∃ e, validateEntryData data allow = Throw e
        ∧ ((MAX_ENTRY_LENGTH < length data)%nat →
           e = ValidationError "data" data "parameter"
                 ("'Uint8Array' of length <= 70, was length " +:+ pretty (length data)))
        ∧ ((length data ≤ MAX_ENTRY_LENGTH)%nat →
           e = Error "Tried to set 'Uint8Array' entry data that is the deletion sentinel ('Uint8Array(RAW_SKYLINK_SIZE)'), please use the 'deleteEntryData' method instead`")
        ∧ ∃ e', setEntryData privateKey dataKey data customOptions s = (Throw e', s)
                ∧ (setEntryData_validates privateKey dataKey data customOptions → e' = e))
  ∧ (¬ rejected → validateEntryData data allow = Return tt).
Proof.
  cbv zeta. split.
  - intros Hrejected.
    set (allow := getProp (setEntryData_opts customOptions) "allowDeletionEntryData") in *.
    assert (He : ∃ e, validateEntryData data allow = Throw e
      ∧ ((MAX_ENTRY_LENGTH < length data)%nat →
         e = ValidationError "data" data "parameter"
               ("'Uint8Array' of length <= 70, was length " +:+ pretty (length data)))
      ∧ ((length data ≤ MAX_ENTRY_LENGTH)%nat →
         e = Error "Tried to set 'Uint8Array' entry data that is the deletion sentinel ('Uint8Array(RAW_SKYLINK_SIZE)'), please use the 'deleteEntryData' method instead`")).
    { rewrite validateEntryData_run.
      destruct (Nat.ltb_spec MAX_ENTRY_LENGTH (length data)) as [Hlong|Hshort].
      - eexists. split; [done|]. split; [done|lia].
      - destruct Hrejected as [Hlong|[Hdel Hallow]]; [lia|].
        rewrite Hallow, (bool_decide_eq_true_2 _ Hdel). cbn [negb andb].
        eexists. split; [done|]. split; [lia|done]. }
    destruct He as (e & He & Hlong & Hshort). exists e.
    split; [done|]. split; [done|]. split; [done|].
    by apply setEntryData_rejected.
  - intros Hnot. rewrite validateEntryData_run.
    destruct (Nat.ltb_spec MAX_ENTRY_LENGTH (length data)) as [Hlong|Hshort];
      [by destruct Hnot; left|].
    destruct (truthy _) eqn:Hallow; [done|]. cbn [negb andb].
    case_bool_decide as Hdel; [|done]. destruct Hnot. by right.
Qed.

(** C10: [deleteJSON] and [deleteEntryData], whatever options the caller
    supplies, call [setEntryData] with the deletion sentinel,
    [RAW_SKYLINK_SIZE] zero bytes, and with options in which
    [allowDeletionEntryData] is [true]; the option is still [true] once
    [setEntryData] has merged them with the defaults and the client's, so
    [validateEntryData] never rejects the deletion with the sentinel error:
    it accepts the sentinel, unless the sentinel is longer than the maximum
    entry length. A deletion that returns has handed to [registry.setEntry]
    an entry whose data is the sentinel. *)
Theorem deletion_overrides_option (op : DeleteOp) (privateKey dataKey : string)
    (customOptions : option Options) (s : State) :
  let passed := delete_options op customOptions in
  let allow := getProp (setEntryData_opts (Some passed)) "allowDeletionEntryData" in
  let sentinel := replicate RAW_SKYLINK_SIZE x00 in
  delete op privateKey dataKey customOptions
  = (setEntryData privateKey dataKey sentinel (Some passed) ;; ret tt)
  ∧ getProp passed "allowDeletionEntryData" = OptBool true
  ∧ allow = OptBool true
  ∧ validateEntryData sentinel allow
    ≠ Throw (Error "Tried to set 'Uint8Array' entry data that is the deletion sentinel ('Uint8Array(RAW_SKYLINK_SIZE)'), please use the 'deleteEntryData' method instead`")
  ∧ ((RAW_SKYLINK_SIZE ≤ MAX_ENTRY_LENGTH)%nat →
     validateEntryData sentinel allow = Return tt)
  ∧ ((delete op privateKey dataKey customOptions s).1 = Return tt →
     ∃ entry,
       lastSetEntry (delete op privateKey dataKey customOptions s).2
       = Some (privateKey, entry)
       ∧ RegistryEntry.data entry = sentinel).
Proof.
  cbv zeta.
  assert (Hpassed : getProp (delete_options op customOptions) "allowDeletionEntryData"
                    = OptBool true).
  { destruct op; cbn [delete_options];
      unfold deleteJSON_options, deleteEntryData_options, getProp;
      by rewrite lookup_insert_eq. }
  assert (Hallow : getProp (setEntryData_opts (Some (delete_options op customOptions)))
                     "allowDeletionEntryData" = OptBool true).
  { unfold getProp in *. unfold setEntryData_opts, spread, optional. cbn [default].
    destruct (delete_options op customOptions !! "allowDeletionEntryData") as [v|] eqn:Hv;
      [|discriminate].
    by rewrite (lookup_union_Some_l _ _ _ _ Hv). }
  assert (Hcall : delete op privateKey dataKey customOptions
                  = write (SetEntryData (replicate RAW_SKYLINK_SIZE x00)) privateKey dataKey
                      (Some (delete_options op customOptions)))
    by (by destruct op).
  split; [exact Hcall|]. split; [done|]. split; [done|].
  rewrite Hallow, validateEntryData_run. cbn [truthy negb andb].
  split; [by destruct (MAX_ENTRY_LENGTH <? _)%nat|].
  split.
  { intros Hsize. rewrite length_replicate.
    by destruct (Nat.ltb_spec MAX_ENTRY_LENGTH RAW_SKYLINK_SIZE); [lia|]. }
  rewrite Hcall. intros Hreturns.
  destruct (write_validates_or_rejected (SetEntryData (replicate RAW_SKYLINK_SIZE x00))
              privateKey dataKey (Some (delete_options op customOptions)) s)
    as [Hv|[e He]]; [|by rewrite He in Hreturns].
  destruct (publicKeyOf privateKey) as [publicKey|e] eqn:Hpk;
    [|by rewrite (write_without_key _ _ _ _ _ _ Hv Hpk) in Hreturns].
  destruct (write_run _ _ _ _ _ s Hv Hpk) as [[_ Hrun]|(_ & _ & Hcase)];
    [by rewrite Hrun in Hreturns|].
  rewrite Hreturns in Hcase. destruct Hcase as (_ & entry & Hlast & _ & _ & Hdata).
  exists entry. split; [done|]. by apply Hdata.
Qed.

(** ** Reads *)

Lemma lookup_run (publicKey dataKey : string) (opts : Options) (s : State) :
  getSkyDBRegistryEntryAndUpdateCache publicKey dataKey opts s =
  let key := getCacheKey publicKey dataKey in
  let asked := (requests s ++ [GetEntry publicKey dataKey opts])%list in
  match registry_getEntry (requests s) publicKey dataKey opts with
  | Throw e => (Throw e, mkState (revisionNumberCache s) asked)
  | Return None => (Return None, mkState (revisionNumberCache s) asked)
  | Return (Some entry) =>
      let newRevision := default 0 (RegistryEntry.revision entry) in
      if higherRevisionCached (revisionNumberCache s !! key) newRevision then
        (Throw (Error "A higher revision number for this userID and path is already cached"),
         mkState (revisionNumberCache s) asked)
      else
        (if wasRegistryEntryDeleted entry then Return None else Return (Some entry),
         mkState (<[key := newRevision]> (revisionNumberCache s)) asked)
  end.
Proof.
  unfold getSkyDBRegistryEntryAndUpdateCache. unfold_monad.
  destruct (registry_getEntry _ _ _ _) as [[entry|]|e]; cbn; try reflexivity.
  change (UNCACHED_REVISION_NUMBER + 1) with 0.
  destruct (higherRevisionCached _ _); [reflexivity|].
  by destruct (wasRegistryEntryDeleted entry).
Qed.

(** A read either throws without a trace, rejected by the checks of its
    arguments, or looks the entry up with some options and goes on from
    there: a failed lookup and a lookup that finds no live entry end the
    read; otherwise the read goes on without touching the cache, making
    further requests at most, and a data link that does not parse ends it
    ([getJSON] parses with the legacy form, [getRawBytes] without). *)
Lemma read_run (op : ReadOp) (publicKey dataKey : string)
    (customOptions : option Options) (s : State) :
  (∃ e, read op publicKey dataKey customOptions s = (Throw e, s))
  ∨ ∃ opts,
      let looked := getSkyDBRegistryEntryAndUpdateCache publicKey dataKey opts s in
      let run := read op publicKey dataKey customOptions s in
      match looked.1 with
      | Throw e => run = (Throw e, looked.2)
      | Return None => run = (Return (noData op), looked.2)
      | Return (Some entry) =>
          revisionNumberCache run.2 = revisionNumberCache looked.2
          ∧ (∃ more, requests run.2 = (requests looked.2 ++ more)%list)
          ∧ (∀ e, op = GetJSON →
                  parseDataLink (RegistryEntry.data entry) true = Throw e →
                  run = (Throw e, looked.2))
          ∧ (∀ e, op = GetRawBytes →
                  parseDataLink (RegistryEntry.data entry) false = Throw e →
                  run = (Throw e, looked.2))
      end.
Proof.
  destruct op; cbn [read noData]; unfold getJSON, getEntryData, getRawBytes;
    unfold_monad.
  - destruct (validatePublicKey _ _ _) as [[]|e]; [|by eauto].
    destruct (validateString _ _ _) as [[]|e]; [|by eauto].
    destruct (validateOptionalObject _ _ _ _) as [[]|e]; [|by eauto].
    right.
    match goal with |- context [getSkyDBRegistryEntryAndUpdateCache _ _ ?o _] =>
      exists o end.
    cbv zeta.
    destruct (getSkyDBRegistryEntryAndUpdateCache _ _ _ _) as [[[entry|]|e] s1];
      cbn [fst snd]; [|done|done].
    destruct (parseDataLink _ true) as [[rawDataLink dataLink]|e]; cbn;
      [|split; [done|split; [by exists []; rewrite app_nil_r|split; [by intros ? _ [= ->]|done]]]].
    destruct (checkCachedDataLink _ _) as [[]|e]; cbn;
      try (split; [done|split; [by exists []; rewrite app_nil_r|done]]).
    destruct (getFileContent_json _ _ _) as [content|e]; cbn;
      [|split; [done|split; [by eexists|done]]].
    destruct (getJSON_unwrap _ _ _); cbn; (split; [done|split; [by eexists|done]]).
  - destruct (validatePublicKey _ _ _) as [[]|e]; [|by eauto].
    destruct (validateString _ _ _) as [[]|e]; [|by eauto].
    destruct (validateOptionalObject _ _ _ _) as [[]|e]; [|by eauto].
    right.
    match goal with |- context [getSkyDBRegistryEntryAndUpdateCache _ _ ?o _] =>
      exists o end.
    cbv zeta.
    destruct (getSkyDBRegistryEntryAndUpdateCache _ _ _ _) as [[[entry|]|e] s1];
      cbn [fst snd]; [|done|done].
    split; [done|split; [by exists []; rewrite app_nil_r|done]].
  - destruct (validatePublicKey _ _ _) as [[]|e]; [|by eauto].
    destruct (validateString _ _ _) as [[]|e]; [|by eauto].
    destruct (validateOptionalObject _ _ _ _) as [[]|e]; [|by eauto].
    right.
    match goal with |- context [getSkyDBRegistryEntryAndUpdateCache _ _ ?o _] =>
      exists o end.
    cbv zeta.
    destruct (getSkyDBRegistryEntryAndUpdateCache _ _ _ _) as [[[entry|]|e] s1];
      cbn [fst snd]; [|done|done].
    destruct (parseDataLink _ false) as [[rawDataLink dataLink]|e]; cbn;
      [|split; [done|split; [by exists []; rewrite app_nil_r|split; [done|by intros ? _ [= ->]]]]].
    destruct (checkCachedDataLink _ _) as [[]|e]; cbn;
      try (split; [done|split; [by exists []; rewrite app_nil_r|done]]).
    destruct (getFileContent_arraybuffer _ _ _) as [content|e]; cbn;
      (split; [done|split; [by eexists|done]]).
Qed.


Lemma lookup_requests (publicKey dataKey : string) (opts : Options) (s : State) :
  requests (getSkyDBRegistryEntryAndUpdateCache publicKey dataKey opts s).2
  = (requests s ++ [GetEntry publicKey dataKey opts])%list.
Proof.
  rewrite lookup_run. cbv zeta.
  destruct (registry_getEntry _ _ _ _) as [[entry|]|e]; try reflexivity.
  by destruct (higherRevisionCached _ _).
Qed.

(** A read whose first request is the lookup of the entry with [opts] goes
    on from that lookup as [read_run] says. *)
Lemma read_asked (op : ReadOp) (publicKey dataKey : string)
    (customOptions : option Options) (s : State) (opts : Options)
    (more : list Request) :
  requests (read op publicKey dataKey customOptions s).2
  = (requests s ++ GetEntry publicKey dataKey opts :: more)%list →
  let looked := getSkyDBRegistryEntryAndUpdateCache publicKey dataKey opts s in
  let run := read op publicKey dataKey customOptions s in
  match looked.1 with
  | Throw e => run = (Throw e, looked.2)
  | Return None => run = (Return (noData op), looked.2)
  | Return (Some entry) =>
      revisionNumberCache run.2 = revisionNumberCache looked.2
      ∧ (∃ more, requests run.2 = (requests looked.2 ++ more)%list)
      ∧ (∀ e, op = GetJSON →
              parseDataLink (RegistryEntry.data entry) true = Throw e →
              run = (Throw e, looked.2))
      ∧ (∀ e, op = GetRawBytes →
              parseDataLink (RegistryEntry.data entry) false = Throw e →
              run = (Throw e, looked.2))
  end.
Proof.
  intros Hasked.
  destruct (read_run op publicKey dataKey customOptions s) as [[e He]|[opts0 Hrun]].
  { rewrite He in Hasked. cbn in Hasked. apply (f_equal length) in Hasked.
    rewrite length_app in Hasked. cbn in Hasked. lia. }
  assert (Hopts : ∃ more0, requests (read op publicKey dataKey customOptions s).2
    = ((requests s ++ [GetEntry publicKey dataKey opts0]) ++ more0)%list).
  { cbv zeta in Hrun. rewrite <- lookup_requests.
    destruct (getSkyDBRegistryEntryAndUpdateCache publicKey dataKey opts0 s)
      as [[[entry|]|e] s1]; cbn [fst snd] in *.
    - by destruct Hrun as (_ & Hmore & _).
    - exists []. by rewrite Hrun, app_nil_r.
    - exists []. by rewrite Hrun, app_nil_r. }
  destruct Hopts as [more0 Hopts]. rewrite Hasked, <- (assoc_L (++)) in Hopts.
  apply app_inv_head in Hopts. by injection Hopts as -> _.
Qed.

(** C2: a read that asks the registry for the entry of (publicKey, dataKey)
    and gets an entry at revision [v] (an unsigned integer): when the cache
    holds a revision [r] for the pair and [v < r], the read throws the
    consistency error and the cache is unchanged, so it still holds [r];
    otherwise (nothing cached, or [r <= v]) the cache is the one before with
    the pair set to [v]. *)
Theorem stale_read_rejected (op : ReadOp) (publicKey dataKey : string)
    (customOptions : option Options) (s : State) (opts : Options)
    (more : list Request) (entry : RegistryEntry) (v : Z) :
  let key := getCacheKey publicKey dataKey in
  let run := read op publicKey dataKey customOptions s in
  requests run.2 = (requests s ++ GetEntry publicKey dataKey opts :: more)%list →
  registry_getEntry (requests s) publicKey dataKey opts = Return (Some entry) →
  RegistryEntry.revision entry = Some v →
  0 ≤ v →
  (∀ r, revisionNumberCache s !! key = Some r → v < r →
        run.1 = Throw (Error "A higher revision number for this userID and path is already cached")
        ∧ revisionNumberCache run.2 = revisionNumberCache s
        ∧ revisionNumberCache run.2 !! key = Some r)
  ∧ (revisionNumberCache s !! key = None
     ∨ (∃ r, revisionNumberCache s !! key = Some r ∧ r ≤ v) →
     revisionNumberCache run.2 = <[key := v]> (revisionNumberCache s)).
Proof.
  cbv zeta. intros Hasked Hanswer Hrev Hv.
  pose proof (read_asked _ _ _ _ _ _ _ Hasked) as Hrun. cbv zeta in Hrun.
  rewrite lookup_run in Hrun. cbv zeta in Hrun. rewrite Hanswer, Hrev in Hrun.
  change (default 0 (Some v)) with v in Hrun. split.
  - intros r Hr Hlt.
    assert (Hhigh : higherRevisionCached
                      (revisionNumberCache s !! getCacheKey publicKey dataKey) v = true).
    { rewrite Hr. cbn. destruct (Z.eqb_spec r 0); [lia|].
      by destruct (Z.ltb_spec v r); [|lia]. }
    rewrite Hhigh in Hrun. cbn in Hrun. by rewrite Hrun.
  - intros Hfresh.
    assert (Hlow : higherRevisionCached
                     (revisionNumberCache s !! getCacheKey publicKey dataKey) v = false).
    { destruct Hfresh as [->|(r & -> & Hle)]; [done|]. cbn.
      destruct (Z.ltb_spec v r); [lia|]. by rewrite andb_false_r. }
    rewrite Hlow in Hrun.
    by destruct (wasRegistryEntryDeleted entry); cbn in Hrun;
      [rewrite Hrun|destruct Hrun as (-> & _)].
Qed.

(** C3 (amended): a read that asks the registry for the entry of
    (publicKey, dataKey): when the registry throws, the read throws the
    same error and the cache is unchanged; when the entry is absent, the
    read returns "no data" and the cache is unchanged; when an entry is
    found and a higher revision is already cached, the read throws the
    consistency error and the cache is unchanged; when an entry is found
    and no higher revision is cached, the cache is updated to the entry's
    revision, also when the payload is the deletion sentinel, and in that
    case the read returns "no data", with the cache updated. *)
Theorem read_cache_effects (op : ReadOp) (publicKey dataKey : string)
    (customOptions : option Options) (s : State) (opts : Options)
    (more : list Request) :
  let key := getCacheKey publicKey dataKey in
  let run := read op publicKey dataKey customOptions s in
  requests run.2 = (requests s ++ GetEntry publicKey dataKey opts :: more)%list →
  match registry_getEntry (requests s) publicKey dataKey opts with
  | Throw e => run.1 = Throw e ∧ revisionNumberCache run.2 = revisionNumberCache s
  | Return None =>
      run.1 = Return (noData op) ∧ revisionNumberCache run.2 = revisionNumberCache s
  | Return (Some entry) =>
      let newRevision := default 0 (RegistryEntry.revision entry) in
      if higherRevisionCached (revisionNumberCache s !! key) newRevision then
        run.1 = Throw (Error "A higher revision number for this userID and path is already cached")
        ∧ revisionNumberCache run.2 = revisionNumberCache s
      else
        revisionNumberCache run.2 = <[key := newRevision]> (revisionNumberCache s)
        ∧ (RegistryEntry.data entry = replicate RAW_SKYLINK_SIZE x00 →
           run.1 = Return (noData op))
  end.
Proof.
  cbv zeta. intros Hasked.
  pose proof (read_asked _ _ _ _ _ _ _ Hasked) as Hrun. cbv zeta in Hrun.
  rewrite lookup_run in Hrun. cbv zeta in Hrun.
  destruct (registry_getEntry _ _ _ _) as [[entry|]|e]; cbn in Hrun;
    [|by rewrite Hrun..].
  destruct (higherRevisionCached _ _); cbn in Hrun; [by rewrite Hrun|].
  split.
  - by destruct (wasRegistryEntryDeleted entry); cbn in Hrun;
      [rewrite Hrun|destruct Hrun as (-> & _)].
  - intros Hdeleted.
    assert (Hwas : wasRegistryEntryDeleted entry = true)
      by (by apply areEqualUint8Arrays_eq).
    rewrite Hwas in Hrun. cbn in Hrun. by rewrite Hrun.
Qed.


(** X1: a read that finds an entry whose revision is absent treats it as
    revision 0, one more than the uncached revision: it throws the
    consistency error when a positive revision is cached, and otherwise
    sets the cache to 0 for the pair. *)
Theorem absent_revision_reads_as_zero (op : ReadOp) (publicKey dataKey : string)
    (customOptions : option Options) (s : State) (opts : Options)
    (more : list Request) (entry : RegistryEntry) :
  let key := getCacheKey publicKey dataKey in
  let run := read op publicKey dataKey customOptions s in
  requests run.2 = (requests s ++ GetEntry publicKey dataKey opts :: more)%list →
  registry_getEntry (requests s) publicKey dataKey opts = Return (Some entry) →
  RegistryEntry.revision entry = None →
  (∀ r, revisionNumberCache s !! key = Some r → 0 < r →
        run.1 = Throw (Error "A higher revision number for this userID and path is already cached")
        ∧ revisionNumberCache run.2 = revisionNumberCache s)
  ∧ (revisionNumberCache s !! key = None
     ∨ (∃ r, revisionNumberCache s !! key = Some r ∧ r ≤ 0) →
     revisionNumberCache run.2 = <[key := 0]> (revisionNumberCache s)).
Proof.
  cbv zeta. intros Hasked Hanswer Hrev.
  pose proof (read_asked _ _ _ _ _ _ _ Hasked) as Hrun. cbv zeta in Hrun.
  rewrite lookup_run in Hrun. cbv zeta in Hrun. rewrite Hanswer, Hrev in Hrun.
  change (default 0 None) with 0 in Hrun. split.
  - intros r Hr Hpos.
    assert (Hhigh : higherRevisionCached
                      (revisionNumberCache s !! getCacheKey publicKey dataKey) 0 = true).
    { rewrite Hr. cbn. destruct (Z.eqb_spec r 0); [lia|].
      by destruct (Z.ltb_spec 0 r); [|lia]. }
    rewrite Hhigh in Hrun. cbn in Hrun. by rewrite Hrun.
  - intros Hfresh.
    assert (Hlow : higherRevisionCached
                     (revisionNumberCache s !! getCacheKey publicKey dataKey) 0 = false).
    { destruct Hfresh as [->|(r & -> & Hle)]; [done|]. cbn.
      destruct (Z.ltb_spec 0 r); [lia|]. by rewrite andb_false_r. }
    rewrite Hlow in Hrun.
    by destruct (wasRegistryEntryDeleted entry); cbn in Hrun;
      [rewrite Hrun|destruct Hrun as (-> & _)].
Qed.

(** ** The reads after the lookup *)

(** A run of [getJSON] or [getRawBytes] whose first request is the lookup
    with [opts] passed the checks of its arguments, and [opts] are the
    options it extracts for the lookup. *)
Lemma lookup_was_asked {A} (run : Result A * State) (looked : State) (s : State)
    (publicKey dataKey : string) (opts opts' : Options) (more more' : list Request) :
  requests looked = (requests s ++ [GetEntry publicKey dataKey opts'])%list →
  requests run.2 = (requests looked ++ more')%list →
  requests run.2 = (requests s ++ GetEntry publicKey dataKey opts :: more)%list →
  opts = opts' ∧ more = more'.
Proof.
  intros Hlooked -> Hasked. rewrite Hlooked, <- (assoc_L (++)) in Hasked.
  apply app_inv_head in Hasked. by injection Hasked as -> ->.
Qed.

Lemma not_asked (s : State) (x : Request) (more : list Request) :
  requests s = (requests s ++ x :: more)%list → False.
Proof.
  intros Heq. apply (f_equal length) in Heq. rewrite length_app in Heq.
  cbn in Heq. lia.
Qed.

Lemma getJSON_asked (publicKey dataKey : string) (customOptions : option Options)
    (s : State) (opts : Options) (more : list Request) :
  requests (getJSON publicKey dataKey customOptions s).2
  = (requests s ++ GetEntry publicKey dataKey opts :: more)%list →
  validatePublicKey "publicKey" publicKey "parameter" = Return tt
  ∧ validateString "dataKey" dataKey "parameter" = Return tt
  ∧ validateOptionalObject "customOptions" customOptions "parameter"
      DEFAULT_GET_JSON_OPTIONS = Return tt
  ∧ opts = extractOptions
             (spread (spread DEFAULT_GET_JSON_OPTIONS this_customOptions)
                (optional customOptions))
             DEFAULT_GET_ENTRY_OPTIONS.
Proof.
  unfold getJSON. unfold_monad.
  destruct (validatePublicKey _ _ _) as [[]|e]; [|by intros ?%not_asked].
  destruct (validateString _ _ _) as [[]|e]; [|by intros ?%not_asked].
  destruct (validateOptionalObject _ _ _ _) as [[]|e]; [|by intros ?%not_asked].
  intros Hasked. repeat split.
  match type of Hasked with context [getSkyDBRegistryEntryAndUpdateCache ?a ?b ?o ?s] =>
    pose proof (lookup_requests a b o s) as Hlooked;
    destruct (getSkyDBRegistryEntryAndUpdateCache a b o s) as [[[entry|]|e] s1]
  end; cbn [fst snd] in *.
  - repeat match type of Hasked with context [match ?x with _ => _ end] =>
      destruct x end; cbn in Hasked;
      first [ by destruct (lookup_was_asked (Return tt, mkState ∅ (requests s1 ++ [_]))
                             s1 s _ _ _ _ _ [_] Hlooked eq_refl Hasked)
            | by destruct (lookup_was_asked (Return tt, s1) s1 s _ _ _ _ _ []
                             Hlooked (eq_sym (app_nil_r _)) Hasked) ].
  - by destruct (lookup_was_asked (Return tt, s1) s1 s _ _ _ _ _ []
                   Hlooked (eq_sym (app_nil_r _)) Hasked).
  - by destruct (lookup_was_asked (Return tt, s1) s1 s _ _ _ _ _ []
                   Hlooked (eq_sym (app_nil_r _)) Hasked).
Qed.

Lemma getRawBytes_asked (publicKey dataKey : string) (customOptions : option Options)
    (s : State) (opts : Options) (more : list Request) :
  requests (getRawBytes publicKey dataKey customOptions s).2
  = (requests s ++ GetEntry publicKey dataKey opts :: more)%list →
  validatePublicKey "publicKey" publicKey "parameter" = Return tt
  ∧ validateString "dataKey" dataKey "parameter" = Return tt
  ∧ validateOptionalObject "customOptions" customOptions "parameter"
      DEFAULT_GET_JSON_OPTIONS = Return tt
  ∧ opts = extractOptions
             (spread (spread DEFAULT_GET_JSON_OPTIONS this_customOptions)
                (optional customOptions))
             DEFAULT_GET_ENTRY_OPTIONS.
Proof.
  unfold getRawBytes. unfold_monad.
  destruct (validatePublicKey _ _ _) as [[]|e]; [|by intros ?%not_asked].
  destruct (validateString _ _ _) as [[]|e]; [|by intros ?%not_asked].
  destruct (validateOptionalObject _ _ _ _) as [[]|e]; [|by intros ?%not_asked].
  intros Hasked. repeat split.
  match type of Hasked with context [getSkyDBRegistryEntryAndUpdateCache ?a ?b ?o ?s] =>
    pose proof (lookup_requests a b o s) as Hlooked;
    destruct (getSkyDBRegistryEntryAndUpdateCache a b o s) as [[[entry|]|e] s1]
  end; cbn [fst snd] in *.
  - repeat match type of Hasked with context [match ?x with _ => _ end] =>
      destruct x end; cbn in Hasked;
      first [ by destruct (lookup_was_asked (Return tt, mkState ∅ (requests s1 ++ [_]))
                             s1 s _ _ _ _ _ [_] Hlooked eq_refl Hasked)
            | by destruct (lookup_was_asked (Return tt, s1) s1 s _ _ _ _ _ []
                             Hlooked (eq_sym (app_nil_r _)) Hasked) ].
  - by destruct (lookup_was_asked (Return tt, s1) s1 s _ _ _ _ _ []
                   Hlooked (eq_sym (app_nil_r _)) Hasked).
  - by destruct (lookup_was_asked (Return tt, s1) s1 s _ _ _ _ _ []
                   Hlooked (eq_sym (app_nil_r _)) Hasked).
Qed.

Lemma read_of_getJSON (publicKey dataKey : string) (customOptions : option Options)
    (s : State) :
  read GetJSON publicKey dataKey customOptions s
  = (match (getJSON publicKey dataKey customOptions s).1 with
     | Return response => Return (JSONResult response)
     | Throw e => Throw e
     end, (getJSON publicKey dataKey customOptions s).2).
Proof.
  cbn [read]. unfold bind at 1.
  by destruct (getJSON publicKey dataKey customOptions s) as [[]].
Qed.

Lemma read_of_getRawBytes (publicKey dataKey : string) (customOptions : option Options)
    (s : State) :
  read GetRawBytes publicKey dataKey customOptions s
  = (match (getRawBytes publicKey dataKey customOptions s).1 with
     | Return response => Return (RawBytesResult response)
     | Throw e => Throw e
     end, (getRawBytes publicKey dataKey customOptions s).2).
Proof.
  cbn [read]. unfold bind at 1.
  by destruct (getRawBytes publicKey dataKey customOptions s) as [[]].
Qed.

(** A run of [getJSON] or [getRawBytes] that found a live entry and parsed
    its payload to a data link goes on with that link: it checks the
    caller's [cachedDataLink] against the raw link, returns the link alone
    when they agree, and otherwise downloads the link, the one request more
    it makes. *)
Lemma read_with_data_link (op : ReadOp) (legacy : bool) (publicKey dataKey : string)
    (customOptions : option Options) (s : State) (opts : Options)
    (more : list Request) (entry : RegistryEntry) (rawDataLink dataLink : string) :
  (op = GetJSON ∧ legacy = true) ∨ (op = GetRawBytes ∧ legacy = false) →
  let run := read op publicKey dataKey customOptions s in
  let looked := getSkyDBRegistryEntryAndUpdateCache publicKey dataKey opts s in
  let merged := spread (spread DEFAULT_GET_JSON_OPTIONS this_customOptions)
                  (optional customOptions) in
  let history := (requests s ++ [GetEntry publicKey dataKey opts])%list in
  requests run.2 = (requests s ++ GetEntry publicKey dataKey opts :: more)%list →
  looked.1 = Return (Some entry) →
  parseDataLink (RegistryEntry.data entry) legacy = Return (rawDataLink, dataLink) →
  match checkCachedDataLink rawDataLink (getProp merged "cachedDataLink") with
  | Throw e => run.1 = Throw e ∧ more = []
  | Return true =>
      run.1 = Return (match op with
                      | GetJSON => JSONResult (mkJSONResponse None (Some dataLink))
                      | _ => RawBytesResult (mkRawBytesResponse None (Some dataLink))
                      end)
      ∧ more = []
  | Return false =>
      match op with
      | GetJSON =>
          let downloadOpts := extractOptions merged DEFAULT_DOWNLOAD_OPTIONS in
          more = [GetFileContent dataLink downloadOpts]
          ∧ run.1 = match getFileContent_json history dataLink downloadOpts with
                    | Return body =>
                        match getJSON_unwrap dataKey body dataLink with
                        | Return response => Return (JSONResult response)
                        | Throw e => Throw e
                        end
                    | Throw e => Throw e
                    end
      | _ =>
          let downloadOpts :=
            <["responseType" := OptString "arraybuffer"]>
              (extractOptions merged DEFAULT_DOWNLOAD_OPTIONS) in
          more = [GetFileContent dataLink downloadOpts]
          ∧ run.1 = match getFileContent_arraybuffer history dataLink downloadOpts with
                    | Return buffer =>
                        Return (RawBytesResult
                                  (mkRawBytesResponse (Some buffer) (Some dataLink)))
                    | Throw e => Throw e
                    end
      end
  end.
Proof.
  intros Hop. cbv zeta. intros Hasked Hlooked Hparse.
  destruct Hop as [[-> ->]|[-> ->]].
  - rewrite read_of_getJSON in Hasked |- *. cbn [fst snd] in *.
    destruct (getJSON_asked _ _ _ _ _ _ Hasked) as (Hv1 & Hv2 & Hv3 & Hopts).
    revert Hasked. unfold getJSON. unfold_monad. rewrite Hv1, Hv2, Hv3, <- Hopts.
    pose proof (lookup_requests publicKey dataKey opts s) as Hrequests.
    destruct (getSkyDBRegistryEntryAndUpdateCache publicKey dataKey opts s)
      as [looked s1]. cbn [fst snd] in *. subst looked.
    rewrite Hparse.
    destruct (checkCachedDataLink _ _) as [[]|e]; cbn.
    + intros Hasked. split; [done|].
      by destruct (lookup_was_asked (Return tt, s1) s1 s _ _ _ _ _ []
                     Hrequests (eq_sym (app_nil_r _)) Hasked).
    + rewrite Hrequests.
      destruct (getFileContent_json _ _ _) as [body|e]; cbn;
        [destruct (getJSON_unwrap _ _ _); cbn|];
        intros Hasked; rewrite <- (assoc_L (++)) in Hasked;
        apply app_inv_head in Hasked; by injection Hasked as <-.
    + intros Hasked. split; [done|].
      by destruct (lookup_was_asked (Return tt, s1) s1 s _ _ _ _ _ []
                     Hrequests (eq_sym (app_nil_r _)) Hasked).
  - rewrite read_of_getRawBytes in Hasked |- *. cbn [fst snd] in *.
    destruct (getRawBytes_asked _ _ _ _ _ _ Hasked) as (Hv1 & Hv2 & Hv3 & Hopts).
    revert Hasked. unfold getRawBytes. unfold_monad. rewrite Hv1, Hv2, Hv3, <- Hopts.
    pose proof (lookup_requests publicKey dataKey opts s) as Hrequests.
    destruct (getSkyDBRegistryEntryAndUpdateCache publicKey dataKey opts s)
      as [looked s1]. cbn [fst snd] in *. subst looked.
    rewrite Hparse.
    destruct (checkCachedDataLink _ _) as [[]|e]; cbn.
    + intros Hasked. split; [done|].
      by destruct (lookup_was_asked (Return tt, s1) s1 s _ _ _ _ _ []
                     Hrequests (eq_sym (app_nil_r _)) Hasked).
    + rewrite Hrequests.
      destruct (getFileContent_arraybuffer _ _ _) as [buffer|e]; cbn;
        intros Hasked; rewrite <- (assoc_L (++)) in Hasked;
        apply app_inv_head in Hasked; by injection Hasked as <-.
    + intros Hasked. split; [done|].
      by destruct (lookup_was_asked (Return tt, s1) s1 s _ _ _ _ _ []
                     Hrequests (eq_sym (app_nil_r _)) Hasked).
Qed.

(** ** Data links *)

Lemma parseDataLink_run (data : Uint8Array) (legacy : bool) :
  parseDataLink data legacy =
  if legacy && bool_decide (length data = BASE64_ENCODED_SKYLINK_SIZE) then
    Return (uint8ArrayToStringUtf8 data, formatSkylink (uint8ArrayToStringUtf8 data))
  else if bool_decide (length data = RAW_SKYLINK_SIZE) then
    Return (encodeSkylinkBase64 data, formatSkylink (encodeSkylinkBase64 data))
  else
    Throw (ValidationError "entry.data" data "returned entry data"
             ("length " +:+ pretty RAW_SKYLINK_SIZE +:+ " bytes")).
Proof.
  unfold parseDataLink.
  by destruct (Nat.eqb_spec (length data) BASE64_ENCODED_SKYLINK_SIZE),
    (Nat.eqb_spec (length data) RAW_SKYLINK_SIZE); repeat case_bool_decide.
Qed.

(** C7 (amended): the payload of a found, live entry is parsed by [getJSON]
    with the legacy form allowed and by [getRawBytes] without it. With the
    legacy form, a payload as long as the raw skylink or as the base64
    skylink string decodes to a data link; without it, only a payload as
    long as the raw skylink does. A payload of any other length, so also
    one of the base64 length in [getRawBytes], is rejected with a
    validation error naming the raw length, and the read throws it. A
    payload of an accepted length is decoded by the read itself, [getJSON]
    taking one of the base64 length as the text of the link and both reads
    encoding one of the raw length: the read goes on with the formatted
    link, which it returns alone when the caller's [cachedDataLink] is that
    link and otherwise downloads, its one request more. *)
Theorem data_link_by_length (data : Uint8Array) :
  let expected :=
    ValidationError "entry.data" data "returned entry data"
      ("length " +:+ pretty RAW_SKYLINK_SIZE +:+ " bytes") in
  (length data = RAW_SKYLINK_SIZE ∨ length data = BASE64_ENCODED_SKYLINK_SIZE →
   ∃ rawDataLink, parseDataLink data true = Return (rawDataLink, formatSkylink rawDataLink))
  ∧ (length data = RAW_SKYLINK_SIZE →
     ∃ rawDataLink, parseDataLink data false = Return (rawDataLink, formatSkylink rawDataLink))
  ∧ (length data ≠ RAW_SKYLINK_SIZE → length data ≠ BASE64_ENCODED_SKYLINK_SIZE →
     parseDataLink data true = Throw expected)
  ∧ (length data ≠ RAW_SKYLINK_SIZE → parseDataLink data false = Throw expected)
  ∧ (∀ op legacy publicKey dataKey customOptions s opts more entry e,
       (op = GetJSON ∧ legacy = true) ∨ (op = GetRawBytes ∧ legacy = false) →
       let run := read op publicKey dataKey customOptions s in
       requests run.2 = (requests s ++ GetEntry publicKey dataKey opts :: more)%list →
       registry_getEntry (requests s) publicKey dataKey opts = Return (Some entry) →
       higherRevisionCached (revisionNumberCache s !! getCacheKey publicKey dataKey)
         (default 0 (RegistryEntry.revision entry)) = false →
       RegistryEntry.data entry = data →
       data ≠ replicate RAW_SKYLINK_SIZE x00 →
       parseDataLink data legacy = Throw e →
       run.1 = Throw e)
  ∧ (∀ op legacy publicKey dataKey customOptions s opts more entry,
       (op = GetJSON ∧ legacy = true) ∨ (op = GetRawBytes ∧ legacy = false) →
       let run := read op publicKey dataKey customOptions s in
       let merged := spread (spread DEFAULT_GET_JSON_OPTIONS this_customOptions)
                       (optional customOptions) in
       let history := (requests s ++ [GetEntry publicKey dataKey opts])%list in
       let rawDataLink :=
         if legacy && bool_decide (length data = BASE64_ENCODED_SKYLINK_SIZE)
         then uint8ArrayToStringUtf8 data
         else encodeSkylinkBase64 data in
       let dataLink := formatSkylink rawDataLink in
       requests run.2 = (requests s ++ GetEntry publicKey dataKey opts :: more)%list →
       registry_getEntry (requests s) publicKey dataKey opts = Return (Some entry) →
       higherRevisionCached (revisionNumberCache s !! getCacheKey publicKey dataKey)
         (default 0 (RegistryEntry.revision entry)) = false →
       RegistryEntry.data entry = data →
       data ≠ replicate RAW_SKYLINK_SIZE x00 →
       length data = RAW_SKYLINK_SIZE
       ∨ (legacy = true ∧ length data = BASE64_ENCODED_SKYLINK_SIZE) →
       match checkCachedDataLink rawDataLink (getProp merged "cachedDataLink") with
       | Throw e => run.1 = Throw e ∧ more = []
       | Return true =>
           run.1 = Return (match op with
                           | GetJSON => JSONResult (mkJSONResponse None (Some dataLink))
                           | _ => RawBytesResult (mkRawBytesResponse None (Some dataLink))
                           end)
           ∧ more = []
       | Return false =>
           match op with
           | GetJSON =>
               let downloadOpts := extractOptions merged DEFAULT_DOWNLOAD_OPTIONS in
               more = [GetFileContent dataLink downloadOpts]
               ∧ run.1 = match getFileContent_json history dataLink downloadOpts with
                         | Return body =>
                             match getJSON_unwrap dataKey body dataLink with
                             | Return response => Return (JSONResult response)
                             | Throw e => Throw e
                             end
                         | Throw e => Throw e
                         end
           | _ =>
               let downloadOpts :=
                 <["responseType" := OptString "arraybuffer"]>
                   (extractOptions merged DEFAULT_DOWNLOAD_OPTIONS) in
               more = [GetFileContent dataLink downloadOpts]
               ∧ run.1 = match getFileContent_arraybuffer history dataLink
                                 downloadOpts with
                         | Return buffer =>
                             Return (RawBytesResult
                                       (mkRawBytesResponse (Some buffer) (Some dataLink)))
                         | Throw e => Throw e
                         end
           end
       end).
Proof.
  cbv zeta. rewrite !parseDataLink_run. cbn [andb].
  split; [|split; [|split; [|split; [|split]]]].
  - intros [Hraw|Hlegacy]; repeat case_bool_decide; by eauto.
  - intros Hraw. rewrite (bool_decide_eq_true_2 _ Hraw). by eauto.
  - intros Hraw Hlegacy.
    by rewrite (bool_decide_eq_false_2 _ Hraw), (bool_decide_eq_false_2 _ Hlegacy).
  - intros Hraw. by rewrite (bool_decide_eq_false_2 _ Hraw).
  - intros op legacy publicKey dataKey customOptions s opts more entry e Hop Hasked
      Hanswer Hlow Hdata Hlive Hparse.
    pose proof (read_asked _ _ _ _ _ _ _ Hasked) as Hrun. cbv zeta in Hrun.
    rewrite lookup_run in Hrun. cbv zeta in Hrun. rewrite Hanswer, Hlow in Hrun.
    assert (Hwas : wasRegistryEntryDeleted entry = false).
    { apply not_true_is_false. intros Hwas. apply areEqualUint8Arrays_eq in Hwas.
      by rewrite Hdata in Hwas. }
    rewrite Hwas in Hrun. cbn [fst snd] in Hrun.
    destruct Hrun as (_ & _ & Hjson & Hraw). subst data.
    destruct Hop as [[-> ->]|[-> ->]];
      [rewrite (Hjson e eq_refl Hparse)|rewrite (Hraw e eq_refl Hparse)]; done.
  - intros op legacy publicKey dataKey customOptions s opts more entry Hop Hasked
      Hanswer Hlow Hdata Hlive Hlength.
    assert (Hwas : wasRegistryEntryDeleted entry = false).
    { apply not_true_is_false. intros Hwas. apply areEqualUint8Arrays_eq in Hwas.
      by rewrite Hdata in Hwas. }
    assert (Hlooked : (getSkyDBRegistryEntryAndUpdateCache publicKey dataKey opts s).1
                      = Return (Some entry)).
    { rewrite lookup_run. cbv zeta. by rewrite Hanswer, Hlow, Hwas. }
    assert (Hparse : parseDataLink (RegistryEntry.data entry) legacy
                     = Return (if legacy && bool_decide
                                              (length data = BASE64_ENCODED_SKYLINK_SIZE)
                               then uint8ArrayToStringUtf8 data
                               else encodeSkylinkBase64 data,
                               formatSkylink
                                 (if legacy && bool_decide
                                                (length data = BASE64_ENCODED_SKYLINK_SIZE)
                                  then uint8ArrayToStringUtf8 data
                                  else encodeSkylinkBase64 data))).
    { rewrite parseDataLink_run, Hdata.
      destruct Hlength as [Hraw|[-> Hbase64]].
      - rewrite (bool_decide_eq_true_2 _ Hraw).
        by destruct (legacy && bool_decide _).
      - by rewrite (bool_decide_eq_true_2 _ Hbase64). }
    exact (read_with_data_link op legacy publicKey dataKey customOptions s opts more
             entry _ _ Hop Hasked Hlooked Hparse).
Qed.

(** ** The envelope of [getJSON] *)

(** A run of [getJSON] that looks the entry up and then downloads the
    content ends with [getJSON_unwrap] on what was downloaded. *)
Lemma getJSON_downloaded (publicKey dataKey : string) (customOptions : option Options)
    (s : State) (opts downloadOpts : Options) (dataLink : string) (data : JsonData) :
  requests (getJSON publicKey dataKey customOptions s).2
  = (requests s ++ [GetEntry publicKey dataKey opts;
                    GetFileContent dataLink downloadOpts])%list →
  getFileContent_json (requests s ++ [GetEntry publicKey dataKey opts])%list
    dataLink downloadOpts = Return data →
  (getJSON publicKey dataKey customOptions s).1 = getJSON_unwrap dataKey data dataLink.
Proof.
  assert (Hlen : ∀ (l m : list Request), l = (l ++ m)%list → length m = 0%nat).
  { intros l m Heq. apply (f_equal length) in Heq. rewrite length_app in Heq. lia. }
  assert (Hlen' : ∀ (l : list Request) x y z, (l ++ [x] = l ++ [y; z])%list → False).
  { intros l x y z Heq. apply (f_equal length) in Heq.
    rewrite !length_app in Heq. cbn in Heq. lia. }
  unfold getJSON. unfold_monad.
  destruct (validatePublicKey _ _ _) as [[]|e]; [|by intros ?%Hlen].
  destruct (validateString _ _ _) as [[]|e]; [|by intros ?%Hlen].
  destruct (validateOptionalObject _ _ _ _) as [[]|e]; [|by intros ?%Hlen].
  match goal with |- context [getSkyDBRegistryEntryAndUpdateCache ?a ?b ?o ?s] =>
    pose proof (lookup_requests a b o s) as Hlooked;
    destruct (getSkyDBRegistryEntryAndUpdateCache a b o s) as [[[entry|]|e] s1]
  end; cbn [fst snd] in *; rewrite ?Hlooked;
    [|by intros ?%Hlen'..].
  destruct (parseDataLink _ true) as [[rawDataLink dataLink0]|e]; cbn;
    rewrite ?Hlooked; [|by intros ?%Hlen'].
  destruct (checkCachedDataLink _ _) as [[]|e]; cbn; rewrite ?Hlooked;
    [by intros ?%Hlen'| |by intros ?%Hlen'].
  destruct (getFileContent_json _ _ _) as [content|e] eqn:Hcontent; cbn;
    intros Hasked; rewrite <- (assoc_L (++)) in Hasked;
    apply app_inv_head in Hasked; injection Hasked as <- <- <-;
    rewrite Hcontent; by intros [= <-].
Qed.

(** C4 (amended): the object [getJSON] downloaded is returned as it is
    exactly when its fields [_data] and [_v] are not both truthy (one of
    them is missing, or is [null], [false], [0] or the empty string); when
    both are truthy, [getJSON] returns the field [_data] if it is an object
    or an array, and otherwise throws that the data is not JSON. *)
Theorem envelope_unwrapped_when_both_truthy (dataKey : string) (data : JsonData)
    (dataLink : string) :
  typeof_object data = true → is_null data = false →
  let enveloped :=
    json_truthy (getField data "_data") && json_truthy (getField data "_v") in
  (enveloped = false →
   getJSON_unwrap dataKey data dataLink
   = Return (mkJSONResponse (Some data) (Some dataLink)))
  ∧ (enveloped = true →
     ∃ actualData,
       getField data "_data" = Some actualData
       ∧ getJSON_unwrap dataKey data dataLink
         = if typeof_object actualData
           then Return (mkJSONResponse (Some actualData) (Some dataLink))
           else Throw (Error ("File data '_data' for the entry at data key '"
                              +:+ dataKey +:+ "' is not JSON.")))
  ∧ (∀ publicKey customOptions s opts downloadOpts,
       requests (getJSON publicKey dataKey customOptions s).2
       = (requests s ++ [GetEntry publicKey dataKey opts;
                         GetFileContent dataLink downloadOpts])%list →
       getFileContent_json (requests s ++ [GetEntry publicKey dataKey opts])%list
         dataLink downloadOpts = Return data →
       (getJSON publicKey dataKey customOptions s).1
       = getJSON_unwrap dataKey data dataLink).
Proof.
  intros Hobject Hnull. cbv zeta. unfold getJSON_unwrap.
  rewrite Hobject, Hnull. cbn [negb orb].
  split; [by intros ->|]. split.
  - intros Henveloped. rewrite Henveloped. cbn [negb].
    destruct (getField data "_data") as [actualData|] eqn:Hfield; [|done].
    exists actualData. split; [done|]. cbn. rewrite orb_false_r.
    by destruct (typeof_object actualData).
  - intros publicKey customOptions s opts downloadOpts Hasked Hanswer.
    rewrite (getJSON_downloaded _ _ _ _ _ _ _ _ Hasked Hanswer).
    unfold getJSON_unwrap. by rewrite Hobject, Hnull.
Qed.

(** ** Frames and invariants of the cache *)

(** What a read does to the cache: nothing, or it sets the pair to the
    revision of an entry the registry returned. *)
Lemma read_cache_shape (op : ReadOp) (publicKey dataKey : string)
    (customOptions : option Options) (s : State) :
  let run := read op publicKey dataKey customOptions s in
  revisionNumberCache run.2 = revisionNumberCache s
  ∨ ∃ opts entry,
      registry_getEntry (requests s) publicKey dataKey opts = Return (Some entry)
      ∧ revisionNumberCache run.2
        = <[getCacheKey publicKey dataKey := default 0 (RegistryEntry.revision entry)]>
            (revisionNumberCache s).
Proof.
  cbv zeta.
  destruct (read_run op publicKey dataKey customOptions s) as [[e He]|[opts Hrun]];
    [by rewrite He; left|].
  cbv zeta in Hrun. rewrite lookup_run in Hrun. cbv zeta in Hrun.
  destruct (registry_getEntry (requests s) publicKey dataKey opts)
    as [[entry|]|e] eqn:Hanswer; [|by rewrite Hrun; left..].
  destruct (higherRevisionCached _ _); cbn in Hrun; [by rewrite Hrun; left|].
  right. exists opts, entry. split; [done|].
  by destruct (wasRegistryEntryDeleted entry); cbn in Hrun;
    [rewrite Hrun|destruct Hrun as (-> & _)].
Qed.

(** What a write does to the cache: nothing, or, for the public key of its
    private key, it sets the pair to the revision after the cached one or
    back to the cached one. *)
Lemma write_cache_shape (op : WriteOp) (privateKey dataKey : string)
    (customOptions : option Options) (s : State) :
  let run := write op privateKey dataKey customOptions s in
  revisionNumberCache run.2 = revisionNumberCache s
  ∨ ∃ publicKey,
      publicKeyOf privateKey = Return publicKey
      ∧ cachedRevision s publicKey dataKey + 1 ≤ MAX_REVISION
      ∧ (revisionNumberCache run.2
         = <[getCacheKey publicKey dataKey := cachedRevision s publicKey dataKey + 1]>
             (revisionNumberCache s)
         ∨ revisionNumberCache run.2
           = <[getCacheKey publicKey dataKey := cachedRevision s publicKey dataKey]>
               (revisionNumberCache s)).
Proof.
  cbv zeta.
  destruct (write_validates_or_rejected op privateKey dataKey customOptions s)
    as [Hv|[e He]]; [|by rewrite He; left].
  destruct (publicKeyOf privateKey) as [publicKey|e] eqn:Hpk;
    [|by rewrite (write_without_key _ _ _ _ _ _ Hv Hpk); left].
  destruct (write_run op privateKey publicKey dataKey customOptions s Hv Hpk)
    as [[_ Hrun]|(Hle & _ & Hcase)]; [by rewrite Hrun; left|].
  right. exists publicKey. split; [done|]. split; [done|].
  destruct (write op privateKey dataKey customOptions s).1;
    [left; by destruct Hcase|by right].
Qed.

(** X2: a read ([getJSON], [getEntryData], [getRawBytes]), whatever its
    outcome, leaves the cached revision of every other pair as it was, and
    never removes a pair from the cache. *)
Theorem read_touches_only_its_pair (op : ReadOp) (publicKey dataKey : string)
    (customOptions : option Options) (s : State) (key : string) :
  key ≠ getCacheKey publicKey dataKey →
  let run := read op publicKey dataKey customOptions s in
  revisionNumberCache run.2 !! key = revisionNumberCache s !! key
  ∧ dom (revisionNumberCache s) ⊆ dom (revisionNumberCache run.2).
Proof.
  intros Hkey. cbv zeta.
  destruct (read_cache_shape op publicKey dataKey customOptions s)
    as [->|(opts & entry & _ & ->)]; [done|].
  split; [by rewrite lookup_insert_ne|]. rewrite dom_insert_L. set_solver.
Qed.

(** X3: a write ([setJSON], [setEntryData]) whose private key has the
    public key [publicKey], whatever its outcome, leaves the cached
    revision of every other pair as it was, and never removes a pair from
    the cache. *)
Theorem write_touches_only_its_pair (op : WriteOp)
    (privateKey publicKey dataKey : string) (customOptions : option Options)
    (s : State) (key : string) :
  publicKeyOf privateKey = Return publicKey →
  key ≠ getCacheKey publicKey dataKey →
  let run := write op privateKey dataKey customOptions s in
  revisionNumberCache run.2 !! key = revisionNumberCache s !! key
  ∧ dom (revisionNumberCache s) ⊆ dom (revisionNumberCache run.2).
Proof.
  intros Hpk Hkey. cbv zeta.
  destruct (write_cache_shape op privateKey dataKey customOptions s)
    as [->|(publicKey' & Hpk' & _ & Hcase)]; [done|].
  rewrite Hpk in Hpk'. injection Hpk' as <-.
  destruct Hcase as [-> | ->];
    (split; [by rewrite lookup_insert_ne|rewrite dom_insert_L; set_solver]).
Qed.

(** X5: when every cached revision lies between -1 and the maximum
    revision, it still does after any write, and after any read provided
    the registry returns only entries with a revision between 0 and the
    maximum. *)
Theorem operations_keep_revisions_bounded (s : State) :
  revisions_bounded s →
  (∀ op privateKey dataKey customOptions,
     revisions_bounded (write op privateKey dataKey customOptions s).2)
  ∧ (registry_bounded →
     ∀ op publicKey dataKey customOptions,
       revisions_bounded (read op publicKey dataKey customOptions s).2).
Proof.
  unfold revisions_bounded, UNCACHED_REVISION_NUMBER. intros Hbounded. split.
  - intros op privateKey dataKey customOptions.
    destruct (write_cache_shape op privateKey dataKey customOptions s)
      as [->|(publicKey & _ & Hle & Hcase)]; [done|].
    assert (Hprevious : -1 ≤ cachedRevision s publicKey dataKey ≤ MAX_REVISION).
    { unfold cachedRevision, UNCACHED_REVISION_NUMBER in *.
      destruct (revisionNumberCache s !! getCacheKey publicKey dataKey)
        as [previous|] eqn:Hprevious; cbn in *; [|lia].
      by apply (map_Forall_lookup_1 _ _ _ _ Hbounded Hprevious). }
    destruct Hcase as [-> | ->]; apply map_Forall_insert_2; (done || lia).
  - intros Hregistry op publicKey dataKey customOptions.
    destruct (read_cache_shape op publicKey dataKey customOptions s)
      as [->|(opts & entry & Hanswer & ->)]; [done|].
    destruct (Hregistry _ _ _ _ _ Hanswer) as (v & -> & Hv).
    apply map_Forall_insert_2; [cbn; lia|done].
Qed.

(** ** Reads and writes in sequence *)

(** A read that looked up an entry and passed the check of the cached
    revision has set the pair to the entry's revision; one that did not pass
    it has thrown, with the cache as it was. *)
Lemma read_found (op : ReadOp) (publicKey dataKey : string)
    (customOptions : option Options) (s : State) (opts : Options)
    (more : list Request) (entry : RegistryEntry) :
  let key := getCacheKey publicKey dataKey in
  let run := read op publicKey dataKey customOptions s in
  let newRevision := default 0 (RegistryEntry.revision entry) in
  requests run.2 = (requests s ++ GetEntry publicKey dataKey opts :: more)%list →
  registry_getEntry (requests s) publicKey dataKey opts = Return (Some entry) →
  if higherRevisionCached (revisionNumberCache s !! key) newRevision then
    run = (Throw (Error "A higher revision number for this userID and path is already cached"),
           mkState (revisionNumberCache s)
             (requests s ++ [GetEntry publicKey dataKey opts]))
  else revisionNumberCache run.2 = <[key := newRevision]> (revisionNumberCache s).
Proof.
  cbv zeta. intros Hasked Hanswer.
  pose proof (read_asked _ _ _ _ _ _ _ Hasked) as Hrun. cbv zeta in Hrun.
  rewrite lookup_run in Hrun. cbv zeta in Hrun. rewrite Hanswer in Hrun.
  destruct (higherRevisionCached _ _); cbn in Hrun; [done|].
  by destruct (wasRegistryEntryDeleted entry); cbn in Hrun;
    [rewrite Hrun|destruct Hrun as (-> & _)].
Qed.

(** X6: after a read of the pair that returned and found an entry at
    revision [v], the next successful write for the pair reserves [v + 1]:
    the entry it hands to [registry.setEntry] carries [v + 1] and the cache
    stores it. *)
Theorem write_after_read (rop : ReadOp) (wop : WriteOp)
    (privateKey publicKey dataKey : string) (customOptions customOptions' : option Options)
    (s : State) (opts : Options) (more : list Request) (entry : RegistryEntry)
    (v : Z) (result : ReadResult) :
  publicKeyOf privateKey = Return publicKey →
  let key := getCacheKey publicKey dataKey in
  let r := read rop publicKey dataKey customOptions s in
  requests r.2 = (requests s ++ GetEntry publicKey dataKey opts :: more)%list →
  registry_getEntry (requests s) publicKey dataKey opts = Return (Some entry) →
  RegistryEntry.revision entry = Some v →
  r.1 = Return result →
  let w := write wop privateKey dataKey customOptions' r.2 in
  w.1 = Return tt →
  writtenRevision w.2 = Some (v + 1)
  ∧ revisionNumberCache w.2 = <[key := v + 1]> (revisionNumberCache s).
Proof.
  intros Hpk. cbv zeta. intros Hasked Hanswer Hrev Hread Hwrite.
  pose proof (read_found _ _ _ _ _ _ _ _ Hasked Hanswer) as Hfound.
  cbv zeta in Hfound. rewrite Hrev in Hfound. cbn [default] in Hfound.
  destruct (higherRevisionCached _ _); [by rewrite Hfound in Hread|].
  destruct (write_returns wop _ _ dataKey customOptions' _ Hpk Hwrite) as [Hsent Hcache].
  unfold cachedRevision in Hsent, Hcache.
  rewrite Hfound, lookup_insert_eq in Hsent, Hcache. cbn in Hsent, Hcache.
  split; [done|]. by rewrite Hcache, insert_insert_eq.
Qed.

(** X7: after a successful write that reserved revision [reserved], a read
    of the pair to which the registry answers with an older revision [v]
    throws the consistency error and leaves [reserved] cached; a read that
    gets the revision just written leaves the cache as the write left it. *)
Theorem stale_read_after_write (wop : WriteOp) (rop : ReadOp)
    (privateKey publicKey dataKey : string) (customOptions customOptions' : option Options)
    (s : State) (opts : Options) (more : list Request) (entry : RegistryEntry)
    (v reserved : Z) :
  publicKeyOf privateKey = Return publicKey →
  let key := getCacheKey publicKey dataKey in
  let w := write wop privateKey dataKey customOptions s in
  w.1 = Return tt →
  writtenRevision w.2 = Some reserved →
  let r := read rop publicKey dataKey customOptions' w.2 in
  requests r.2 = (requests w.2 ++ GetEntry publicKey dataKey opts :: more)%list →
  registry_getEntry (requests w.2) publicKey dataKey opts = Return (Some entry) →
  RegistryEntry.revision entry = Some v →
  0 ≤ v →
  (v < reserved →
   r.1 = Throw (Error "A higher revision number for this userID and path is already cached")
   ∧ revisionNumberCache r.2 = revisionNumberCache w.2
   ∧ revisionNumberCache r.2 !! key = Some reserved)
  ∧ (v = reserved → revisionNumberCache r.2 = revisionNumberCache w.2).
Proof.
  intros Hpk. cbv zeta. intros Hwrite Hreserved Hasked Hanswer Hrev Hv.
  destruct (write_returns wop _ _ dataKey customOptions s Hpk Hwrite) as [Hsent Hcache].
  rewrite Hsent in Hreserved. injection Hreserved as Hreserved.
  assert (Hcached : revisionNumberCache (write wop privateKey dataKey customOptions s).2
                    !! getCacheKey publicKey dataKey = Some reserved)
    by (by rewrite Hcache, lookup_insert_eq, Hreserved).
  pose proof (read_found _ _ _ _ _ _ _ _ Hasked Hanswer) as Hfound.
  cbv zeta in Hfound. rewrite Hrev, Hcached in Hfound. cbn in Hfound.
  split.
  - intros Hstale.
    destruct (Z.eqb_spec reserved 0); [lia|].
    destruct (Z.ltb_spec v reserved); [|lia].
    cbn in Hfound. by rewrite Hfound.
  - intros ->. destruct (Z.ltb_spec reserved reserved); [lia|].
    rewrite andb_false_r in Hfound. rewrite Hfound. by apply insert_id.
Qed.

(** X15: a deletion ([deleteJSON], [deleteEntryData]) uses up a revision
    like any other write: when it returns, the sentinel entry it handed to
    [registry.setEntry] carries the cached revision plus 1 and the cache
    stores it; when it throws, the cached revision is the one before. *)
Theorem deletion_advances_revision (op : DeleteOp)
    (privateKey publicKey dataKey : string) (customOptions : option Options)
    (s : State) :
  publicKeyOf privateKey = Return publicKey →
  let key := getCacheKey publicKey dataKey in
  let run := delete op privateKey dataKey customOptions s in
  (run.1 = Return tt →
   writtenRevision run.2 = Some (cachedRevision s publicKey dataKey + 1)
   ∧ revisionNumberCache run.2
     = <[key := cachedRevision s publicKey dataKey + 1]> (revisionNumberCache s))
  ∧ (∀ e, run.1 = Throw e →
     cachedRevision run.2 publicKey dataKey = cachedRevision s publicKey dataKey).
Proof.
  intros Hpk. cbv zeta.
  assert (Hcall : delete op privateKey dataKey customOptions
                  = write (SetEntryData DELETION_ENTRY_DATA) privateKey dataKey
                      (Some (delete_options op customOptions)))
    by (by destruct op).
  rewrite Hcall. split.
  - intros Hreturns. by apply write_returns.
  - intros e Hthrows.
    by destruct (write_throws _ _ _ dataKey _ s e Hpk Hthrows) as (? & _).
Qed.

(** X16: when [incrementCachedRevision] returns, it returns the cached
    revision plus 1 and has stored it, and [decrementCachedRevision] right
    after it returns and puts the cached revision back: the state is the
    one before when the pair was cached, and otherwise differs from it only
    by -1 stored for the pair. On a pair that is not cached,
    [decrementCachedRevision] alone throws a [TypeError] and changes
    nothing. *)
Theorem increment_then_decrement (publicKey dataKey : string) (s : State) :
  let key := getCacheKey publicKey dataKey in
  (∀ v s1,
     incrementCachedRevision publicKey dataKey s = (Return v, s1) →
     v = cachedRevision s publicKey dataKey + 1
     ∧ revisionNumberCache s1 !! key = Some v
     ∧ ∃ s2, decrementCachedRevision publicKey dataKey s1 = (Return tt, s2)
             ∧ cachedRevision s2 publicKey dataKey = cachedRevision s publicKey dataKey
             ∧ (is_Some (revisionNumberCache s !! key) → s2 = s)
             ∧ (revisionNumberCache s !! key = None →
                s2 = mkState (<[key := -1]> (revisionNumberCache s)) (requests s)))
  ∧ (revisionNumberCache s !! key = None →
     ∃ msg, decrementCachedRevision publicKey dataKey s = (Throw (TypeError msg), s)).
Proof.
  cbv zeta. split.
  - intros v s1. rewrite incrementCachedRevision_run. cbv zeta.
    destruct (MAX_REVISION <? _); [done|]. intros [= <- <-].
    split; [done|]. cbn [revisionNumberCache]. rewrite lookup_insert_eq.
    split; [done|]. eexists. split.
    { apply decrementCachedRevision_run. cbn. apply lookup_insert_eq. }
    cbn [revisionNumberCache requests]. rewrite rollback_cache.
    unfold cachedRevision. cbn [revisionNumberCache]. rewrite lookup_insert_eq.
    split; [done|]. split.
    + intros [previous Hsome]. rewrite Hsome. cbn [default].
      rewrite (insert_id _ _ _ Hsome). by destruct s.
    + by intros ->.
  - intros Hnone. unfold decrementCachedRevision. unfold_monad. rewrite Hnone.
    by eexists.
Qed.

(** ** What the reads return *)

(** X10: when [getJSON] or [getRawBytes] finds a live entry whose data
    link is the one the caller passed as [cachedDataLink], it returns that
    link with no data and makes no download request; the cache is as the
    lookup left it. *)
Theorem unchanged_data_link_skips_download (op : ReadOp) (legacy : bool)
    (publicKey dataKey : string) (customOptions : option Options) (s : State)
    (opts : Options) (more : list Request) (entry : RegistryEntry)
    (rawDataLink dataLink : string) :
  (op = GetJSON ∧ legacy = true) ∨ (op = GetRawBytes ∧ legacy = false) →
  let run := read op publicKey dataKey customOptions s in
  let looked := getSkyDBRegistryEntryAndUpdateCache publicKey dataKey opts s in
  let cachedDataLink :=
    getProp (spread (spread DEFAULT_GET_JSON_OPTIONS this_customOptions)
               (optional customOptions)) "cachedDataLink" in
  requests run.2 = (requests s ++ GetEntry publicKey dataKey opts :: more)%list →
  looked.1 = Return (Some entry) →
  parseDataLink (RegistryEntry.data entry) legacy = Return (rawDataLink, dataLink) →
  truthy cachedDataLink = true →
  validateSkylinkString "cachedDataLink" cachedDataLink "optional parameter"
  = Return rawDataLink →
  run.1 = Return (match op with
                  | GetJSON => JSONResult (mkJSONResponse None (Some dataLink))
                  | _ => RawBytesResult (mkRawBytesResponse None (Some dataLink))
                  end)
  ∧ more = []
  ∧ revisionNumberCache run.2 = revisionNumberCache looked.2.
Proof.
  intros Hop. cbv zeta. intros Hasked Hlooked Hparse Htruthy Hvalid.
  destruct Hop as [[-> ->]|[-> ->]].
  - rewrite read_of_getJSON in Hasked |- *. cbn [fst snd] in *.
    destruct (getJSON_asked _ _ _ _ _ _ Hasked) as (Hv1 & Hv2 & Hv3 & Hopts).
    revert Hasked. unfold getJSON. unfold_monad. rewrite Hv1, Hv2, Hv3, <- Hopts.
    pose proof (lookup_requests publicKey dataKey opts s) as Hrequests.
    destruct (getSkyDBRegistryEntryAndUpdateCache publicKey dataKey opts s)
      as [looked s1]. cbn [fst snd] in *. subst looked.
    rewrite Hparse. unfold checkCachedDataLink. rewrite Htruthy, Hvalid.
    rewrite String.eqb_refl. cbn. intros Hasked.
    split; [done|]. split; [|done].
    by destruct (lookup_was_asked (Return tt, s1) s1 s _ _ _ _ _ []
                   Hrequests (eq_sym (app_nil_r _)) Hasked).
  - rewrite read_of_getRawBytes in Hasked |- *. cbn [fst snd] in *.
    destruct (getRawBytes_asked _ _ _ _ _ _ Hasked) as (Hv1 & Hv2 & Hv3 & Hopts).
    revert Hasked. unfold getRawBytes. unfold_monad. rewrite Hv1, Hv2, Hv3, <- Hopts.
    pose proof (lookup_requests publicKey dataKey opts s) as Hrequests.
    destruct (getSkyDBRegistryEntryAndUpdateCache publicKey dataKey opts s)
      as [looked s1]. cbn [fst snd] in *. subst looked.
    rewrite Hparse. unfold checkCachedDataLink. rewrite Htruthy, Hvalid.
    rewrite String.eqb_refl. cbn. intros Hasked.
    split; [done|]. split; [|done].
    by destruct (lookup_was_asked (Return tt, s1) s1 s _ _ _ _ _ []
                   Hrequests (eq_sym (app_nil_r _)) Hasked).
Qed.

(** X19: [getJSON] and [getRawBytes] check the caller's [cachedDataLink]
    only after the lookup: when a live entry is found and the
    [cachedDataLink] passed is not a skylink, the read throws the error of
    that check, having asked the registry and with the cache as the lookup
    left it, updated to the entry's revision; it makes no download request. *)
Theorem cachedDataLink_checked_after_lookup (op : ReadOp) (legacy : bool)
    (publicKey dataKey : string) (customOptions : option Options) (s : State)
    (opts : Options) (more : list Request) (entry : RegistryEntry)
    (rawDataLink dataLink : string) (e : exn) :
  (op = GetJSON ∧ legacy = true) ∨ (op = GetRawBytes ∧ legacy = false) →
  let key := getCacheKey publicKey dataKey in
  let run := read op publicKey dataKey customOptions s in
  let looked := getSkyDBRegistryEntryAndUpdateCache publicKey dataKey opts s in
  let cachedDataLink :=
    getProp (spread (spread DEFAULT_GET_JSON_OPTIONS this_customOptions)
               (optional customOptions)) "cachedDataLink" in
  requests run.2 = (requests s ++ GetEntry publicKey dataKey opts :: more)%list →
  looked.1 = Return (Some entry) →
  parseDataLink (RegistryEntry.data entry) legacy = Return (rawDataLink, dataLink) →
  truthy cachedDataLink = true →
  validateSkylinkString "cachedDataLink" cachedDataLink "optional parameter"
  = Throw e →
  run.1 = Throw e
  ∧ more = []
  ∧ revisionNumberCache run.2
    = <[key := default 0 (RegistryEntry.revision entry)]> (revisionNumberCache s).
Proof.
  intros Hop. cbv zeta. intros Hasked Hlooked Hparse Htruthy Hvalid.
  assert (Hcache : revisionNumberCache
                     (getSkyDBRegistryEntryAndUpdateCache publicKey dataKey opts s).2
                   = <[getCacheKey publicKey dataKey
                       := default 0 (RegistryEntry.revision entry)]>
                       (revisionNumberCache s)).
  { revert Hlooked. rewrite lookup_run. cbv zeta.
    destruct (registry_getEntry _ _ _ _) as [[found|]|e']; [|done..].
    destruct (higherRevisionCached _ _); [done|]. cbn.
    by destruct (wasRegistryEntryDeleted found); intros [= ->]. }
  rewrite <- Hcache.
  destruct Hop as [[-> ->]|[-> ->]].
  - rewrite read_of_getJSON in Hasked |- *. cbn [fst snd] in *.
    destruct (getJSON_asked _ _ _ _ _ _ Hasked) as (Hv1 & Hv2 & Hv3 & Hopts).
    revert Hasked. unfold getJSON. unfold_monad. rewrite Hv1, Hv2, Hv3, <- Hopts.
    pose proof (lookup_requests publicKey dataKey opts s) as Hrequests.
    destruct (getSkyDBRegistryEntryAndUpdateCache publicKey dataKey opts s)
      as [looked s1]. cbn [fst snd] in *. subst looked.
    rewrite Hparse. unfold checkCachedDataLink. rewrite Htruthy, Hvalid.
    cbn. intros Hasked.
    split; [done|]. split; [|done].
    by destruct (lookup_was_asked (Return tt, s1) s1 s _ _ _ _ _ []
                   Hrequests (eq_sym (app_nil_r _)) Hasked).
  - rewrite read_of_getRawBytes in Hasked |- *. cbn [fst snd] in *.
    destruct (getRawBytes_asked _ _ _ _ _ _ Hasked) as (Hv1 & Hv2 & Hv3 & Hopts).
    revert Hasked. unfold getRawBytes. unfold_monad. rewrite Hv1, Hv2, Hv3, <- Hopts.
    pose proof (lookup_requests publicKey dataKey opts s) as Hrequests.
    destruct (getSkyDBRegistryEntryAndUpdateCache publicKey dataKey opts s)
      as [looked s1]. cbn [fst snd] in *. subst looked.
    rewrite Hparse. unfold checkCachedDataLink. rewrite Htruthy, Hvalid.
    cbn. intros Hasked.
    split; [done|]. split; [|done].
    by destruct (lookup_was_asked (Return tt, s1) s1 s _ _ _ _ _ []
                   Hrequests (eq_sym (app_nil_r _)) Hasked).
Qed.

(** X11: when [getRawBytes] finds a live entry whose data link is not the
    caller's [cachedDataLink], it makes exactly one more request, the
    download of the entry's formatted data link with the response type
    ["arraybuffer"], and returns the bytes downloaded, unchanged, with the
    link; a failed download is thrown as it is. *)
Theorem getRawBytes_returns_download (publicKey dataKey : string)
    (customOptions : option Options) (s : State) (opts : Options)
    (more : list Request) (entry : RegistryEntry) (rawDataLink dataLink : string) :
  let run := getRawBytes publicKey dataKey customOptions s in
  let looked := getSkyDBRegistryEntryAndUpdateCache publicKey dataKey opts s in
  let cachedDataLink :=
    getProp (spread (spread DEFAULT_GET_JSON_OPTIONS this_customOptions)
               (optional customOptions)) "cachedDataLink" in
  requests run.2 = (requests s ++ GetEntry publicKey dataKey opts :: more)%list →
  looked.1 = Return (Some entry) →
  parseDataLink (RegistryEntry.data entry) false = Return (rawDataLink, dataLink) →
  checkCachedDataLink rawDataLink cachedDataLink = Return false →
  ∃ downloadOpts,
    more = [GetFileContent dataLink downloadOpts]
    ∧ getProp downloadOpts "responseType" = OptString "arraybuffer"
    ∧ run.1 = match getFileContent_arraybuffer
                      (requests s ++ [GetEntry publicKey dataKey opts])%list
                      dataLink downloadOpts with
              | Return buffer =>
                  Return (mkRawBytesResponse (Some buffer) (Some dataLink))
              | Throw e => Throw e
              end
    ∧ revisionNumberCache run.2 = revisionNumberCache looked.2.
Proof.
  cbv zeta. intros Hasked Hlooked Hparse Hcached.
  destruct (getRawBytes_asked _ _ _ _ _ _ Hasked) as (Hv1 & Hv2 & Hv3 & Hopts).
  revert Hasked. unfold getRawBytes. unfold_monad. rewrite Hv1, Hv2, Hv3, <- Hopts.
  pose proof (lookup_requests publicKey dataKey opts s) as Hrequests.
  destruct (getSkyDBRegistryEntryAndUpdateCache publicKey dataKey opts s)
    as [looked s1]. cbn [fst snd] in *. subst looked.
  rewrite Hparse, Hcached, Hrequests. cbn.
  destruct (getFileContent_arraybuffer _ _ _) as [buffer|e] eqn:Hdownload; cbn;
    intros Hasked; rewrite <- (assoc_L (++)) in Hasked;
    apply app_inv_head in Hasked; injection Hasked as <-;
    eexists; (split; [reflexivity|]);
    (split; [unfold getProp; by rewrite lookup_insert_eq|]);
    by rewrite Hdownload.
Qed.

(** X12: every call of [getEntryData] either throws with the state as it
    was, rejected on its arguments, or makes exactly one request, the
    lookup of the pair with all its merged options (the defaults, the
    client's and the call's), and ends as that lookup does: it throws what
    the registry throws, returns no data when no entry is found, throws the
    consistency error when a higher revision is cached, and otherwise
    returns the entry's bytes as they are, or no data when they are the
    deletion sentinel. *)
Theorem getEntryData_returns_entry_data (publicKey dataKey : string)
    (customOptions : option Options) (s : State) :
  let key := getCacheKey publicKey dataKey in
  let run := getEntryData publicKey dataKey customOptions s in
  let merged := spread (spread DEFAULT_GET_ENTRY_OPTIONS this_customOptions)
                  (optional customOptions) in
  (∃ e, run = (Throw e, s))
  ∨ (requests run.2 = (requests s ++ [GetEntry publicKey dataKey merged])%list
     ∧ match registry_getEntry (requests s) publicKey dataKey merged with
       | Throw e => run.1 = Throw e
       | Return None => run.1 = Return (mkEntryData None)
       | Return (Some entry) =>
           if higherRevisionCached (revisionNumberCache s !! key)
                (default 0 (RegistryEntry.revision entry))
           then run.1 = Throw (Error "A higher revision number for this userID and path is already cached")
           else run.1 = Return (mkEntryData
                                  (if bool_decide (RegistryEntry.data entry
                                                   = replicate RAW_SKYLINK_SIZE x00)
                                   then None else Some (RegistryEntry.data entry)))
       end).
Proof.
  cbv zeta. unfold getEntryData. unfold_monad.
  destruct (validatePublicKey _ _ _) as [[]|e]; [|by eauto].
  destruct (validateString _ _ _) as [[]|e]; [|by eauto].
  destruct (validateOptionalObject _ _ _ _) as [[]|e]; [|by eauto].
  right. rewrite lookup_run. cbv zeta.
  destruct (registry_getEntry _ _ _ _) as [[entry|]|e]; cbn; [|done..].
  destruct (higherRevisionCached _ _); cbn; [done|].
  split; [by destruct (wasRegistryEntryDeleted entry)|].
  unfold wasRegistryEntryDeleted, EMPTY_SKYLINK, new_Uint8Array.
  case_bool_decide as Hdeleted.
  - by rewrite (proj2 (areEqualUint8Arrays_eq _ _) Hdeleted).
  - destruct (areEqualUint8Arrays _ _) eqn:Hequal; [|done].
    by apply areEqualUint8Arrays_eq in Hequal.
Qed.

(** ** What [setJSON] uploads and sets *)

(** Spreading the same defaults under options that already include them
    changes nothing. *)
Lemma spread_again (defaults opts : Options) :
  spread defaults (spread defaults opts) = spread defaults opts.
Proof.
  unfold spread. by rewrite <- (assoc_L (∪)), (idemp_L (∪)).
Qed.

(** X8: [setJSON] uploads before it sets the entry. Its requests are none
    (it threw before the upload), or the upload alone (it threw), or the
    upload followed by one [registry.setEntry]; the file uploaded is named
    ["dk:"] and the data key (in hexadecimal unless [hashedDataKeyHex] is
    set) and holds [JSON.stringify] of [{ _data: json, _v: 2 }]; the entry
    set carries the bytes decoded from the skylink the upload returned,
    which passed the check of their length; and when [setJSON] returns, it
    returns the [json] it was given and that skylink, formatted twice. *)
Theorem setJSON_uploads_then_sets (privateKey dataKey : string) (json : JsonData)
    (customOptions : option Options) (s : State) :
  let run := setJSON privateKey dataKey json customOptions s in
  let opts := spread (spread DEFAULT_SET_JSON_OPTIONS this_customOptions)
                (optional customOptions) in
  let dataKeyHex :=
    if truthy (getProp opts "hashedDataKeyHex") then dataKey
    else toHexString (stringToUint8ArrayUtf8 dataKey) in
  let file :=
    mkFile (inl (JSON_stringify (JObject [("_data", json); ("_v", JNumber 2)])))
      ("dk:" +:+ dataKeyHex) "application/json" in
  let uploadOpts := extractOptions opts DEFAULT_UPLOAD_OPTIONS in
  let upload := UploadFile file uploadOpts in
  (requests run.2 = requests s ∧ ∃ e, run.1 = Throw e)
  ∨ (requests run.2 = (requests s ++ [upload])%list ∧ ∃ e, run.1 = Throw e)
  ∨ ∃ skylink entry,
      requests run.2
      = (requests s ++ [upload;
                        SetEntry privateKey entry
                          (extractOptions opts DEFAULT_SET_ENTRY_OPTIONS)])%list
      ∧ client_uploadFile (requests s) file uploadOpts = Return skylink
      ∧ decodeSkylinkBase64 (trimUriPrefix skylink URI_SKYNET_PREFIX)
        = Return (RegistryEntry.data entry)
      ∧ validateUint8ArrayLen "rawDataLink" (RegistryEntry.data entry)
          "skylink byte array" RAW_SKYLINK_SIZE = Return tt
      ∧ RegistryEntry.dataKey entry = dataKey
      ∧ (∀ response, run.1 = Return response →
           response
           = mkJSONResponse (Some json)
               (Some (formatSkylink
                        (formatSkylink (trimUriPrefix skylink URI_SKYNET_PREFIX))))).
Proof.
  cbv zeta. unfold setJSON. unfold_monad.
  destruct (validateHexString _ _ _) as [[]|e]; [|by left; eauto].
  destruct (validateString _ _ _) as [[]|e]; [|by left; eauto].
  destruct (validateObject _ _ _) as [[]|e]; [|by left; eauto].
  destruct (validateOptionalObject _ _ _ _) as [[]|e]; [|by left; eauto].
  destruct (publicKeyOf privateKey) as [publicKey|e]; [|by left; eauto].
  rewrite incrementCachedRevision_run. cbv zeta.
  destruct (MAX_REVISION <? _); [by left; eauto|].
  unfold setJSON_try, getOrCreateRegistryEntry. unfold_monad.
  change (optional (Some ?o)) with o. rewrite spread_again.
  cbn [revisionNumberCache requests].
  assert (Hname : ∀ b : bool, (if negb b then toHexString (stringToUint8ArrayUtf8 dataKey)
                               else dataKey)
                              = if b then dataKey
                                else toHexString (stringToUint8ArrayUtf8 dataKey))
    by (by intros []).
  rewrite Hname.
  destruct (client_uploadFile _ _ _) as [skylink|e] eqn:Hupload; cbn;
    rewrite ?lookup_insert_eq; cbn; [|right; left; split; [done|by eauto]].
  destruct (decodeSkylinkBase64 _) as [rawDataLink|e] eqn:Hdecode; cbn;
    rewrite ?lookup_insert_eq; cbn; [|right; left; split; [done|by eauto]].
  destruct (validateUint8ArrayLen _ _ _ _) as [[]|e] eqn:Hlength; cbn;
    rewrite ?lookup_insert_eq; cbn; [|right; left; split; [done|by eauto]].
  right; right. exists skylink. eexists (RegistryEntry.mk _ _ _).
  destruct (registry_setEntry _ _ _ _) as [[]|e]; cbn;
    rewrite ?lookup_insert_eq; cbn; rewrite <- (assoc_L (++)); cbn.
  - repeat split; try done. by intros ? [= <-].
  - by repeat split.
Qed.

(** ** What [getJSON] makes of the download *)

(** X9: what [setJSON] wraps, [getJSON] unwraps: when the body [getJSON]
    downloads is the envelope [{ _data: json, _v: 2 }] that [setJSON]
    builds around an object or an array [json], [getJSON] returns [json]
    itself, with the data link. *)
Theorem envelope_round_trip (publicKey dataKey : string)
    (customOptions : option Options) (s : State) (opts downloadOpts : Options)
    (dataLink : string) (json : JsonData) :
  let run := getJSON publicKey dataKey customOptions s in
  let envelope := JObject [("_data", json); ("_v", JNumber JSON_RESPONSE_VERSION)] in
  requests run.2
  = (requests s ++ [GetEntry publicKey dataKey opts;
                    GetFileContent dataLink downloadOpts])%list →
  getFileContent_json (requests s ++ [GetEntry publicKey dataKey opts])%list
    dataLink downloadOpts = Return envelope →
  typeof_object json = true →
  is_null json = false →
  run.1 = Return (mkJSONResponse (Some json) (Some dataLink)).
Proof.
  cbv zeta. intros Hasked Hanswer Hobject Hnull.
  rewrite (getJSON_downloaded _ _ _ _ _ _ _ _ Hasked Hanswer).
  by destruct json.
Qed.

(** X17: when the body [getJSON] downloads is not an object ([null], a
    boolean, a number or a string), [getJSON] throws that the file data is
    not JSON; when it is an array, [getJSON] returns the array as it is. *)
Theorem getJSON_of_other_bodies (publicKey dataKey : string)
    (customOptions : option Options) (s : State) (opts downloadOpts : Options)
    (dataLink : string) (data : JsonData) :
  let run := getJSON publicKey dataKey customOptions s in
  requests run.2
  = (requests s ++ [GetEntry publicKey dataKey opts;
                    GetFileContent dataLink downloadOpts])%list →
  getFileContent_json (requests s ++ [GetEntry publicKey dataKey opts])%list
    dataLink downloadOpts = Return data →
  ((∀ fields, data ≠ JObject fields) → (∀ items, data ≠ JArray items) →
   run.1 = Throw (Error ("File data for the entry at data key '" +:+ dataKey
                         +:+ "' is not JSON.")))
  ∧ (∀ items, data = JArray items →
     run.1 = Return (mkJSONResponse (Some data) (Some dataLink))).
Proof.
  cbv zeta. intros Hasked Hanswer.
  rewrite (getJSON_downloaded _ _ _ _ _ _ _ _ Hasked Hanswer). split.
  - intros Hobject Harray. destruct data; try done.
    + by destruct (Harray items).
    + by destruct (Hobject fields).
  - by intros items ->.
Qed.

(** ** What the operations never ask for *)

(** X18: a read only looks up and downloads, a write only uploads and sets
    the entry: every read makes at most two requests, none of them an
    upload or a [registry.setEntry]; every write makes at most two
    requests and every deletion at most one, none of them a lookup or a
    download, so a write never asks the registry for the revision it
    builds on. *)
Theorem reads_and_writes_keep_apart (key dataKey : string)
    (customOptions : option Options) (s : State) :
  (∀ op, ∃ more,
     requests (read op key dataKey customOptions s).2 = (requests s ++ more)%list
     ∧ forallb is_read_request more = true ∧ (length more ≤ 2)%nat)
  ∧ (∀ op, ∃ more,
       requests (write op key dataKey customOptions s).2 = (requests s ++ more)%list
       ∧ forallb is_write_request more = true ∧ (length more ≤ 2)%nat)
  ∧ (∀ op, ∃ more,
       requests (delete op key dataKey customOptions s).2 = (requests s ++ more)%list
       ∧ forallb is_write_request more = true ∧ (length more ≤ 1)%nat).
Proof.
  assert (Hnone : ∀ (kind : Request → bool) (n : nat) (l : list Request),
            ∃ more, l = (l ++ more)%list
                    ∧ forallb kind more = true ∧ (length more ≤ n)%nat).
  { intros kind n l. exists []. rewrite app_nil_r. repeat split. cbn. lia. }
  split; [|split]; intros op; destruct op; cbn [read write delete];
    unfold getJSON, getEntryData, getRawBytes, deleteJSON, deleteEntryData,
      setJSON, setEntryData, setJSON_try, setEntryData_try,
      getOrCreateRegistryEntry, incrementCachedRevision, decrementCachedRevision;
    unfold_monad;
    repeat (rewrite lookup_run; cbv zeta);
    repeat match goal with
      | |- context [match ?x with _ => _ end] =>
          lazymatch x with
          | context [match _ with _ => _ end] => fail
          | _ => destruct x; cbn
          end
      end;
    rewrite <- ?(assoc_L (++));
    first [ apply Hnone
          | eexists; split; [reflexivity|split; [reflexivity|cbn; lia]] ].
Qed.

End skydb_properties.

(** ** The cache key *)

Lemma before_the_separator (a b x y : string) :
  slash_free a = true → slash_free b = true →
  a +:+ "/" +:+ x = b +:+ "/" +:+ y → a = b ∧ x = y.
Proof.
  revert b. induction a as [|c a IH]; intros [|c' b]; cbn; intros Ha Hb Heq;
    cbv [String.append] in Heq.
  - by injection Heq as ->.
  - injection Heq as <- _. by cbn in Hb.
  - injection Heq as -> _. by cbn in Ha.
  - injection Heq as -> Heq.
    apply andb_prop in Ha as [_ Ha]. apply andb_prop in Hb as [_ Hb].
    by destruct (IH b Ha Hb Heq) as [-> ->].
Qed.

(** X4: the cache key tells the pairs apart when the public keys hold no
    "/", as the hexadecimal keys the operations accept do: two pairs with
    the same cache key are the same pair. *)
Theorem getCacheKey_tells_pairs_apart (publicKey publicKey' dataKey dataKey' : string) :
  slash_free publicKey = true →
  slash_free publicKey' = true →
  getCacheKey publicKey dataKey = getCacheKey publicKey' dataKey' →
  publicKey = publicKey' ∧ dataKey = dataKey'.
Proof. unfold getCacheKey. apply before_the_separator. Qed.

(** With a "/" in the public key, two pairs can share a cache key. *)
Example getCacheKey_collision :
  getCacheKey "ab/cd" "k" = getCacheKey "ab" "cd/k".
Proof. reflexivity. Qed.

(** ** [setDataLink] *)

Section skydb_data_link_properties.
Context `{!Imports} `{!SkynetClient} `{!SkylinkImports}.

Lemma setDataLink_run (privateKey dataKey dataLink : string)
    (customOptions : option Options) (s : State) :
  setDataLink privateKey dataKey dataLink customOptions s =
  match validateSkylinkString "dataLink" (OptString dataLink) "parameter" with
  | Throw e => (Throw e, s)
  | Return parsedSkylink =>
      match decodeSkylink parsedSkylink with
      | Throw e => (Throw e, s)
      | Return data => write (SetEntryData data) privateKey dataKey customOptions s
      end
  end.
Proof.
  unfold setDataLink. unfold bind at 1 2. unfold lift at 1 2.
  destruct (validateSkylinkString _ _ _) as [parsedSkylink|e]; [|done].
  by destruct (decodeSkylink parsedSkylink).
Qed.

(** X13: [setDataLink] throws before any effect when the link is not a
    skylink or does not decode; when it returns, the link was accepted and
    decoded to at most 70 bytes, the last request is the
    [registry.setEntry] of the entry of the data key that holds those
    bytes at the cached revision plus 1, and the cache stores that
    revision. *)
Theorem setDataLink_sets_decoded_link (privateKey publicKey dataKey dataLink : string)
    (customOptions : option Options) (s : State) :
  publicKeyOf privateKey = Return publicKey →
  let run := setDataLink privateKey dataKey dataLink customOptions s in
  let reserved := cachedRevision s publicKey dataKey + 1 in
  (∀ e, validateSkylinkString "dataLink" (OptString dataLink) "parameter" = Throw e
        ∨ (∃ parsedSkylink,
             validateSkylinkString "dataLink" (OptString dataLink) "parameter"
             = Return parsedSkylink
             ∧ decodeSkylink parsedSkylink = Throw e) →
        run = (Throw e, s))
  ∧ (run.1 = Return tt →
     ∃ parsedSkylink data,
       validateSkylinkString "dataLink" (OptString dataLink) "parameter"
       = Return parsedSkylink
       ∧ decodeSkylink parsedSkylink = Return data
       ∧ (length data ≤ MAX_ENTRY_LENGTH)%nat
       ∧ lastSetEntry run.2
         = Some (privateKey, RegistryEntry.mk dataKey data (Some reserved))
       ∧ revisionNumberCache run.2
         = <[getCacheKey publicKey dataKey := reserved]> (revisionNumberCache s)).
Proof.
  intros Hpk. cbv zeta. rewrite setDataLink_run. split.
  - by intros e [->|(parsedSkylink & -> & ->)].
  - destruct (validateSkylinkString _ _ _) as [parsedSkylink|e]; [|done].
    destruct (decodeSkylink parsedSkylink) as [data|e] eqn:Hdecode; [|done].
    intros Hreturns. exists parsedSkylink, data. do 2 (split; [done|]).
    destruct (write_validates_or_rejected (SetEntryData data) privateKey dataKey
                customOptions s) as [Hv|[e He]]; [|by rewrite He in Hreturns].
    assert (Hlength : (length data ≤ MAX_ENTRY_LENGTH)%nat).
    { destruct Hv as [_ Hv]. unfold validateEntryData in Hv.
      by destruct (Nat.ltb_spec MAX_ENTRY_LENGTH (length data)); [|lia]. }
    split; [done|].
    destruct (write_run (SetEntryData data) privateKey publicKey dataKey
                customOptions s Hv Hpk) as [[_ Hrun]|(_ & _ & Hcase)];
      [by rewrite Hrun in Hreturns|].
    rewrite Hreturns in Hcase.
    destruct Hcase as (Hcache & [entryKey entryData entryRevision] & Hlast & Hkey & Hrev & Hdata).
    pose proof (Hdata data eq_refl) as Hbytes. cbn in Hkey, Hrev, Hbytes.
    by subst.
Qed.

End skydb_data_link_properties.

(** ** The upload module *)

Section upload_properties.
Context `{!Upload.Env}.

(** X14: [uploadFile] and [uploadDirectory] return exactly when the request
    returns and the [data] of its response holds a string [skylink], a
    string [merkleroot] and a number [bitfield]: what they return is the
    formatted skylink with the merkle root and the bitfield as received.
    When the request throws, they throw the same error. *)
Theorem upload_returns_complete_response (file : File)
    (directory : list (string * File)) (filename : string)
    (customOptions : option Options) (r : Upload.UploadRequestResponse) :
  let complete (response : Result JsonData) :=
    ∃ data link root bits,
      response = Return data
      ∧ getField data "skylink" = Some (JString link)
      ∧ getField data "merkleroot" = Some (JString root)
      ∧ getField data "bitfield" = Some (JNumber bits)
      ∧ r = Upload.mkUploadRequestResponse (Upload.formatSkylink link) root bits in
  (Upload.uploadFile file customOptions = Return r
   ↔ complete (Upload.uploadFileRequest file customOptions))
  ∧ (Upload.uploadDirectory directory filename customOptions = Return r
     ↔ complete (Upload.uploadDirectoryRequest directory filename customOptions))
  ∧ (∀ e, Upload.uploadFileRequest file customOptions = Throw e →
          Upload.uploadFile file customOptions = Throw e)
  ∧ (∀ e, Upload.uploadDirectoryRequest directory filename customOptions = Throw e →
          Upload.uploadDirectory directory filename customOptions = Throw e).
Proof.
  cbv zeta. unfold Upload.uploadFile, Upload.uploadDirectory.
  assert (Hnull : ∀ data link, getField data "skylink" = Some (JString link) →
                               is_null data = false) by (by intros []).
  repeat split.
  - destruct (Upload.uploadFileRequest _ _) as [data|e]; [|done].
    destruct (is_null data); [done|].
    destruct (getField data "skylink") as [[]|] eqn:Hskylink; try done.
    destruct (getField data "merkleroot") as [[]|] eqn:Hroot; try done.
    destruct (getField data "bitfield") as [[]|] eqn:Hbits; try done.
    cbn. intros [= <-]. by eexists _, _, _, _.
  - intros (data & link & root & bits & -> & Hskylink & Hroot & Hbits & ->).
    by rewrite (Hnull _ _ Hskylink), Hskylink, Hroot, Hbits.
  - destruct (Upload.uploadDirectoryRequest _ _ _) as [data|e]; [|done].
    destruct (is_null data); [done|].
    destruct (getField data "skylink") as [[]|] eqn:Hskylink; try done.
    destruct (getField data "merkleroot") as [[]|] eqn:Hroot; try done.
    destruct (getField data "bitfield") as [[]|] eqn:Hbits; try done.
    cbn. intros [= <-]. by eexists _, _, _, _.
  - intros (data & link & root & bits & -> & Hskylink & Hroot & Hbits & ->).
    by rewrite (Hnull _ _ Hskylink), Hskylink, Hroot, Hbits.
  - by intros e ->.
  - by intros e ->.
Qed.

End upload_properties.

(** * The properties on concrete runs *)

(** ** Writes *)

Lemma revision_monotonicity_witness :
  let run := @write sample_imports (client_with None JNull) (SetEntryData [x01])
               "00" "k" None initial in
  @publicKeyOf sample_imports "00" = Return "pub00"
  ∧ writtenRevision run.2 = Some 0
  ∧ revisionNumberCache run.2 = <["pub00/k" := 0]> (revisionNumberCache initial).
Proof.
  cbv zeta. split; [reflexivity|].
  destruct (@revision_monotonicity sample_imports (client_with None JNull)
              (SetEntryData [x01]) "00" "pub00" "k" None initial eq_refl)
    as (Hfirst & _ & _).
  apply Hfirst; reflexivity.
Defined.

(** Two writes in a row reserve 0 and then 1; a third one that the registry
    refuses leaves 1 cached. *)
Example writes_in_a_row :
  let ok := client_with None JNull in
  let first := @write sample_imports ok (SetJSON (JObject [])) "00" "k" None initial in
  let second := @write sample_imports ok (SetEntryData [x01]) "00" "k" None first.2 in
  let third := @write sample_imports (failing_client (Error "refused"))
                 (SetEntryData [x02]) "00" "k" None second.2 in
  (first.1 = Return tt ∧ writtenRevision first.2 = Some 0
   ∧ revisionNumberCache first.2 = {[ "pub00/k" := 0 ]})
  ∧ (second.1 = Return tt ∧ writtenRevision second.2 = Some 1
     ∧ revisionNumberCache second.2 = {[ "pub00/k" := 1 ]})
  ∧ (third.1 = Throw (Error "refused") ∧ writtenRevision third.2 = Some 2
     ∧ revisionNumberCache third.2 = {[ "pub00/k" := 1 ]}).
Proof. vm_compute. repeat split. Qed.

(** A first write that the registry refuses leaves the pair cached at the
    revision the reservation read, -1, where there was no entry. *)
Example refused_first_write :
  let run := @write sample_imports (failing_client (Error "refused"))
               (SetEntryData [x01]) "00" "k" None initial in
  run.1 = Throw (Error "refused")
  ∧ revisionNumberCache run.2 = {[ "pub00/k" := -1 ]}
  ∧ cachedRevision run.2 "pub00" "k" = cachedRevision initial "pub00" "k".
Proof. vm_compute. repeat split. Qed.

Lemma increment_at_maximum_witness :
  let s := mkState {[ "pub00/k" := 2 ^ 64 - 1 ]} [] in
  revisionNumberCache s !! getCacheKey "pub00" "k" = Some (2 ^ 64 - 1)
  ∧ @incrementCachedRevision sample_imports "pub00" "k" s
    = (Throw (Error "Current entry already has maximum allowed revision, could not update the entry"), s).
Proof.
  cbv zeta.
  assert (Hcached : revisionNumberCache (mkState {[ "pub00/k" := 2 ^ 64 - 1 ]} [])
                    !! getCacheKey "pub00" "k" = Some (2 ^ 64 - 1))
    by (vm_compute; reflexivity).
  split; [exact Hcached|].
  destruct (@increment_at_maximum sample_imports (client_with None JNull) "pub00" "k"
              (mkState {[ "pub00/k" := 2 ^ 64 - 1 ]} []) (2 ^ 64 - 1) Hcached)
    as (Hmax & _).
  destruct (Hmax eq_refl) as (Hthrows & _). exact Hthrows.
Defined.

Lemma setEntryData_rejects_before_effects_witness :
  (MAX_ENTRY_LENGTH < length (replicate 71 x01))%nat
  ∧ ∃ e, @setEntryData sample_imports (client_with None JNull) "00" "k"
           (replicate 71 x01) None initial = (Throw e, initial).
Proof.
  split; [vm_compute; lia|].
  destruct (@setEntryData_rejects_before_effects sample_imports (client_with None JNull)
              "00" "k" (replicate 71 x01) None initial) as (Hrejected & _).
  destruct Hrejected as (e & _ & _ & _ & e' & Hrun & _); [left; vm_compute; lia|].
  by exists e'.
Defined.

Lemma deletion_overrides_option_witness :
  let refused := Some ({[ "allowDeletionEntryData" := OptBool false ]} : Options) in
  getProp (@delete_options sample_imports (client_with None JNull) DeleteJSON refused)
    "allowDeletionEntryData" = OptBool true
  ∧ getProp (@delete_options sample_imports (client_with None JNull) DeleteEntryData refused)
      "allowDeletionEntryData" = OptBool true.
Proof.
  cbv zeta. split.
  - destruct (@deletion_overrides_option sample_imports (client_with None JNull)
                DeleteJSON "00" "k"
                (Some ({[ "allowDeletionEntryData" := OptBool false ]} : Options)) initial)
      as (_ & Hpassed & _). exact Hpassed.
  - destruct (@deletion_overrides_option sample_imports (client_with None JNull)
                DeleteEntryData "00" "k"
                (Some ({[ "allowDeletionEntryData" := OptBool false ]} : Options)) initial)
      as (_ & Hpassed & _). exact Hpassed.
Defined.

(** A deletion with the option refused by the caller still writes the
    sentinel, at the reserved revision. *)
Example deletion_run :
  let refused := Some ({[ "allowDeletionEntryData" := OptBool false ]} : Options) in
  let run := @delete sample_imports (client_with None JNull) DeleteJSON "00" "k"
               refused initial in
  run.1 = Return tt
  ∧ lastSetEntry run.2 = Some ("00", RegistryEntry.mk "k" (replicate 34 x00) (Some 0)).
Proof. vm_compute. repeat split. Qed.

(** ** Reads *)

Lemma stale_read_rejected_witness :
  let client := client_with (Some (live_entry 3)) JNull in
  let run := @read sample_imports client GetEntryData "pub" "k" None (cached 5) in
  requests run.2 = (requests (cached 5) ++ [GetEntry "pub" "k" ∅])%list
  ∧ run.1 = Throw (Error "A higher revision number for this userID and path is already cached")
  ∧ revisionNumberCache run.2 = revisionNumberCache (cached 5)
  ∧ revisionNumberCache run.2 !! getCacheKey "pub" "k" = Some 5.
Proof.
  cbv zeta.
  assert (Hasked :
    requests (@read sample_imports (client_with (Some (live_entry 3)) JNull)
                GetEntryData "pub" "k" None (cached 5)).2
    = (requests (cached 5) ++ GetEntry "pub" "k" ∅ :: [])%list)
    by (vm_compute; reflexivity).
  assert (Hcached : revisionNumberCache (cached 5) !! getCacheKey "pub" "k" = Some 5)
    by (vm_compute; reflexivity).
  split; [exact Hasked|].
  destruct (@stale_read_rejected sample_imports (client_with (Some (live_entry 3)) JNull)
              GetEntryData "pub" "k" None (cached 5) ∅ [] (live_entry 3) 3
              Hasked eq_refl eq_refl) as (Hstale & _); [lia|].
  apply (Hstale 5 Hcached). lia.
Defined.

(** C3, as stated, fails: an entry is found, at revision 3 and with the
    deletion sentinel as payload, while revision 5 is cached; the read does
    not return "no data" but throws, and the cache is not updated to 3. *)
Lemma found_entry_behind_the_cache :
  let client := client_with (Some (deleted_entry 3)) JNull in
  let run := @read sample_imports client GetEntryData "pub" "k" None (cached 5) in
  @registry_getEntry client (requests (cached 5)) "pub" "k" ∅
  = Return (Some (deleted_entry 3))
  ∧ RegistryEntry.data (deleted_entry 3) = @EMPTY_SKYLINK sample_imports
  ∧ run.1 = Throw (Error "A higher revision number for this userID and path is already cached")
  ∧ run.1 ≠ Return (noData GetEntryData)
  ∧ revisionNumberCache run.2 !! getCacheKey "pub" "k" = Some 5
  ∧ revisionNumberCache run.2 !! getCacheKey "pub" "k" ≠ Some 3.
Proof. vm_compute. repeat split; discriminate. Qed.

Lemma read_cache_effects_witness :
  let client := failing_client (Error "network") in
  let run := @read sample_imports client GetJSON "pub" "k" None (cached 5) in
  requests run.2 = (requests (cached 5) ++ [GetEntry "pub" "k" ∅])%list
  ∧ run.1 = Throw (Error "network")
  ∧ revisionNumberCache run.2 = revisionNumberCache (cached 5).
Proof.
  cbv zeta.
  assert (Hasked :
    requests (@read sample_imports (failing_client (Error "network"))
                GetJSON "pub" "k" None (cached 5)).2
    = (requests (cached 5) ++ GetEntry "pub" "k" ∅ :: [])%list)
    by (vm_compute; reflexivity).
  split; [exact Hasked|].
  exact (@read_cache_effects sample_imports (failing_client (Error "network"))
           GetJSON "pub" "k" None (cached 5) ∅ [] Hasked).
Defined.

(** The three reads on a deleted entry at a newer revision: "no data", and
    the cache moves to the entry's revision. *)
Example reads_of_a_deleted_entry :
  let client := client_with (Some (deleted_entry 7)) JNull in
  (∀ op, (@read sample_imports client op "pub" "k" None (cached 5)).1
         = Return (noData op))
  ∧ (∀ op, revisionNumberCache
             (@read sample_imports client op "pub" "k" None (cached 5)).2
           = {[ "pub/k" := 7 ]}).
Proof. split; intros []; vm_compute; reflexivity. Qed.

(** ** Data links *)

Lemma data_link_by_length_witness :
  let client := client_with (Some (legacy_entry 0)) (JObject []) in
  let run := @read sample_imports client GetJSON "pub" "k" None initial in
  let link := "sia://AAAAAAAAAAAAAAAAAAAAAAAAAAAAAAAAAAAAAAAAAAAAAA" in
  length (RegistryEntry.data (legacy_entry 0))
  = @BASE64_ENCODED_SKYLINK_SIZE sample_imports
  ∧ requests run.2
    = (requests initial ++ [GetEntry "pub" "k" ∅; GetFileContent link ∅])%list
  ∧ run.1 = Return (JSONResult (mkJSONResponse (Some (JObject [])) (Some link))).
Proof.
  cbv zeta. split; [reflexivity|].
  assert (Hasked :
    requests (@read sample_imports (client_with (Some (legacy_entry 0)) (JObject []))
                GetJSON "pub" "k" None initial).2
    = (requests initial
       ++ GetEntry "pub" "k" ∅
          :: [GetFileContent "sia://AAAAAAAAAAAAAAAAAAAAAAAAAAAAAAAAAAAAAAAAAAAAAA"
                ∅])%list)
    by (vm_compute; reflexivity).
  split; [exact Hasked|].
  destruct (@data_link_by_length sample_imports
              (client_with (Some (legacy_entry 0)) (JObject []))
              (replicate 46 x41)) as (_ & _ & _ & _ & _ & Hread).
  pose proof (Hread GetJSON true "pub" "k" None initial ∅
                [GetFileContent "sia://AAAAAAAAAAAAAAAAAAAAAAAAAAAAAAAAAAAAAAAAAAAAAA" ∅]
                (legacy_entry 0) (or_introl (conj eq_refl eq_refl))) as Hlegacy.
  cbv zeta in Hlegacy. specialize (Hlegacy Hasked).
  do 3 (match type of Hlegacy with
        | ?P → _ =>
            let Hp := fresh in
            assert (Hp : P) by (vm_compute; reflexivity); specialize (Hlegacy Hp)
        end).
  assert (Hlive : replicate 46 x41 ≠ replicate (@RAW_SKYLINK_SIZE sample_imports) x00)
    by discriminate.
  specialize (Hlegacy Hlive (or_intror (conj eq_refl eq_refl))).
  assert (Hfresh :
    @checkCachedDataLink sample_imports
      (@uint8ArrayToStringUtf8 sample_imports (replicate 46 x41))
      (getProp (spread (spread (@DEFAULT_GET_JSON_OPTIONS sample_imports)
                          (@this_customOptions
                             (client_with (Some (legacy_entry 0)) (JObject []))))
                  (optional None)) "cachedDataLink") = Return false)
    by (vm_compute; reflexivity).
  cbn [andb] in Hlegacy.
  change (bool_decide (length (replicate 46 x41)
                       = @BASE64_ENCODED_SKYLINK_SIZE sample_imports))
    with true in Hlegacy.
  cbv iota in Hlegacy. rewrite Hfresh in Hlegacy.
  destruct Hlegacy as [_ Hrun]. rewrite Hrun. vm_compute. reflexivity.
Defined.

(** C7, as stated, fails for [getRawBytes]: a payload of the length of the
    legacy base64 skylink string, which [getJSON] decodes, is rejected by
    [getRawBytes] with the validation error naming the raw length. *)
Lemma getRawBytes_rejects_legacy_length :
  let client := client_with (Some (legacy_entry 0)) (JObject []) in
  length (RegistryEntry.data (legacy_entry 0))
  = @BASE64_ENCODED_SKYLINK_SIZE sample_imports
  ∧ (@getRawBytes sample_imports client "pub" "k" None initial).1
    = Throw (ValidationError "entry.data" (replicate 46 x41) "returned entry data"
               "length 34 bytes")
  ∧ (@getJSON sample_imports client "pub" "k" None initial).1
    = Return (mkJSONResponse (Some (JObject []))
                (Some "sia://AAAAAAAAAAAAAAAAAAAAAAAAAAAAAAAAAAAAAAAAAAAAAA")).
Proof. vm_compute. repeat split. Qed.

(** ** The envelope *)

Lemma envelope_unwrapped_when_both_truthy_witness :
  let payload := JObject [("a", JNumber 1)] in
  let data := JObject [("_data", payload); ("_v", JNumber 2)] in
  typeof_object data = true ∧ is_null data = false
  ∧ ∃ actualData,
      getField data "_data" = Some actualData
      ∧ getJSON_unwrap "k" data "sia://link"
        = if typeof_object actualData
          then Return (mkJSONResponse (Some actualData) (Some "sia://link"))
          else Throw (Error ("File data '_data' for the entry at data key '"
                             +:+ "k" +:+ "' is not JSON.")).
Proof.
  cbv zeta. split; [reflexivity|]. split; [reflexivity|].
  destruct (@envelope_unwrapped_when_both_truthy sample_imports (client_with None JNull)
              "k" (JObject [("_data", JObject [("a", JNumber 1)]); ("_v", JNumber 2)])
              "sia://link" eq_refl eq_refl) as (_ & Henveloped & _).
  apply Henveloped. reflexivity.
Defined.

(** C4, as stated, fails: an object that has the field [_data] and lacks
    only [_v] is returned as it is, and so is one whose [_v] is 0; and an
    object with both fields truthy whose [_data] is a number is not
    unwrapped: [getJSON] throws. *)
Lemma envelope_needs_both_fields_truthy :
  let payload := JObject [("a", JNumber 1)] in
  let only_data := JObject [("_data", payload)] in
  let version_zero := JObject [("_data", payload); ("_v", JNumber 0)] in
  let number_payload := JObject [("_data", JNumber 5); ("_v", JNumber 2)] in
  let link := "sia://AAAAAAAAAAAAAAAAAAAAAAAAAAAAAAAAAA" in
  let getJSON_of content :=
    (@getJSON sample_imports (client_with (Some (live_entry 0)) content)
       "pub" "k" None initial).1 in
  getField only_data "_data" = Some payload
  ∧ getJSON_of only_data = Return (mkJSONResponse (Some only_data) (Some link))
  ∧ getField version_zero "_data" = Some payload
  ∧ getField version_zero "_v" = Some (JNumber 0)
  ∧ getJSON_of version_zero = Return (mkJSONResponse (Some version_zero) (Some link))
  ∧ getJSON_of number_payload
    = Throw (Error "File data '_data' for the entry at data key 'k' is not JSON.").
Proof. vm_compute. repeat split. Qed.

(** ** An entry without a revision *)

Lemma absent_revision_reads_as_zero_witness :
  let entry := RegistryEntry.mk "k" (replicate 34 x41) None in
  let run := @read sample_imports (client_with (Some entry) JNull)
               GetEntryData "pub" "k" None initial in
  requests run.2 = (requests initial ++ [GetEntry "pub" "k" ∅])%list
  ∧ revisionNumberCache run.2 = <["pub/k" := 0]> (revisionNumberCache initial).
Proof.
  cbv zeta.
  assert (Hasked :
    requests (@read sample_imports
                (client_with (Some (RegistryEntry.mk "k" (replicate 34 x41) None)) JNull)
                GetEntryData "pub" "k" None initial).2
    = (requests initial ++ GetEntry "pub" "k" ∅ :: [])%list)
    by (vm_compute; reflexivity).
  split; [exact Hasked|].
  destruct (@absent_revision_reads_as_zero sample_imports
              (client_with (Some (RegistryEntry.mk "k" (replicate 34 x41) None)) JNull)
              GetEntryData "pub" "k" None initial ∅ []
              (RegistryEntry.mk "k" (replicate 34 x41) None)
              Hasked eq_refl eq_refl) as (_ & Hfresh).
  apply Hfresh. by left.
Defined.

(** ** The frame of the operations *)

Lemma read_touches_only_its_pair_witness :
  let client := client_with (Some (live_entry 3)) JNull in
  let s := mkState {[ "other/k" := 7 ]} [] in
  let run := @read sample_imports client GetEntryData "pub" "k" None s in
  revisionNumberCache run.2 !! getCacheKey "pub" "k" = Some 3
  ∧ revisionNumberCache run.2 !! "other/k" = revisionNumberCache s !! "other/k"
  ∧ dom (revisionNumberCache s) ⊆ dom (revisionNumberCache run.2).
Proof.
  cbv zeta. split; [vm_compute; reflexivity|].
  apply (@read_touches_only_its_pair sample_imports
           (client_with (Some (live_entry 3)) JNull) GetEntryData "pub" "k" None
           (mkState {[ "other/k" := 7 ]} []) "other/k").
  discriminate.
Defined.

Lemma write_touches_only_its_pair_witness :
  let client := client_with None JNull in
  let s := mkState {[ "other/k" := 7 ]} [] in
  let run := @write sample_imports client (SetEntryData [x01]) "00" "k" None s in
  revisionNumberCache run.2 !! getCacheKey "pub00" "k" = Some 0
  ∧ revisionNumberCache run.2 !! "other/k" = revisionNumberCache s !! "other/k"
  ∧ dom (revisionNumberCache s) ⊆ dom (revisionNumberCache run.2).
Proof.
  cbv zeta. split; [vm_compute; reflexivity|].
  apply (@write_touches_only_its_pair sample_imports (client_with None JNull)
           (SetEntryData [x01]) "00" "pub00" "k" None
           (mkState {[ "other/k" := 7 ]} []) "other/k" eq_refl).
  discriminate.
Defined.

Lemma getCacheKey_tells_pairs_apart_witness :
  slash_free "ab" = true ∧ "ab" = "ab" ∧ "k" = "k".
Proof.
  split; [reflexivity|].
  exact (getCacheKey_tells_pairs_apart "ab" "ab" "k" "k" eq_refl eq_refl eq_refl).
Defined.

Lemma operations_keep_revisions_bounded_witness :
  let client := client_with None JNull in
  @revisions_bounded sample_imports (cached 5)
  ∧ @revisions_bounded sample_imports
      (@write sample_imports client (SetEntryData [x01]) "" "k" None (cached 5)).2.
Proof.
  cbv zeta.
  assert (Hbounded : @revisions_bounded sample_imports (cached 5)).
  { unfold revisions_bounded, cached. cbn. apply map_Forall_singleton.
    unfold UNCACHED_REVISION_NUMBER. lia. }
  split; [exact Hbounded|].
  destruct (@operations_keep_revisions_bounded sample_imports (client_with None JNull)
              (cached 5) Hbounded) as [Hwrite _].
  apply Hwrite.
Defined.

(** ** Reads and writes in sequence *)

Lemma write_after_read_witness :
  let client := client_with (Some (live_entry 3)) JNull in
  let r := @read sample_imports client GetEntryData "pub" "k" None initial in
  let w := @write sample_imports client (SetEntryData [x01]) "" "k" None r.2 in
  r.1 = Return (EntryResult (mkEntryData (Some (replicate 34 x41))))
  ∧ w.1 = Return tt
  ∧ writtenRevision w.2 = Some (3 + 1)
  ∧ revisionNumberCache w.2
    = <[getCacheKey "pub" "k" := 3 + 1]> (revisionNumberCache initial).
Proof.
  cbv zeta.
  assert (Hasked :
    requests (@read sample_imports (client_with (Some (live_entry 3)) JNull)
                GetEntryData "pub" "k" None initial).2
    = (requests initial ++ GetEntry "pub" "k" ∅ :: [])%list)
    by (vm_compute; reflexivity).
  assert (Hread :
    (@read sample_imports (client_with (Some (live_entry 3)) JNull)
       GetEntryData "pub" "k" None initial).1
    = Return (EntryResult (mkEntryData (Some (replicate 34 x41)))))
    by (vm_compute; reflexivity).
  assert (Hwrite :
    (@write sample_imports (client_with (Some (live_entry 3)) JNull)
       (SetEntryData [x01]) "" "k" None
       (@read sample_imports (client_with (Some (live_entry 3)) JNull)
          GetEntryData "pub" "k" None initial).2).1 = Return tt)
    by (vm_compute; reflexivity).
  split; [exact Hread|]. split; [exact Hwrite|].
  exact (@write_after_read sample_imports (client_with (Some (live_entry 3)) JNull)
           GetEntryData (SetEntryData [x01]) "" "pub" "k" None None initial ∅ []
           (live_entry 3) 3 _ eq_refl Hasked eq_refl eq_refl Hread Hwrite).
Defined.

Lemma stale_read_after_write_witness :
  let client := client_with (Some (live_entry 3)) JNull in
  let w := @write sample_imports client (SetEntryData [x01]) "" "k" None (cached 5) in
  let r := @read sample_imports client GetEntryData "pub" "k" None w.2 in
  w.1 = Return tt
  ∧ writtenRevision w.2 = Some 6
  ∧ r.1 = Throw (Error "A higher revision number for this userID and path is already cached")
  ∧ revisionNumberCache r.2 = revisionNumberCache w.2
  ∧ revisionNumberCache r.2 !! getCacheKey "pub" "k" = Some 6.
Proof.
  cbv zeta.
  assert (Hwrite :
    (@write sample_imports (client_with (Some (live_entry 3)) JNull)
       (SetEntryData [x01]) "" "k" None (cached 5)).1 = Return tt)
    by (vm_compute; reflexivity).
  assert (Hreserved :
    writtenRevision
      (@write sample_imports (client_with (Some (live_entry 3)) JNull)
         (SetEntryData [x01]) "" "k" None (cached 5)).2 = Some 6)
    by (vm_compute; reflexivity).
  assert (Hasked :
    requests
      (@read sample_imports (client_with (Some (live_entry 3)) JNull)
         GetEntryData "pub" "k" None
         (@write sample_imports (client_with (Some (live_entry 3)) JNull)
            (SetEntryData [x01]) "" "k" None (cached 5)).2).2
    = (requests (@write sample_imports (client_with (Some (live_entry 3)) JNull)
                   (SetEntryData [x01]) "" "k" None (cached 5)).2
       ++ GetEntry "pub" "k" ∅ :: [])%list)
    by (vm_compute; reflexivity).
  split; [exact Hwrite|]. split; [exact Hreserved|].
  destruct (@stale_read_after_write sample_imports
              (client_with (Some (live_entry 3)) JNull)
              (SetEntryData [x01]) GetEntryData "" "pub" "k" None None (cached 5)
              ∅ [] (live_entry 3) 3 6 eq_refl Hwrite Hreserved Hasked eq_refl eq_refl)
    as [Hstale _]; [lia|].
  apply Hstale. lia.
Defined.

Lemma deletion_advances_revision_witness :
  let run := @delete sample_imports (client_with None JNull) DeleteJSON "" "k" None
               (cached 5) in
  run.1 = Return tt
  ∧ writtenRevision run.2 = Some (cachedRevision (cached 5) "pub" "k" + 1)
  ∧ revisionNumberCache run.2
    = <[getCacheKey "pub" "k" := cachedRevision (cached 5) "pub" "k" + 1]>
        (revisionNumberCache (cached 5)).
Proof.
  cbv zeta.
  assert (Hreturns :
    (@delete sample_imports (client_with None JNull) DeleteJSON "" "k" None
       (cached 5)).1 = Return tt)
    by (vm_compute; reflexivity).
  split; [exact Hreturns|].
  destruct (@deletion_advances_revision sample_imports (client_with None JNull)
              DeleteJSON "" "pub" "k" None (cached 5) eq_refl) as [Hdone _].
  exact (Hdone Hreturns).
Defined.

(** ** What the reads return *)

Lemma unchanged_data_link_skips_download_witness :
  let client := client_with (Some (live_entry 3)) JNull in
  let raw := "AAAAAAAAAAAAAAAAAAAAAAAAAAAAAAAAAA" in
  let known := Some ({[ "cachedDataLink" := OptString raw ]} : Options) in
  let run := @read sample_imports client GetJSON "pub" "k" known initial in
  requests run.2 = (requests initial ++ [GetEntry "pub" "k" ∅])%list
  ∧ run.1 = Return (JSONResult (mkJSONResponse None (Some ("sia://" +:+ raw)))).
Proof.
  cbv zeta.
  assert (Hasked :
    requests (@read sample_imports (client_with (Some (live_entry 3)) JNull) GetJSON
                "pub" "k"
                (Some ({[ "cachedDataLink"
                          := OptString "AAAAAAAAAAAAAAAAAAAAAAAAAAAAAAAAAA" ]} : Options))
                initial).2
    = (requests initial ++ GetEntry "pub" "k" ∅ :: [])%list)
    by (vm_compute; reflexivity).
  split; [exact Hasked|].
  pose proof (@unchanged_data_link_skips_download sample_imports
                (client_with (Some (live_entry 3)) JNull) GetJSON true "pub" "k"
                (Some ({[ "cachedDataLink"
                          := OptString "AAAAAAAAAAAAAAAAAAAAAAAAAAAAAAAAAA" ]} : Options))
                initial ∅ [] (live_entry 3) "AAAAAAAAAAAAAAAAAAAAAAAAAAAAAAAAAA"
                "sia://AAAAAAAAAAAAAAAAAAAAAAAAAAAAAAAAAA"
                (or_introl (conj eq_refl eq_refl))) as Hskips.
  cbv zeta in Hskips. specialize (Hskips Hasked).
  do 4 (match type of Hskips with
        | ?P → _ =>
            let Hp := fresh in
            assert (Hp : P) by (vm_compute; reflexivity); specialize (Hskips Hp)
        end).
  destruct Hskips as (Hrun & _). exact Hrun.
Defined.

Lemma cachedDataLink_checked_after_lookup_witness :
  let client := client_with (Some (live_entry 3)) JNull in
  let malformed := Some ({[ "cachedDataLink" := OptBool true ]} : Options) in
  let run := @read sample_imports client GetJSON "pub" "k" malformed initial in
  requests run.2 = (requests initial ++ [GetEntry "pub" "k" ∅])%list
  ∧ run.1 = Throw (Error "Expected 'cachedDataLink' to be a skylink")
  ∧ revisionNumberCache run.2
    = <[getCacheKey "pub" "k" := 3]> (revisionNumberCache initial).
Proof.
  cbv zeta.
  assert (Hasked :
    requests (@read sample_imports (client_with (Some (live_entry 3)) JNull) GetJSON
                "pub" "k" (Some ({[ "cachedDataLink" := OptBool true ]} : Options))
                initial).2
    = (requests initial ++ GetEntry "pub" "k" ∅ :: [])%list)
    by (vm_compute; reflexivity).
  split; [exact Hasked|].
  pose proof (@cachedDataLink_checked_after_lookup sample_imports
                (client_with (Some (live_entry 3)) JNull) GetJSON true "pub" "k"
                (Some ({[ "cachedDataLink" := OptBool true ]} : Options))
                initial ∅ [] (live_entry 3) "AAAAAAAAAAAAAAAAAAAAAAAAAAAAAAAAAA"
                "sia://AAAAAAAAAAAAAAAAAAAAAAAAAAAAAAAAAA"
                (Error "Expected 'cachedDataLink' to be a skylink")
                (or_introl (conj eq_refl eq_refl))) as Hlate.
  cbv zeta in Hlate. specialize (Hlate Hasked).
  do 4 (match type of Hlate with
        | ?P → _ =>
            let Hp := fresh in
            assert (Hp : P) by (vm_compute; reflexivity); specialize (Hlate Hp)
        end).
  destruct Hlate as (Hrun & _ & Hcache). split; [exact Hrun|exact Hcache].
Defined.

Lemma getRawBytes_returns_download_witness :
  let client := client_with (Some (live_entry 3)) JNull in
  let link := "sia://AAAAAAAAAAAAAAAAAAAAAAAAAAAAAAAAAA" in
  let downloadOpts : Options := {[ "responseType" := OptString "arraybuffer" ]} in
  let run := @getRawBytes sample_imports client "pub" "k" None initial in
  requests run.2
  = (requests initial ++ [GetEntry "pub" "k" ∅; GetFileContent link downloadOpts])%list
  ∧ run.1 = Return (mkRawBytesResponse (Some []) (Some link)).
Proof.
  cbv zeta.
  assert (Hasked :
    requests (@getRawBytes sample_imports (client_with (Some (live_entry 3)) JNull)
                "pub" "k" None initial).2
    = (requests initial
       ++ GetEntry "pub" "k" ∅
          :: [GetFileContent "sia://AAAAAAAAAAAAAAAAAAAAAAAAAAAAAAAAAA"
                ({[ "responseType" := OptString "arraybuffer" ]} : Options)])%list)
    by (vm_compute; reflexivity).
  split; [exact Hasked|].
  pose proof (@getRawBytes_returns_download sample_imports
                (client_with (Some (live_entry 3)) JNull) "pub" "k" None initial ∅
                [GetFileContent "sia://AAAAAAAAAAAAAAAAAAAAAAAAAAAAAAAAAA"
                   ({[ "responseType" := OptString "arraybuffer" ]} : Options)]
                (live_entry 3) "AAAAAAAAAAAAAAAAAAAAAAAAAAAAAAAAAA"
                "sia://AAAAAAAAAAAAAAAAAAAAAAAAAAAAAAAAAA") as Hdownload.
  cbv zeta in Hdownload. specialize (Hdownload Hasked).
  do 3 (match type of Hdownload with
        | ?P → _ =>
            let Hp := fresh in
            assert (Hp : P) by (vm_compute; reflexivity); specialize (Hdownload Hp)
        end).
  destruct Hdownload as (downloadOpts & _ & _ & Hrun & _). exact Hrun.
Defined.

Lemma getEntryData_returns_entry_data_witness :
  let client := client_with (Some (live_entry 3)) JNull in
  let run := @getEntryData sample_imports client "pub" "k" None initial in
  requests run.2 = (requests initial ++ [GetEntry "pub" "k" ∅])%list
  ∧ run.1 = Return (mkEntryData (Some (replicate 34 x41))).
Proof.
  cbv zeta.
  assert (Hreturns :
    (@getEntryData sample_imports (client_with (Some (live_entry 3)) JNull)
       "pub" "k" None initial).1 = Return (mkEntryData (Some (replicate 34 x41))))
    by (vm_compute; reflexivity).
  destruct (@getEntryData_returns_entry_data sample_imports
              (client_with (Some (live_entry 3)) JNull) "pub" "k" None initial)
    as [[e Hthrows]|[Hasked _]].
  - rewrite Hthrows in Hreturns. discriminate Hreturns.
  - split; [|exact Hreturns].
    rewrite Hasked. vm_compute. reflexivity.
Defined.

Lemma envelope_round_trip_witness :
  let json := JObject [("a", JNumber 1)] in
  let envelope := JObject [("_data", json); ("_v", JNumber 2)] in
  let client := client_with (Some (live_entry 3)) envelope in
  let link := "sia://AAAAAAAAAAAAAAAAAAAAAAAAAAAAAAAAAA" in
  let run := @getJSON sample_imports client "pub" "k" None initial in
  requests run.2
  = (requests initial ++ [GetEntry "pub" "k" ∅; GetFileContent link ∅])%list
  ∧ run.1 = Return (mkJSONResponse (Some json) (Some link)).
Proof.
  cbv zeta.
  assert (Hasked :
    requests (@getJSON sample_imports
                (client_with (Some (live_entry 3))
                   (JObject [("_data", JObject [("a", JNumber 1)]); ("_v", JNumber 2)]))
                "pub" "k" None initial).2
    = (requests initial
       ++ [GetEntry "pub" "k" ∅;
           GetFileContent "sia://AAAAAAAAAAAAAAAAAAAAAAAAAAAAAAAAAA" ∅])%list)
    by (vm_compute; reflexivity).
  split; [exact Hasked|].
  exact (@envelope_round_trip sample_imports
           (client_with (Some (live_entry 3))
              (JObject [("_data", JObject [("a", JNumber 1)]); ("_v", JNumber 2)]))
           "pub" "k" None initial ∅ ∅ "sia://AAAAAAAAAAAAAAAAAAAAAAAAAAAAAAAAAA"
           (JObject [("a", JNumber 1)]) Hasked eq_refl eq_refl eq_refl).
Defined.

Lemma getJSON_of_other_bodies_witness :
  let client := client_with (Some (live_entry 3)) (JString "text") in
  let link := "sia://AAAAAAAAAAAAAAAAAAAAAAAAAAAAAAAAAA" in
  let run := @getJSON sample_imports client "pub" "k" None initial in
  requests run.2
  = (requests initial ++ [GetEntry "pub" "k" ∅; GetFileContent link ∅])%list
  ∧ run.1 = Throw (Error ("File data for the entry at data key '" +:+ "k"
                          +:+ "' is not JSON.")).
Proof.
  cbv zeta.
  assert (Hasked :
    requests (@getJSON sample_imports (client_with (Some (live_entry 3)) (JString "text"))
                "pub" "k" None initial).2
    = (requests initial
       ++ [GetEntry "pub" "k" ∅;
           GetFileContent "sia://AAAAAAAAAAAAAAAAAAAAAAAAAAAAAAAAAA" ∅])%list)
    by (vm_compute; reflexivity).
  split; [exact Hasked|].
  destruct (@getJSON_of_other_bodies sample_imports
              (client_with (Some (live_entry 3)) (JString "text"))
              "pub" "k" None initial ∅ ∅ "sia://AAAAAAAAAAAAAAAAAAAAAAAAAAAAAAAAAA"
              (JString "text") Hasked eq_refl) as [Hother _].
  apply Hother; discriminate.
Defined.

(** ** [setDataLink] on a concrete run *)

Lemma setDataLink_sets_decoded_link_witness :
  let run := @setDataLink sample_imports (client_with None JNull) sample_skylink_imports
               "" "k" "AAAA" None (cached 5) in
  run.1 = Return tt
  ∧ lastSetEntry run.2 = Some ("", RegistryEntry.mk "k" [x41; x41; x41; x41] (Some 6))
  ∧ ∃ parsedSkylink data,
      @validateSkylinkString sample_imports "dataLink" (OptString "AAAA") "parameter"
      = Return parsedSkylink
      ∧ @decodeSkylink sample_skylink_imports parsedSkylink = Return data
      ∧ (length data ≤ MAX_ENTRY_LENGTH)%nat
      ∧ lastSetEntry run.2
        = Some ("", RegistryEntry.mk "k" data
                      (Some (cachedRevision (cached 5) "pub" "k" + 1)))
      ∧ revisionNumberCache run.2
        = <[getCacheKey "pub" "k" := cachedRevision (cached 5) "pub" "k" + 1]>
            (revisionNumberCache (cached 5)).
Proof.
  cbv zeta.
  assert (Hreturns :
    (@setDataLink sample_imports (client_with None JNull) sample_skylink_imports
       "" "k" "AAAA" None (cached 5)).1 = Return tt)
    by (vm_compute; reflexivity).
  split; [exact Hreturns|]. split; [vm_compute; reflexivity|].
  destruct (@setDataLink_sets_decoded_link sample_imports (client_with None JNull)
              sample_skylink_imports "" "pub" "k" "AAAA" None (cached 5) eq_refl)
    as [_ Hset].
  exact (Hset Hreturns).
Defined.

(** ** Uploads *)

(** A response without [bitfield] is not complete: [uploadFile] throws. *)
Example uploadFile_incomplete_response :
  let data := JObject [("skylink", JString "XYZ"); ("merkleroot", JString "abc")] in
  let complete := JObject [("skylink", JString "XYZ"); ("merkleroot", JString "abc");
                           ("bitfield", JNumber 2048)] in
  let file := mkFile (inl "content") "a.txt" "" in
  @Upload.uploadFile (sample_upload (Return data)) file None
  = Throw (Error "Did not get a complete upload response despite a successful request. Please try again and report this issue to the devs if it persists.")
  ∧ @Upload.uploadFile (sample_upload (Return complete)) file None
    = Return (Upload.mkUploadRequestResponse "sia:XYZ" "abc" 2048)
  ∧ @Upload.uploadDirectory (sample_upload (Return complete)) [("a.txt", file)] "dir" None
    = Return (Upload.mkUploadRequestResponse "sia:XYZ" "abc" 2048).
Proof. vm_compute. repeat split. Qed.
